(** * Catalog reconciliation and SKU synthesis of the brewery invoice parser

    A shallow embedding of the pricing rule, the text normaliser, the
    catalog matcher, the identity synthesizer and the purchase-order line
    preparation of [app.py].

    Python floats are IEEE binary64 values: they are modelled with the
    Standard Library's [spec_float] and its round-to-nearest-even operations
    at precision 53 and exponent bound 1024.  Python strings are modelled as
    [String.string], one [ascii] per code point of the Latin-1 range. *)

From Stdlib Require Import ZArith Lia Bool List String Ascii.
From Stdlib Require Import SpecFloat Permutation.
Import ListNotations.

Open Scope Z_scope.
#[local] Set Warnings "-notation-for-abbreviation".

Notation float := spec_float.

(** ** Python floats *)

Module PyFloat.

Definition prec : Z := 53.
Definition emax : Z := 1024.

Definition add (x y : float) : float := SFadd prec emax x y.
Definition mul (x y : float) : float := SFmul prec emax x y.
Definition div (x y : float) : float := SFdiv prec emax x y.
Definition ltb (x y : float) : bool := SFltb x y.
Definition eqb (x y : float) : bool := SFeqb x y.

Definition zero : float := S754_zero false.

(** [n / d] rounded to the nearest binary64 value, ties to even; this is
    what Python's [float()] does with a decimal literal and what
    [_Py_dg_strtod] does after [round]. *)
Definition of_ratio (n : Z) (d : positive) : float :=
  match n with
  | Z0 => S754_zero false
  | Zpos p =>
      let '(m, e, l) := SFdiv_core_binary prec emax (Zpos p) 0 (Zpos d) 0 in
      binary_round_aux prec emax false m e l
  | Zneg p =>
      let '(m, e, l) := SFdiv_core_binary prec emax (Zpos p) 0 (Zpos d) 0 in
      binary_round_aux prec emax true m e l
  end.

(** [m * 10^k] as a float literal. *)
Definition dec (m : Z) (k : Z) : float :=
  if 0 <=? k then of_ratio (m * 10 ^ k) 1 else of_ratio m (Z.to_pos (10 ^ (- k))).

Definition of_Z (n : Z) : float := of_ratio n 1.

(** The exact value of a finite float, as a fraction [num / den]. *)
Definition exact (x : float) : option (Z * positive) :=
  match x with
  | S754_zero _ => Some (0, 1%positive)
  | S754_finite s m e =>
      let n := if s then Zneg m else Zpos m in
      if 0 <=? e then Some (n * 2 ^ e, 1%positive)
      else Some (n, Z.to_pos (2 ^ (- e)))
  | _ => None
  end.

(** Integer division [a / b] (with [b > 0]) rounded half to even. *)
Definition div_half_even (a : Z) (b : Z) : Z :=
  let q := a / b in
  let r := a mod b in
  match Z.compare (2 * r) b with
  | Lt => q
  | Gt => q + 1
  | Eq => if Z.even q then q else q + 1
  end.

Definition is_negative (x : float) : bool :=
  match x with
  | S754_zero s | S754_infinity s | S754_finite s _ _ => s
  | S754_nan => false
  end.

(** Python's [round(x, 2)]: the exact binary value is rounded half to
    even at two decimals ([_Py_dg_dtoa] mode 3) and the decimal result
    is read back with correct rounding; infinities and NaN come back
    unchanged; a zero result keeps the sign of [x]. *)
Definition round2 (x : float) : float :=
  match exact x with
  | None => x
  | Some (n, d) =>
      let c := div_half_even (n * 100) (Zpos d) in
      if c =? 0 then S754_zero (is_negative x) else of_ratio c 100
  end.

End PyFloat.

(** ** Python strings *)

Module PyStr.

Definition code (c : ascii) : Z := Z.of_nat (nat_of_ascii c).
Definition chr (n : Z) : ascii := ascii_of_nat (Z.to_nat n).

(** [str.lower] on the Latin-1 range. *)
Definition lower_char (c : ascii) : ascii :=
  let n := code c in
  if ((65 <=? n) && (n <=? 90)) || ((192 <=? n) && (n <=? 222) && negb (n =? 215))
  then chr (n + 32) else c.

(** [str.upper] on ASCII letters. *)
Definition upper_char (c : ascii) : ascii :=
  let n := code c in
  if (97 <=? n) && (n <=? 122) then chr (n - 32) else c.

Fixpoint map_chars (f : ascii -> ascii) (s : string) : string :=
  match s with
  | EmptyString => EmptyString
  | String c s' => String (f c) (map_chars f s')
  end.

Definition lower (s : string) : string := map_chars lower_char s.
Definition upper (s : string) : string := map_chars upper_char s.

(** [str.isspace] on the Latin-1 range. *)
Definition is_space (c : ascii) : bool :=
  let n := code c in
  ((9 <=? n) && (n <=? 13)) || ((28 <=? n) && (n <=? 32)) || (n =? 133) || (n =? 160).

Definition is_digit (c : ascii) : bool :=
  let n := code c in (48 <=? n) && (n <=? 57).

Definition is_ascii_alnum (c : ascii) : bool :=
  let n := code c in
  is_digit c || ((65 <=? n) && (n <=? 90)) || ((97 <=? n) && (n <=? 122)).

Fixpoint prefix (p s : string) : bool :=
  match p, s with
  | EmptyString, _ => true
  | String _ _, EmptyString => false
  | String a p', String b s' => Ascii.eqb a b && prefix p' s'
  end.

(** [p in s]. *)
Fixpoint contains (p s : string) : bool :=
  match s with
  | EmptyString => prefix p s
  | String _ s' => prefix p s || contains p s'
  end.

Definition startswith (s p : string) : bool := prefix p s.

Fixpoint lstrip (s : string) : string :=
  match s with
  | String c s' => if is_space c then lstrip s' else s
  | EmptyString => EmptyString
  end.

Definition rev_string (s : string) : string :=
  string_of_list_ascii (List.rev (list_ascii_of_string s)).

(** [str.strip()]. *)
Definition strip (s : string) : string := rev_string (lstrip (rev_string (lstrip s))).

(** [s[n:]]. *)
Definition drop (n : nat) (s : string) : string := substring n (length s) s.

(** [str.split()] without arguments: maximal runs of non-space characters. *)
Fixpoint split_ws_aux (cur : string) (s : string) : list string :=
  match s with
  | EmptyString => if String.eqb cur EmptyString then [] else [cur]
  | String c s' =>
      if is_space c
      then (if String.eqb cur EmptyString then [] else [cur]) ++ split_ws_aux EmptyString s'
      else split_ws_aux (String.append cur (String c EmptyString)) s'
  end.

Definition split_ws (s : string) : list string := split_ws_aux EmptyString s.

(** [str.split(sep)] with a one-character separator. *)
Fixpoint split_on_aux (sep : ascii) (cur : string) (s : string) : list string :=
  match s with
  | EmptyString => [cur]
  | String c s' =>
      if Ascii.eqb c sep then cur :: split_on_aux sep EmptyString s'
      else split_on_aux sep (String.append cur (String c EmptyString)) s'
  end.

Definition split_on (sep : ascii) (s : string) : list string := split_on_aux sep EmptyString s.

Definition digit_char (d : Z) : ascii := chr (48 + d).

Fixpoint digits_of_pos_aux (fuel : nat) (n : Z) (acc : string) : string :=
  match fuel with
  | O => acc
  | S fuel' =>
      let acc' := String (digit_char (n mod 10)) acc in
      if n <? 10 then acc' else digits_of_pos_aux fuel' (n / 10) acc'
  end.

(** [str(n)] for a Python [int]. *)
Definition Z_to_string (n : Z) : string :=
  let fuel := S (Z.to_nat (Z.log2 (Z.abs n + 1))) in
  if n <? 0 then String "-"%char (digits_of_pos_aux fuel (- n) EmptyString)
  else digits_of_pos_aux fuel n EmptyString.

End PyStr.

(** ** 1A. Pricing logic: [calculate_sell_price] *)

Module Pricing.

Import PyFloat.

Definition draft_triggers : list string :=
  ["keykeg"; "steel"; "poly"; "uni"; "cask"; "keg"; "firkin"; "pin"]%string.

(** [cost_price] is the argument after [float(cost_price)]: [None] when
    that conversion raises. *)
Definition calculate_sell_price (cost_price : option float)
    (product_type : string) (fmt : string) : float :=
  match cost_price with
  | None => zero
  | Some cost =>
      if eqb cost zero then zero else
      let fmt_lower := PyStr.lower fmt in
      let is_draft := existsb (fun t => PyStr.contains t fmt_lower) draft_triggers in
      if is_draft && ltb (of_Z 140) cost then round2 (add cost (of_Z 40)) else
      if is_draft && ltb cost (of_Z 63) then round2 (add cost (of_Z 20)) else
      if String.eqb product_type "Core Product"%string
      then round2 (mul cost (dec 1265 (-3)))
      else round2 (mul cost (dec 1285 (-3)))
  end.

(** The pricing rule as the specification words it: a case-insensitive
    draft test and four branches tried in order. *)
Definition is_draft_spec (fmt : string) : bool :=
  existsb (fun t => PyStr.contains (PyStr.lower t) (PyStr.lower fmt)) draft_triggers.

Definition sell_price_spec (cost : float) (product_type fmt : string) : float :=
  if is_draft_spec fmt && ltb (of_Z 140) cost then round2 (add cost (of_Z 40))
  else if is_draft_spec fmt && ltb cost (of_Z 63) then round2 (add cost (of_Z 20))
  else if String.eqb product_type "Core Product"%string then round2 (mul cost (dec 1265 (-3)))
  else round2 (mul cost (dec 1285 (-3))).

End Pricing.

(** ** Python's float reading and printing *)

Module PyNum.

Import PyFloat PyStr.

Definition digit_val (c : ascii) : Z := code c - 48.

(** [digit ('_'? digit)*] after a first digit; returns the value read,
    the number of digits and the rest. *)
Fixpoint digit_run (acc : Z) (n : nat) (s : list ascii) : Z * nat * list ascii :=
  match s with
  | c :: s' =>
      if is_digit c then digit_run (acc * 10 + digit_val c) (S n) s'
      else if Ascii.eqb c "_"%char then
        match s' with
        | c2 :: s'' => if is_digit c2 then digit_run (acc * 10 + digit_val c2) (S n) s''
                       else (acc, n, s)
        | [] => (acc, n, s)
        end
      else (acc, n, s)
  | [] => (acc, n, [])
  end.

Definition digitpart (s : list ascii) : option (Z * nat * list ascii) :=
  match s with
  | c :: _ => if is_digit c then Some (digit_run 0 O s) else None
  | [] => None
  end.

(** Mantissa digits, number of fraction digits, rest. *)
Definition number_part (s : list ascii) : option (Z * nat * list ascii) :=
  match digitpart s with
  | Some (a, _, rest) =>
      match rest with
      | c :: r =>
          if Ascii.eqb c "."%char then
            match digitpart r with
            | Some (b, k, r') => Some (a * 10 ^ Z.of_nat k + b, k, r')
            | None => Some (a, O, r)
            end
          else Some (a, O, rest)
      | [] => Some (a, O, rest)
      end
  | None =>
      match s with
      | c :: r =>
          if Ascii.eqb c "."%char then
            match digitpart r with
            | Some (b, k, r') => Some (b, k, r')
            | None => None
            end
          else None
      | [] => None
      end
  end.

Definition sign_part (s : list ascii) : bool * list ascii :=
  match s with
  | c :: r =>
      if Ascii.eqb c "-"%char then (true, r)
      else if Ascii.eqb c "+"%char then (false, r) else (false, s)
  | [] => (false, s)
  end.

Definition exponent_part (s : list ascii) : option (Z * list ascii) :=
  match s with
  | c :: r =>
      if Ascii.eqb c "e"%char || Ascii.eqb c "E"%char then
        let '(neg, r1) := sign_part r in
        match digitpart r1 with
        | Some (x, _, r2) => Some (if neg then - x else x, r2)
        | None => None
        end
      else Some (0, s)
  | [] => Some (0, s)
  end.

Definition negate (neg : bool) (x : float) : float := if neg then SFopp x else x.

(** Python's [float(s)] on a string: [None] when it raises [ValueError]. *)
Definition float_of_string (s0 : string) : option float :=
  let s := strip s0 in
  let '(neg, body) := sign_part (list_ascii_of_string s) in
  let word := lower (string_of_list_ascii body) in
  if String.eqb word "inf"%string || String.eqb word "infinity"%string
  then Some (S754_infinity neg)
  else if String.eqb word "nan"%string then Some S754_nan
  else
    match number_part body with
    | Some (m, k, rest) =>
        match exponent_part rest with
        | Some (x, []) => Some (negate neg (dec m (x - Z.of_nat k)))
        | _ => None
        end
    | None => None
    end.

(** [x.is_integer()] and [int(x)]. *)
Definition is_integer (x : float) : bool :=
  match exact x with
  | Some (n, d) => (n mod Zpos d =? 0)
  | None => false
  end.

Definition trunc (x : float) : Z :=
  match exact x with
  | Some (n, d) => Z.quot n (Zpos d)
  | None => 0
  end.

(** Position of the decimal point of a positive [n / d]: the [E] with
    [10^(E-1) <= n/d < 10^E]. *)
Fixpoint small_exponent (fuel : nat) (j : Z) (n d : Z) : Z :=
  match fuel with
  | O => 1 - j
  | S f => if d <=? n * 10 ^ j then 1 - j else small_exponent f (j + 1) n d
  end.

Definition decpt_of (n d : Z) : Z :=
  if d <=? n then Z.of_nat (String.length (Z_to_string (n / d)))
  else small_exponent 1100 1 n d.

(** [D * 10^(E-k)] as a fraction. *)
Definition scaled (D E k : Z) : Z * positive :=
  if 0 <=? E - k then (D * 10 ^ (E - k), 1%positive)
  else (D, Z.to_pos (10 ^ (k - E))).

Definition reads_back (x : float) (D E k : Z) : bool :=
  let '(a, b) := scaled D E k in
  match SFcompare (of_ratio a b) x with Some Eq => true | _ => false end.

(** The shortest digit string [D] (with [k] digits) that reads back as the
    positive float [x] of exact value [n/d]; among the shortest, the
    nearest.  This is the choice of [repr] ([_Py_dg_dtoa] mode 0). *)
Fixpoint shortest (fuel : nat) (k : Z) (x : float) (n d E : Z) : Z * Z :=
  match fuel with
  | O => (0, k)
  | S f =>
      let D := if 0 <=? k - E then div_half_even (n * 10 ^ (k - E)) d
               else div_half_even n (d * 10 ^ (E - k)) in
      let '(a, b) := scaled D E k in
      let D' := if a * d <? n * Zpos b then D + 1 else D - 1 in
      if reads_back x D E k then (D, k)
      else if reads_back x D' E k then (D', k)
      else shortest f (k + 1) x n d E
  end.

Fixpoint strip_zeros_aux (fuel : nat) (D : Z) : Z :=
  match fuel with
  | O => D
  | S f => if (D mod 10 =? 0) && negb (D =? 0) then strip_zeros_aux f (D / 10) else D
  end.

Fixpoint zeros (n : nat) : string :=
  match n with O => EmptyString | S n' => String "0"%char (zeros n') end.

Definition two_digits (e : Z) : string :=
  if e <? 10 then String "0"%char (Z_to_string e) else Z_to_string e.

(** [format_float_short] in mode ['r'] with [Py_DTSF_ADD_DOT_0]. *)
Definition format_short (S : string) (decpt : Z) : string :=
  let len := Z.of_nat (String.length S) in
  if (decpt <=? -4) || (16 <? decpt) then
    let e := decpt - 1 in
    let mant := match S with
                | String c EmptyString => String c EmptyString
                | String c rest => String c (String "."%char rest)
                | EmptyString => EmptyString
                end in
    (mant ++ "e" ++ (if Z.ltb e 0 then "-" else "+") ++ two_digits (Z.abs e))%string
  else if decpt <=? 0 then ("0." ++ zeros (Z.to_nat (- decpt)) ++ S)%string
  else if len <=? decpt then (S ++ zeros (Z.to_nat (decpt - len)) ++ ".0")%string
  else (substring 0 (Z.to_nat decpt) S ++ "." ++ substring (Z.to_nat decpt) (Z.to_nat (len - decpt)) S)%string.

(** [repr(x)], which is also [str(x)], for a Python float. *)
Definition repr (x : float) : string :=
  match x with
  | S754_nan => "nan"%string
  | S754_infinity s => if s then "-inf"%string else "inf"%string
  | S754_zero s => if s then "-0.0"%string else "0.0"%string
  | S754_finite s m e =>
      let '(n, d) := if 0 <=? e then (Zpos m * 2 ^ e, 1) else (Zpos m, 2 ^ (- e)) in
      let E := decpt_of n d in
      let '(D, k) := shortest 20 1 (S754_finite false m e) n d E in
      let len := Z.of_nat (String.length (Z_to_string D)) in
      let D0 := strip_zeros_aux 20 D in
      let body := format_short (Z_to_string D0) (E + len - k) in
      if s then ("-" ++ body)%string else body
  end.

End PyNum.

(** ** Text normaliser *)

Module Normalize.

Import PyFloat PyStr PyNum.

Fixpoint digits_prefix (s : list ascii) : list ascii * list ascii :=
  match s with
  | c :: r => if is_digit c then let '(d, rest) := digits_prefix r in (c :: d, rest) else ([], s)
  | [] => ([], [])
  end.

(** The match of [\d+\.?\d*] that starts at [s], whose head is a digit. *)
Definition number_token (s : list ascii) : list ascii :=
  let '(int_digits, rest) := digits_prefix s in
  match rest with
  | c :: r => if Ascii.eqb c "."%char then int_digits ++ c :: fst (digits_prefix r) else int_digits
  | [] => int_digits
  end.

(** [re.findall(r'\d+\.?\d*', s)[0]], when there is a match. *)
Fixpoint first_number (s : list ascii) : option string :=
  match s with
  | c :: r => if is_digit c then Some (string_of_list_ascii (number_token s)) else first_number r
  | [] => None
  end.

Definition normalize_vol_string (v_str0 : string) : string :=
  if String.eqb v_str0 EmptyString then "0"%string else
  let v_str := lower (strip v_str0) in
  match first_number (list_ascii_of_string v_str) with
  | None => "0"%string
  | Some tok =>
      match float_of_string tok with
      | None => "0"%string (* a token of the pattern always reads as a float *)
      | Some val0 =>
          let val := if contains "ml" v_str then div val0 (of_Z 10) else val0 in
          if is_integer val then Z_to_string (trunc val) else repr val
      end
  end.

(** [re.sub(r'[^a-zA-Z0-9\s]', '', s)]. *)
Fixpoint keep_alnum_space (s : string) : string :=
  match s with
  | EmptyString => EmptyString
  | String c s' =>
      if is_ascii_alnum c || is_space c then String c (keep_alnum_space s')
      else keep_alnum_space s'
  end.

(** [s.ljust(n, 'X')[:n]]. *)
Definition ljust_x (n : nat) (s : string) : string :=
  substring 0 n (s ++ String.concat EmptyString (List.repeat "X"%string (n - String.length s)))%string.

Definition first_char (w : string) : string := substring 0 1 w.
Definition first_two (w : string) : string := substring 0 2 w.

Definition generate_sku_parts (product_name : string) : string :=
  let clean_name := upper (keep_alnum_space product_name) in
  let words := split_ws clean_name in
  match words with
  | [] => "XXXX"%string
  | w1 :: rest =>
      if (4 <=? Z.of_nat (List.length words))%Z then
        String.concat EmptyString (List.map first_char (List.firstn 4 words))
      else match rest with
           | w2 :: _ => ljust_x 4 (first_two w1 ++ first_two w2)%string
           | [] => ljust_x 4 (first_two w1 ++ "XX")%string
           end
  end.

End Normalize.

(** ** Catalog matcher: [run_reconciliation_check] *)

Module Matcher.

Import PyFloat PyStr PyNum Normalize.

(** A variant node of the catalog query; [v_sku = None] is a JSON [null]. *)
Record variant := mkVariant { v_title : string; v_sku : option string }.

(** A product node of the catalog query.  [format_meta] and [keg_meta] are
    the [value]s of the two metafields, [None] when the metafield is
    [null]; [featured_image] is the image URL, if any. *)
Record product := mkProduct {
  p_title : string;
  format_meta : option string;
  keg_meta : option string;
  p_variants : list variant;
  featured_image : option string }.

(** The columns of an invoice line read by the matcher, after [str()]. *)
Record invoice_line := mkLine {
  supplier_name : string;
  product_name : string;
  use_split : bool;
  pack_size : string;
  volume : string;
  format : string }.

(** ["❓ Vendor Not Found"], ["🟥 Check and Upload"], ["✅ Match"]. *)
Inductive status := VendorNotFound | CheckAndUpload | Match.

(** The value stored in a [Cin7_..._ID] column: the initial [""], or the
    result of [get_cin7_product_id], which may be [None]. *)
Inductive id_cell := IdText (s : string) | IdNone.

Record match_result := mkResult {
  shopify_status : status;
  matched_product : string;
  matched_variant : string;
  image : string;
  london_sku : string;
  cin7_london_id : id_cell;
  gloucester_sku : string;
  cin7_glou_id : id_cell }.

(** A Python exception interrupts the whole check. *)
Inductive outcome (A : Type) := Raised | Done (a : A).
Arguments Raised {A}.
Arguments Done {A} a.

Open Scope string_scope.

(** [inv_pack] from the [Pack_Size] text and the split flag. *)
Definition float_token (x : float) : string :=
  if is_integer x then Z_to_string (trunc x) else repr x.

Definition pack_token (split : bool) (pack_text : string) : string :=
  let raw_pack := strip pack_text in
  let pack_val := match float_of_string raw_pack with Some f => f | None => of_Z 1 end in
  if split && ltb (of_Z 1) pack_val then float_token (div pack_val (of_Z 2))
  else float_token pack_val.

(** [shop_prod_name_clean]. *)
Definition clean_title (title : string) : string :=
  if contains "/" title then
    match List.map strip (split_on "/"%char title) with
    | _ :: p1 :: _ => p1
    | _ => title
    end
  else title.

Section WithLibrary.

(** [fuzz.token_sort_ratio] of the [thefuzz] library. *)
Variable token_sort_ratio : string -> string -> Z.
(** [get_cin7_product_id], a call to the inventory system. *)
Variable get_cin7_product_id : string -> id_cell.

Definition score (inv_prod_name : string) (p : product) : Z :=
  let c := clean_title (p_title p) in
  token_sort_ratio inv_prod_name c
  + (if contains (lower inv_prod_name) (lower c) then 10 else 0).

Definition scored (inv_prod_name : string) (cands : list product) : list (Z * product * string) :=
  List.filter (fun e => Z.ltb 40 (fst (fst e)))
    (List.map (fun p => (score inv_prod_name p, p, clean_title (p_title p))) cands).

(** [list.sort(key=..., reverse=True)] is stable: equal keys keep their order. *)
Fixpoint insert_desc (x : Z * product * string) (l : list (Z * product * string)) :=
  match l with
  | [] => [x]
  | y :: l' => if Z.leb (fst (fst x)) (fst (fst y)) then y :: insert_desc x l' else x :: l
  end.

Definition sort_desc (l : list (Z * product * string)) : list (Z * product * string) :=
  List.fold_left (fun acc x => insert_desc x acc) l [].

(** The keg and cask compatibility filter. *)
Definition keg_compatible (inv_fmt shop_keg_val : string) : bool :=
  let is_poly_inv := contains "poly" inv_fmt || contains "dolium" inv_fmt || contains "pet" inv_fmt in
  let is_key_inv := contains "keykeg" inv_fmt in
  let is_steel_inv := contains "steel" inv_fmt || contains "stainless" inv_fmt in
  let is_poly_shop := contains "poly" shop_keg_val || contains "dolium" shop_keg_val in
  let is_key_shop := contains "keykeg" shop_keg_val in
  let is_steel_shop := contains "steel" shop_keg_val || contains "stainless" shop_keg_val in
  negb (is_poly_inv && (is_key_shop || is_steel_shop))
  && negb (is_key_inv && (is_poly_shop || is_steel_shop))
  && negb (is_steel_inv && (is_poly_shop || is_key_shop)).

Definition is_compatible (inv_fmt shop_format_str shop_keg_val : string) : bool :=
  if contains "keg" inv_fmt then keg_compatible inv_fmt shop_keg_val
  else if contains "cask" inv_fmt || contains "firkin" inv_fmt then
    negb (contains "keg" shop_format_str && negb (contains "cask" shop_format_str))
  else true.

Definition pack_ok (inv_pack v_title : string) : bool :=
  if String.eqb inv_pack "1" then negb (contains " x " v_title)
  else contains (inv_pack ++ " x") v_title || contains (inv_pack ++ "x") v_title.

Definition vol_ok (inv_vol v_title : string) : bool :=
  contains inv_vol v_title
  || (Nat.eqb (String.length inv_vol) 2 && contains (inv_vol ++ "0") v_title)
  || (String.eqb inv_vol "9" && contains "firkin" v_title)
  || ((String.eqb inv_vol "4" || String.eqb inv_vol "4.5") && contains "pin" v_title)
  || ((String.eqb inv_vol "40" || String.eqb inv_vol "41") && contains "firkin" v_title)
  || ((String.eqb inv_vol "20" || String.eqb inv_vol "21") && contains "pin" v_title).

Fixpoint find_variant (inv_pack inv_vol : string) (vs : list variant) : option variant :=
  match vs with
  | [] => None
  | v :: vs' =>
      let t := lower (v_title v) in
      if pack_ok inv_pack t && vol_ok inv_vol t then Some v else find_variant inv_pack inv_vol vs'
  end.

(** The walk over the sorted candidates. *)
Fixpoint find_match (inv_fmt inv_pack inv_vol : string) (cands : list (Z * product * string))
    : outcome (option (product * variant)) :=
  match cands with
  | [] => Done None
  | (s, p, _) :: rest =>
      if Z.ltb s 75 then find_match inv_fmt inv_pack inv_vol rest else
      match format_meta p with
      | None => Raised (* [None.get('value', '')] raises [AttributeError] *)
      | Some shop_fmt_meta =>
          let shop_format_str := lower (shop_fmt_meta ++ " " ++ lower (p_title p)) in
          let shop_keg_val := lower (match keg_meta p with Some v => v | None => "" end) in
          if negb (is_compatible inv_fmt shop_format_str shop_keg_val)
          then find_match inv_fmt inv_pack inv_vol rest
          else match find_variant inv_pack inv_vol (p_variants p) with
               | Some v => Done (Some (p, v))
               | None => find_match inv_fmt inv_pack inv_vol rest
               end
      end
  end.

Definition sku_text (v : variant) : string :=
  strip (match v_sku v with Some s => s | None => "None" end).

Definition empty_result (st : status) : match_result :=
  mkResult st "" "" "" "" (IdText "") "" (IdText "").

Definition matched_result (p : product) (v : variant) : match_result :=
  let full_title := p_title p in
  let name := if startswith full_title "L-" || startswith full_title "G-"
              then drop 2 full_title else full_title in
  let img := match featured_image p with Some u => u | None => "" end in
  let sk := sku_text v in
  let '(l, g) := if Nat.ltb 2 (String.length sk)
                 then ("L-" ++ drop 2 sk, "G-" ++ drop 2 sk) else ("", "") in
  mkResult Match name (v_title v) img
    l (if String.eqb l "" then IdText "" else get_cin7_product_id l)
    g (if String.eqb g "" then IdText "" else get_cin7_product_id g).

(** One row of the check; [cands] is [shopify_cache.get(supplier)]. *)
Definition match_line (cands : option (list product)) (row : invoice_line) : outcome match_result :=
  let inv_pack := pack_token (use_split row) (pack_size row) in
  let inv_vol := normalize_vol_string (volume row) in
  let inv_fmt := lower (format row) in
  match cands with
  | Some ((_ :: _) as cs) =>
      match find_match inv_fmt inv_pack inv_vol (sort_desc (scored (product_name row) cs)) with
      | Raised => Raised
      | Done None => Done (empty_result CheckAndUpload)
      | Done (Some (p, v)) => Done (matched_result p v)
      end
  | _ => Done (empty_result VendorNotFound)
  end.

(** The whole check: the catalog is fetched once per non-blank supplier. *)
Variable fetch_shopify_products_by_vendor : string -> list product.

Definition cache_lookup (suppliers : list string) (s : string) : option (list product) :=
  if List.existsb (String.eqb s) suppliers then Some (fetch_shopify_products_by_vendor s) else None.

Fixpoint run_rows (suppliers : list string) (rows : list invoice_line) : outcome (list match_result) :=
  match rows with
  | [] => Done []
  | r :: rs =>
      match match_line (cache_lookup suppliers (supplier_name r)) r with
      | Raised => Raised
      | Done m => match run_rows suppliers rs with
                  | Raised => Raised
                  | Done ms => Done (m :: ms)
                  end
      end
  end.

Definition run_reconciliation_check (rows : list invoice_line) : outcome (list match_result) :=
  let suppliers := List.filter (fun s => negb (String.eqb (strip s) "")) (List.map supplier_name rows) in
  run_rows suppliers rows.

End WithLibrary.

End Matcher.

(** ** Identity synthesizer: the "Generate Upload Data" loop *)

Module Synth.

Import PyFloat PyStr PyNum Normalize Pricing.
Export Matcher.

Open Scope string_scope.

(** A staged row, the columns read by the loop (text cells after [str()]
    where the loop applies it). *)
Record staged := mkStaged {
  untappd_brewery : string;
  untappd_product : string;
  st_format : string;
  st_volume : string;
  untappd_abv : string;
  attribute_5 : string;
  st_pack_size : string;
  st_item_price : string;
  is_split_case : bool }.

(** The lookup tables read from the sheets, as Python dicts. *)
Record tables := mkTables {
  supplier_map : list (string * string);
  format_map : list (string * string);
  weight_map : list ((string * string) * float);
  size_code_map : list ((string * string) * string);
  keg_map : list (string * string) }.

Fixpoint get {K V : Type} (eqk : K -> K -> bool) (m : list (K * V)) (k : K) (dflt : V) : V :=
  match m with
  | [] => dflt
  | (k', v) :: m' => if eqk k k' then v else get eqk m' k dflt
  end.

Definition eq_pair (a b : string * string) : bool :=
  String.eqb (fst a) (fst b) && String.eqb (snd a) (snd b).

(** One output row of the loop. *)
Record synth_row := mkRow {
  family_sku : string;
  family_name : string;
  weight : float;
  keg_connector : string;
  attr_5 : string;
  item_price : float;
  sales_price : float;
  row_pack_size : float;
  variant_name : string;
  variant_sku : string }.

Definition connectors_of (fmt_name : string) : list string :=
  let fmt_lower := lower fmt_name in
  if contains "dolium" fmt_lower && contains "us" fmt_lower then ["US Sankey D-Type Coupler"]
  else if contains "poly" fmt_lower then ["Sankey Coupler"; "KeyKeg Coupler"]
  else if contains "key" fmt_lower then ["KeyKeg Coupler"]
  else if contains "steel" fmt_lower then ["Sankey Coupler"]
  else [""].

Definition family_sku_of (tb : tables) (today_str : string) (idx : Z) (row : staged) : string :=
  let fmt_name := strip (st_format row) in
  let s_code := get String.eqb (supplier_map tb) (untappd_brewery row) "XXXX" in
  let p_code := generate_sku_parts (untappd_product row) in
  let f_code := get String.eqb (format_map tb) (lower fmt_name) "UN" in
  s_code ++ p_code ++ "-" ++ today_str ++ "-" ++ Z_to_string idx ++ "-" ++ f_code.

Definition family_name_of (row : staged) : string :=
  untappd_brewery row ++ " / " ++ untappd_product row ++ " / "
  ++ strip (untappd_abv row) ++ "% / " ++ strip (st_format row).

Definition orig_pack_of (row : staged) : float :=
  let raw_pack := st_pack_size row in
  if negb (String.eqb raw_pack "") && negb (String.eqb (lower raw_pack) "nan") then
    match float_of_string raw_pack with Some f => f | None => of_Z 1 end
  else of_Z 1.

Definition orig_price_of (row : staged) : float :=
  match float_of_string (st_item_price row) with Some f => f | None => zero end.

(** The (pack, price) configurations: the original, and the split case. *)
Definition variants_config (row : staged) : list (float * float) :=
  let p := orig_pack_of row in
  let c := orig_price_of row in
  (p, c) :: (if is_split_case row && ltb (of_Z 1) p then [(div p (of_Z 2), div c (of_Z 2))] else []).

Definition variant_name_of (pack_int : Z) (is_multipack : bool) (vol_name conn : string) : string :=
  let var_name_base := if is_multipack then Z_to_string pack_int ++ " x " ++ vol_name else vol_name in
  if String.eqb conn "" then var_name_base else var_name_base ++ " - " ++ conn.

Definition synth_rows_for (tb : tables) (row : staged) (fsku fname : string)
    (v_conf : float * float) : outcome (list synth_row) :=
  let '(curr_pack, curr_price) := v_conf in
  let fmt_name := strip (st_format row) in
  let vol_name := strip (st_volume row) in
  let lookup_key := (lower fmt_name, lower vol_name) in
  let unit_weight := get eq_pair (weight_map tb) lookup_key zero in
  let size_code := get eq_pair (size_code_map tb) lookup_key "00" in
  match exact curr_pack with
  | None => Raised (* [int()] of an infinity or a NaN raises *)
  | Some _ =>
      let pack_int := trunc curr_pack in
      let is_multipack := ltb (of_Z 1) curr_pack in
      let total_weight := mul unit_weight curr_pack in
      let sell_price := calculate_sell_price (Some curr_price) (attribute_5 row) fmt_name in
      Done (List.map (fun conn =>
        let sku_suffix :=
          (if is_multipack then "-" ++ Z_to_string pack_int ++ "X" ++ size_code else "-" ++ size_code)
          ++ (if String.eqb conn "" then "" else "-" ++ get String.eqb (keg_map tb) (lower conn) "XX") in
        mkRow fsku fname total_weight conn (attribute_5 row) curr_price sell_price curr_pack
          (variant_name_of pack_int is_multipack vol_name conn) (fsku ++ sku_suffix))
        (connectors_of fmt_name))
  end.

Fixpoint concat_outcomes {A : Type} (l : list (outcome (list A))) : outcome (list A) :=
  match l with
  | [] => Done []
  | Raised :: _ => Raised
  | Done xs :: l' => match concat_outcomes l' with
                     | Raised => Raised
                     | Done ys => Done (List.app xs ys)
                     end
  end.

(** The rows generated for the staged row at index [idx]. *)
Definition synthesize (tb : tables) (today_str : string) (idx : Z) (row : staged)
    : outcome (list synth_row) :=
  let fsku := family_sku_of tb today_str idx row in
  let fname := family_name_of row in
  concat_outcomes (List.map (synth_rows_for tb row fsku fname) (variants_config row)).

End Synth.

(** ** Purchase-order lines: [prepare_final_po_lines] *)

Module PurchaseOrder.

Import PyFloat Matcher.

Open Scope string_scope.

Record po_input := mkPoInput {
  in_status : status;
  in_product_name : string;
  in_matched_variant : string;
  in_quantity : float;
  in_item_price : float;
  in_use_split : bool;
  in_cin7_london_id : id_cell;
  in_cin7_glou_id : id_cell }.

Record po_row := mkPoRow {
  po_product : string;
  po_variant_match : string;
  po_qty : float;
  po_cost : float;
  po_total : float;
  po_notes : string;
  po_cin7_london_id : id_cell;
  po_cin7_glou_id : id_cell }.

Definition split_note : string := "⚠️ Split Case (Half Size)".

Definition po_line (row : po_input) : po_row :=
  let raw_qty := in_quantity row in
  let raw_price := in_item_price row in
  let '(final_qty, final_price, notes) :=
    if in_use_split row then (mul raw_qty (of_Z 2), div raw_price (of_Z 2), split_note)
    else (raw_qty, raw_price, "") in
  mkPoRow (in_product_name row) (in_matched_variant row) final_qty final_price
    (mul final_qty final_price) notes (in_cin7_london_id row) (in_cin7_glou_id row).

Fixpoint prepare_final_po_lines (rows : list po_input) : list po_row :=
  match rows with
  | [] => []
  | r :: rs =>
      match in_status r with
      | Match => po_line r :: prepare_final_po_lines rs
      | _ => prepare_final_po_lines rs
      end
  end.

End PurchaseOrder.

Module SpecModels.

Import PyStr Normalize Matcher.

(** The product code rule in the words of the specification, with the
    single-word case padded to four characters. *)
Definition product_code_words (words : list string) : string :=
  match words with
  | [] => "XXXX"%string
  | [w] => ljust_x 4 (first_two w ++ "XX")%string
  | w1 :: w2 :: _ =>
      if Nat.leb 4 (List.length words)
      then String.concat EmptyString (List.map first_char (List.firstn 4 words))
      else ljust_x 4 (first_two w1 ++ first_two w2)%string
  end.

(** The fields of a candidate read by the compatibility filter. *)
Definition shop_format_str (p : product) (m : string) : string :=
  lower (m ++ " " ++ lower (p_title p)).

Definition shop_keg_val (p : product) : string :=
  lower (match keg_meta p with Some v => v | None => "" end).

(** The location SKU of the specification: the location prefix put in
    place of the first two characters of the stripped variant SKU. *)
Definition loc_sku (pre k : string) : string :=
  if Nat.ltb 2 (String.length k) then (pre ++ drop 2 k)%string else EmptyString.

Open Scope string_scope.

(** Invoice lines and catalog candidates used as concrete inputs. *)
Definition can_line : invoice_line :=
  mkLine "Example Brew Co" "Test Pale" false "1" "330ml" "Can".

Definition can_variant : variant := mkVariant "330ml" (Some "L-TP33").

Definition can_candidate : product :=
  mkProduct "Test Pale" (Some "Can") None [can_variant] None.

Definition short_sku_candidate : product :=
  mkProduct "Test Pale" (Some "Can") None [mkVariant "330ml" (Some "AB")] None.

Definition keykeg_line : invoice_line :=
  mkLine "Example Brew Co" "Test Pale" false "1" "30L" "KeyKeg 30L".

Definition pet_candidate : product :=
  mkProduct "Test Pale" (Some "Keg") (Some "PET") [mkVariant "30L" (Some "L-TPKK30")] None.

(** The two output forms named by the specification of the volume
    normaliser: an integer text (digits only) and a decimal text (digits,
    a point, digits). *)
Definition all_digits (s : string) : bool :=
  negb (String.eqb s "") && List.forallb is_digit (list_ascii_of_string s).

Definition is_int_string (s : string) : bool := all_digits s.

Definition is_decimal_string (s : string) : bool :=
  match split_on "."%char s with
  | [a; b] => all_digits a && all_digits b
  | _ => false
  end.

(** A volume text whose number has 310 digits. *)
Definition huge_volume : string := string_of_list_ascii (List.repeat "1"%char 310) ++ "l".

End SpecModels.

(** ** Python values, dicts and JSON payloads *)

Module PyObj.

Import PyFloat PyStr PyNum.

Open Scope string_scope.

(** A scalar held in a DataFrame cell, a pandas row or a dict. *)
Inductive pyval := VStr (s : string) | VFloat (f : float) | VInt (n : Z) | VBool (b : bool) | VNone.

(** [str(v)], which is also what an f-string inserts. *)
Definition py_str (v : pyval) : string :=
  match v with
  | VStr s => s
  | VFloat f => repr f
  | VInt n => Z_to_string n
  | VBool b => if b then "True" else "False"
  | VNone => "None"
  end.

(** [bool(v)]: a NaN is true, a zero of either sign is false. *)
Definition truthy (v : pyval) : bool :=
  match v with
  | VStr s => negb (String.eqb s "")
  | VFloat f => negb (eqb f zero)
  | VInt n => negb (Z.eqb n 0)
  | VBool b => b
  | VNone => false
  end.

(** [float(v)]: [None] when it raises ([ValueError] on a bad text,
    [TypeError] on [None], [OverflowError] on a huge [int]). *)
Definition py_float (v : pyval) : option float :=
  match v with
  | VStr s => float_of_string s
  | VFloat f => Some f
  | VInt n => match of_Z n with S754_infinity _ => None | f => Some f end
  | VBool b => Some (of_Z (if b then 1 else 0))
  | VNone => None
  end.

(** [int(x)] of a float: [None] when it raises on an infinity or a NaN. *)
Definition py_int (x : float) : option Z :=
  match exact x with Some _ => Some (trunc x) | None => None end.

(** The numeric value of a number, as a fraction; [None] for text, [None],
    infinities and NaN. *)
Definition num_of (v : pyval) : option (Z * positive) :=
  match v with
  | VInt n => Some (n, 1%positive)
  | VBool b => Some (if b then 1 else 0, 1%positive)
  | VFloat f => exact f
  | _ => None
  end.

(** [a == b]: numbers of any type compare by value ([True == 1 == 1.0]),
    text with text, [None] with [None]. *)
Definition py_eq (a b : pyval) : bool :=
  match a, b with
  | VStr s, VStr t => String.eqb s t
  | VNone, VNone => true
  | VStr _, _ | _, VStr _ | VNone, _ | _, VNone => false
  | VFloat (S754_infinity s), VFloat (S754_infinity t) => Bool.eqb s t
  | _, _ =>
      match num_of a, num_of b with
      | Some (n1, d1), Some (n2, d2) => Z.eqb (n1 * Zpos d2) (n2 * Zpos d1)
      | _, _ => false
      end
  end.

(** A dict, or a pandas row, as its (key, value) pairs in order. *)
Definition dict := list (string * pyval).

(** [d[k]]: [None] when it raises [KeyError]. *)
Fixpoint dict_lookup (d : dict) (k : string) : option pyval :=
  match d with
  | [] => None
  | (k', v) :: d' => if String.eqb k k' then Some v else dict_lookup d' k
  end.

(** [d.get(k, dflt)]. *)
Definition dict_get (d : dict) (k : string) (dflt : pyval) : pyval :=
  match dict_lookup d k with Some v => v | None => dflt end.

(** [k in d]. *)
Definition dict_has (d : dict) (k : string) : bool :=
  match dict_lookup d k with Some _ => true | None => false end.

(** [d[k] = v]: an existing key keeps its place, a new key goes last. *)
Fixpoint dict_set (k : string) (v : pyval) (d : dict) : dict :=
  match d with
  | [] => [(k, v)]
  | (k', v') :: d' => if String.eqb k k' then (k', v) :: d' else (k', v') :: dict_set k v d'
  end.

(** A JSON payload built by the code: scalars, lists and objects. *)
#[local] Set Warnings "-register-all".
Inductive pyobj := PV (v : pyval) | PList (l : list pyobj) | PDict (d : list (string * pyobj)).

Fixpoint obj_lookup (d : list (string * pyobj)) (k : string) : option pyobj :=
  match d with
  | [] => None
  | (k', v) :: d' => if String.eqb k k' then Some v else obj_lookup d' k
  end.

(** [p[k]] on a JSON object. *)
Definition obj_field (p : pyobj) (k : string) : option pyobj :=
  match p with PDict d => obj_lookup d k | _ => None end.

(** A DataFrame: its column labels and its rows, each an index label and
    the values of the columns in order. *)
Record frame := mkFrame { columns : list string; rows : list (Z * list pyval) }.

(** [row] of [df.iterrows()]. *)
Definition row_dict (f : frame) (vals : list pyval) : dict := combine (columns f) vals.

(** [df.empty]: no column or no row. *)
Definition frame_empty (f : frame) : bool :=
  match columns f, rows f with
  | [], _ | _, [] => true
  | _, _ => false
  end.

End PyObj.

(** ** Shopify payload helpers *)

Module Shopify.

Import PyFloat PyStr PyNum PyObj Matcher.

Open Scope string_scope.

Definition valid_options : list string :=
  ["6 Packs"; "12 Packs"; "24 Packs"; "KeyKeg Coupler"; "Sankey Coupler"; "US Sankey D-Type Coupler"].

(** [get_filter_group]: [None] is Python's [None]. *)
Definition get_filter_group (row : dict) : option string :=
  let connector := strip (py_str (dict_get row "Keg_Connector" (VStr ""))) in
  if List.existsb (String.eqb connector) valid_options then Some connector
  else
    let pack := match py_float (dict_get row "pack_size" (VInt 0)) with
                | Some f => match py_int f with Some n => n | None => 0 end
                | None => 0
                end in
    let pack_str := Z_to_string pack ++ " Packs" in
    if List.existsb (String.eqb pack_str) valid_options then Some pack_str else None.

(** [get_abv_category]: the bare [except] turns any failure of [float()]
    into [""]. *)
Definition get_abv_category (abv_str : pyval) : string :=
  match py_float abv_str with
  | None => ""
  | Some val =>
      if SFleb val (of_Z 3) then "0% - 3%"
      else if SFleb val (of_Z 5) then "3% - 5%"
      else if SFleb val (of_Z 7) then "5% - 7%"
      else "7%+"
  end.

(** [s.split(sep, 1)] when [sep] occurs in [s]: the text before its first
    occurrence and the text after. *)
Fixpoint split_once (sep : ascii) (s : string) : option (string * string) :=
  match s with
  | EmptyString => None
  | String c s' =>
      if Ascii.eqb c sep then Some (EmptyString, s')
      else match split_once sep s' with
           | Some (a, b) => Some (String c a, b)
           | None => None
           end
  end.

Definition split_untappd_style (full_style : pyval) : string * string :=
  if negb (truthy full_style) then ("", "")
  else
    let s := py_str full_style in
    match split_once "-"%char s with
    | Some (a, b) => (strip a, strip b)
    | None => (strip s, "")
    end.

(** [s.replace(old, new)] for a non-empty [old]: occurrences are replaced
    from left to right without overlap. *)
Fixpoint replace_aux (fuel : nat) (old new s : string) : string :=
  match fuel with
  | O => s
  | S f =>
      match s with
      | EmptyString => EmptyString
      | String c s' =>
          if prefix old s then new ++ replace_aux f old new (drop (String.length old) s)
          else String c (replace_aux f old new s')
      end
  end.

Definition replace (old new s : string) : string := replace_aux (String.length s) old new s.

Definition metafield (key : string) (value : pyval) (type : string) : pyobj :=
  PDict [("key", PV (VStr key)); ("value", PV value); ("type", PV (VStr type));
         ("namespace", PV (VStr "custom"))].

(** [create_shopify_variant_payload]; [Raised] when a [row[...]] lookup or
    [float()] raises. *)
Definition create_shopify_variant_payload (row : dict) (location_prefix : string) : outcome pyobj :=
  let is_london := String.eqb location_prefix "L" in
  let prefix := if is_london then "L-" else "G-" in
  match dict_lookup row "Variant_SKU", dict_lookup row "Sales_Price",
        dict_lookup row "Variant_Name", py_float (dict_get row "Weight" (VInt 0)) with
  | Some vsku, Some sp, Some title, Some weight =>
      let sku := prefix ++ py_str vsku in
      let price := py_str sp in
      let filter_val := get_filter_group row in
      let metafields :=
        metafield "split_case" (VStr "false") "boolean"
        :: match filter_val with
           | Some fv => if negb (String.eqb fv "")
                        then [metafield "filter_group" (VStr fv) "single_line_text_field"] else []
           | None => []
           end in
      Done (PDict [("sku", PV (VStr sku)); ("price", PV (VStr price)); ("title", PV title);
                   ("weight", PV (VFloat weight)); ("weight_unit", PV (VStr "kg"));
                   ("option1", PV title); ("inventory_management", PV (VStr "shopify"));
                   ("fulfillment_service", PV (VStr "manual")); ("inventory_policy", PV (VStr "deny"));
                   ("metafields", PList metafields)])
  | _, _, _, _ => Raised
  end.

(** [create_shopify_product_payload]; [Raised] when a [row[...]] lookup
    raises, or when a true [Label_Thumb] is not a text and has no
    [.replace]. *)
Definition create_shopify_product_payload (row : dict) (location_prefix : string)
    (variants_list : list pyobj) : outcome pyobj :=
  let is_london := String.eqb location_prefix "L" in
  let prefix := if is_london then "L-" else "G-" in
  let loc_name := if is_london then "London" else "Gloucester" in
  match dict_lookup row "Family_Name", dict_lookup row "untappd_brewery" with
  | Some family_base, Some vendor =>
      let full_title := prefix ++ py_str family_base in
      let body_html := dict_get row "description" (VStr "") in
      let prod_type := loc_name in
      let abv_val := dict_get row "untappd_abv" (VStr "0") in
      let abv_cat := get_abv_category abv_val in
      let '(style_prim, style_sec) := split_untappd_style (dict_get row "untappd_style" (VStr "")) in
      let untappd_id := let u := dict_get row "Untappd_ID" (VStr "") in
                        if truthy u then u else dict_get row "untappd_id" (VStr "") in
      let filter_val := match get_filter_group row with Some s => VStr s | None => VNone end in
      let tags_list := [VStr loc_name; VStr "Wholesale"; vendor;
                        dict_get row "Type" (VStr "Beer"); dict_get row "format" (VStr "");
                        VStr style_prim; VStr style_sec; VStr abv_cat;
                        dict_get row "Attribute_5" (VStr "Rotational Product"); filter_val] in
      let tags_str := String.concat "," (List.map py_str (List.filter truthy tags_list)) in
      let thumb := dict_get row "Label_Thumb" VNone in
      let images := if truthy thumb
                    then match thumb with
                         | VStr t => Done [PDict [("src", PV (VStr (replace "Icon.png" "HD.png" t)))]]
                         | _ => Raised
                         end
                    else Done [] in
      match images with
      | Raised => Raised
      | Done images =>
          let metafields := List.app
            [metafield "abv" (VStr (py_str abv_val)) "number_decimal";
             metafield "depot" (VStr loc_name) "single_line_text_field";
             metafield "format" (dict_get row "format" (VStr "")) "single_line_text_field";
             metafield "primary_style" (VStr style_prim) "single_line_text_field";
             metafield "secondary_style" (VStr style_sec) "single_line_text_field";
             metafield "collaboration" (dict_get row "collaborator" (VStr "")) "single_line_text_field";
             metafield "keg_type" (dict_get row "format" (VStr "")) "single_line_text_field";
             metafield "ut_ignore" (VStr "false") "boolean";
             metafield "ut_id" (VStr (py_str untappd_id)) "number_integer";
             metafield "ut_description" body_html "multi_line_text_field";
             metafield "brewery_location" (dict_get row "Brewery_Loc" (VStr "")) "single_line_text_field";
             metafield "abv_category" (VStr abv_cat) "single_line_text_field"]
            (List.app (if truthy thumb
                then [metafield "ut_img_small" thumb "single_line_text_field";
                      metafield "ut_img_hd" thumb "single_line_text_field"]
                else [])
              (if truthy untappd_id
                then [metafield "ut_link" (VStr ("https://untappd.com/beer/" ++ py_str untappd_id))
                        "single_line_text_field"]
                else [])) in
          Done (PDict [("product", PDict [
            ("title", PV (VStr full_title)); ("body_html", PV body_html); ("vendor", PV vendor);
            ("product_type", PV (VStr prod_type)); ("status", PV (VStr "draft"));
            ("tags", PV (VStr tags_str)); ("variants", PList variants_list);
            ("images", PList images); ("metafields", PList metafields)])])
      end
  | _, _ => Raised
  end.

(** Reading a payload back: a field of the ["product"] object, and the
    keys of its metafields. *)
Definition product_field (p : pyobj) (k : string) : option pyobj :=
  match obj_field p "product" with Some q => obj_field q k | None => None end.

Definition metafield_key (m : pyobj) : option string :=
  match m with
  | PDict d => match obj_lookup d "key" with Some (PV (VStr k)) => Some k | _ => None end
  | _ => None
  end.

Definition metafield_value (m : pyobj) : option pyobj :=
  match m with PDict d => obj_lookup d "value" | _ => None end.

Definition metafields_of (fields : option pyobj) : list pyobj :=
  match fields with Some (PList l) => l | _ => [] end.

End Shopify.

(** ** Staging the product matrix: [stage_products_for_upload] *)

Module Staging.

Import PyStr PyObj.

Open Scope string_scope.

Definition required : list string :=
  ["Untappd_Brewery"; "Untappd_Product"; "Untappd_ABV"; "Untappd_Style"; "Untappd_Desc"].

(** The staged row of format slot [i]; the [row[...]] reads of the
    required columns cannot raise, their presence having been checked. *)
Definition staged_row (row : dict) (fmt_val : string) (i : string) : dict :=
  [("untappd_brewery", dict_get row "Untappd_Brewery" VNone);
   ("collaborator", dict_get row "Collaborator" (VStr ""));
   ("untappd_product", dict_get row "Untappd_Product" VNone);
   ("untappd_abv", dict_get row "Untappd_ABV" VNone);
   ("untappd_style", dict_get row "Untappd_Style" VNone);
   ("description", dict_get row "Untappd_Desc" VNone);
   ("format", VStr fmt_val);
   ("pack_size", dict_get row ("Pack_Size" ++ i) (VStr ""));
   ("volume", dict_get row ("Volume" ++ i) (VStr ""));
   ("item_price", dict_get row ("Item_Price" ++ i) (VStr ""));
   ("is_split_case", dict_get row ("Split_Case" ++ i) (VBool false));
   ("Family_SKU", VStr ""); ("Variant_SKU", VStr ""); ("Family_Name", VStr "");
   ("Variant_Name", VStr ""); ("Weight", VFloat PyFloat.zero); ("Keg_Connector", VStr "");
   ("Attribute_5", VStr "Rotational Product"); ("Type", dict_get row "Type" (VStr "Beer"))].

Definition format_value (row : dict) (i : string) : string :=
  strip (py_str (dict_get row ("Format" ++ i) (VStr ""))).

Definition format_ok (fmt_val : string) : bool :=
  negb (String.eqb fmt_val "") && negb (List.existsb (String.eqb (lower fmt_val)) ["nan"; "none"]).

(** The loop over the three format slots. *)
Definition stage_slots (row : dict) : list dict :=
  List.flat_map (fun i => let fmt_val := format_value row i in
                          if format_ok fmt_val then [staged_row row fmt_val i] else [])
    ["1"; "2"; "3"].

(** One matrix row: its staged rows, or its error message. *)
Definition stage_row (idx : Z) (row : dict) : list dict + string :=
  let missing_cols := List.filter (fun c => negb (dict_has row c)) required in
  if negb (Nat.eqb (List.length missing_cols) 0) then
    inr ("Row " ++ Z_to_string (idx + 1) ++ ": Missing columns. Please run Search in Tab 2 first.")
  else
    let missing_vals := List.filter (fun fld => String.eqb (strip (py_str (dict_get row fld (VStr "")))) "")
                          required in
    if negb (Nat.eqb (List.length missing_vals) 0) then
      inr ("Row " ++ Z_to_string (idx + 1) ++ ": Empty fields for " ++ String.concat ", " missing_vals
           ++ ". Please edit manually in Tab 3.")
    else inl (stage_slots row).

Fixpoint stage_loop (rs : list (Z * dict)) : list dict * list string :=
  match rs with
  | [] => ([], [])
  | (idx, row) :: rs' =>
      let '(new_rows, errors) := stage_loop rs' in
      match stage_row idx row with
      | inl staged => (List.app staged new_rows, errors)
      | inr e => (new_rows, e :: errors)
      end
  end.

(** [stage_products_for_upload]: the staged rows and the error messages. *)
Definition stage_products_for_upload (matrix_df : frame) : list dict * list string :=
  if frame_empty matrix_df then ([], [])
  else stage_loop (List.map (fun r => (fst r, row_dict matrix_df (snd r))) (rows matrix_df)).

(** The row of the upload table built by the "Generate Upload Data" loop:
    [row.to_dict()] of the staged row, with the fields of the generated
    variant written over it. *)
Definition upload_row (base : dict) (r : Synth.synth_row) : dict :=
  List.fold_left (fun d kv => dict_set (fst kv) (snd kv) d)
    [("Family_SKU", VStr (Synth.family_sku r)); ("Family_Name", VStr (Synth.family_name r));
     ("Weight", VFloat (Synth.weight r)); ("Keg_Connector", VStr (Synth.keg_connector r));
     ("Attribute_5", VStr (Synth.attr_5 r)); ("item_price", VFloat (Synth.item_price r));
     ("Sales_Price", VFloat (Synth.sales_price r)); ("pack_size", VFloat (Synth.row_pack_size r));
     ("Variant_Name", VStr (Synth.variant_name r)); ("Variant_SKU", VStr (Synth.variant_sku r))]
    base.

End Staging.

(** ** Purchase-order export: [create_cin7_purchase_order] *)

Module Cin7Order.

Import PyFloat PyStr PyObj Matcher PurchaseOrder.

Open Scope string_scope.

(** An entry of ["Lines"]; [TaxRule], [Discount] and [Tax] are constants. *)
Record order_line := mkOrderLine {
  ol_product_id : string;
  ol_quantity : float;
  ol_price : float;
  ol_total : float;
  ol_tax_rule : string;
  ol_discount : Z;
  ol_tax : Z }.

Definition id_col_of (location_choice : string) (row : po_row) : id_cell :=
  if String.eqb location_choice "London" then po_cin7_london_id row else po_cin7_glou_id row.

(** The loop over the prepared lines: a line is kept when [pd.notna(prod_id)]
    and [str(prod_id).strip()] is not empty; [float()] of the float columns
    returns them unchanged. *)
Definition order_line_of (location_choice : string) (row : po_row) : list order_line :=
  match id_col_of location_choice row with
  | IdNone => []
  | IdText prod_id =>
      if negb (String.eqb (strip prod_id) "") then
        let qty := po_qty row in
        let price := po_cost row in
        [mkOrderLine prod_id qty price (round2 (mul qty price)) "20% (VAT on Expenses)" 0 0]
      else []
  end.

Definition order_lines (location_choice : string) (lines : list po_row) : list order_line :=
  List.flat_map (order_line_of location_choice) lines.

(** The two requests the export sends. *)
Inductive request :=
  | PostHeader (supplier_id : pyval) (location : string) (date : string) (invoice_number : string)
  | PostLines (task_id : pyval) (lines : list order_line).

(** A response: [r.status_code], then [r.json().get('ID')] ([VNone] when
    there is no ["ID"], [inr e] when the call raises [e]), and [r.text]. *)
Record response := mkResponse { status_code : Z; json_id : pyval + string; text : string }.

Section PurchaseExport.

(** [get_cin7_headers()] is not [None]. *)
Variable headers_ok : bool.
(** [get_cin7_supplier(name)]: the supplier object, [None] when it returns
    [None], [Raised] when it raises. *)
Variable get_cin7_supplier : pyval -> outcome (option dict).
(** [make_cin7_request]: the response, or [inr e] with the text of the
    exception it raised. *)
Variable send : request -> response + string.
(** [pd.to_datetime('today').strftime('%Y-%m-%d')]. *)
Variable today : string.

(** [create_cin7_purchase_order]: [(success, message, logs)] and the
    requests sent, in order.  [header] is [header_df.iloc[0]]. *)
Definition create_cin7_purchase_order (header : dict) (lines : list po_row) (location_choice : string)
    : outcome (bool * string * list string * list request) :=
  if negb headers_ok then Done (false, "Cin7 Secrets missing.", [], []) else
  let logs := @nil string in
  let supplier_id :=
    if dict_has header "Cin7_Supplier_ID" && truthy (dict_get header "Cin7_Supplier_ID" VNone)
    then Done (dict_get header "Cin7_Supplier_ID" VNone)
    else match dict_lookup header "Payable_To" with
         | None => Raised
         | Some name =>
             match get_cin7_supplier name with
             | Raised => Raised
             | Done (Some supplier_data) =>
                 if negb (Nat.eqb (List.length supplier_data) 0) then
                   match dict_lookup supplier_data "ID" with Some sid => Done sid | None => Raised end
                 else Done VNone
             | Done None => Done VNone
             end
         end in
  match supplier_id with
  | Raised => Raised
  | Done supplier_id =>
  if negb (truthy supplier_id) then Done (false, "Supplier not linked.", logs, []) else
  let order := order_lines location_choice lines in
  match order with
  | [] => Done (false, "No valid lines found to export.", logs, [])
  | _ :: _ =>
      let r1 := PostHeader supplier_id location_choice today
                  (py_str (dict_get header "Invoice_Number" (VStr ""))) in
      match send r1 with
      | inr e => Done (false, "Header Ex: " ++ e, logs, [r1])
      | inl resp1 =>
          if negb (Z.eqb (status_code resp1) 200) then
            Done (false, "Header Error: " ++ text resp1, logs, [r1])
          else
            match json_id resp1 with
            | inr e => Done (false, "Header Ex: " ++ e, logs, [r1])
            | inl task_id =>
                if truthy task_id then
                  let r2 := PostLines task_id order in
                  match send r2 with
                  | inr e => Done (false, "Lines Ex: " ++ e, logs, [r1; r2])
                  | inl resp2 =>
                      if Z.eqb (status_code resp2) 200
                      then Done (true, "✅ PO Created! ID: " ++ py_str task_id, logs, [r1; r2])
                      else Done (false, "Line Error: " ++ text resp2, logs, [r1; r2])
                  end
                else Done (false, "Unknown Error", logs, [r1])
            end
      end
  end
  end.

End PurchaseExport.

End Cin7Order.

(** ** Linking a variant to its family: [create_cin7_variant] *)

Module Cin7Family.

Import PyStr PyObj.

Open Scope string_scope.

(** [str(p.get("ID")).lower() == str(product_id).lower()]. *)
Definition same_id (product_id : pyval) (p : dict) : bool :=
  String.eqb (lower (py_str (dict_get p "ID" VNone))) (lower (py_str product_id)).

(** The [for p in current_products] loop: the first entry with the same
    ID gets [Option1] and the loop stops; the flag is [is_linked]. *)
Fixpoint link_loop (product_id var_name_raw : pyval) (ps : list dict) : list dict * bool :=
  match ps with
  | [] => ([], false)
  | p :: ps' =>
      if same_id product_id p then (dict_set "Option1" var_name_raw p :: ps', true)
      else let '(ps'', linked) := link_loop product_id var_name_raw ps' in (p :: ps'', linked)
  end.

(** The family's new ["Products"]: [current_products] is
    [family_obj.get("Products", [])], [None] read as [[]]; each entry is a
    flat JSON object. *)
Definition link_variant (current_products : option (list dict)) (product_id var_name_raw : pyval)
    : list dict :=
  let ps := match current_products with Some l => l | None => [] end in
  let '(ps', is_linked) := link_loop product_id var_name_raw ps in
  if is_linked then ps' else List.app ps' [[("ID", product_id); ("Option1", var_name_raw)]].

End Cin7Family.

(** ** The Untappd search over the matrix: [batch_untappd_lookup] *)

Module UntappdLookup.

Import PyStr PyObj Matcher.

Open Scope string_scope.

Definition lookup_cols : list string :=
  ["Untappd_Status"; "Untappd_ID"; "Untappd_Brewery"; "Untappd_Product"; "Untappd_ABV";
   "Untappd_Style"; "Untappd_Desc"; "Label_Thumb"; "Brewery_Loc"].

Definition found : string := "✅ Found".
Definition not_found : string := "❌ Not Found".

(** The status text of a row, as the loop reads it. *)
Definition status_text (r : dict) : string := py_str (dict_get r "Untappd_Status" (VStr "")).

Section WithSearch.

(** [search_untappd_item(supplier, product)]: [None] is Python's [None]. *)
Variable search_untappd_item : pyval -> pyval -> option dict.

(** [row[k] = v] on a row, then the row itself. *)
Definition set_all (row : dict) (kvs : list (string * pyval)) : dict :=
  List.fold_left (fun d kv => dict_set (fst kv) (snd kv) d) kvs row.

(** The body of the loop for one row: the updated row and its log line,
    if any. *)
Definition lookup_row (row : dict) : outcome (dict * list string) :=
  let current_status := py_str (dict_get row "Untappd_Status" (VStr "")) in
  if String.eqb current_status found then Done (row, []) else
  match dict_lookup row "Supplier_Name", dict_lookup row "Product_Name" with
  | Some supp, Some prod =>
      let res := search_untappd_item supp prod in
      match res with
      | Some d =>
          if negb (Nat.eqb (List.length d) 0) && dict_has d "untappd_id" then
            match dict_lookup d "name", dict_lookup d "untappd_id", dict_lookup d "brewery",
                  dict_lookup d "abv", dict_lookup d "style", dict_lookup d "description",
                  dict_lookup d "label_image_thumb", dict_lookup d "brewery_location" with
            | Some nm, Some uid, Some br, Some abv, Some sty, Some desc, Some thumb, Some loc =>
                Done (set_all row [("Untappd_Status", VStr found); ("Untappd_ID", uid);
                                   ("Untappd_Brewery", br); ("Untappd_Product", nm);
                                   ("Untappd_ABV", abv); ("Untappd_Style", sty);
                                   ("Untappd_Desc", desc); ("Label_Thumb", thumb);
                                   ("Brewery_Loc", loc)],
                      ["✅ Found: " ++ py_str nm])
            | _, _, _, _, _, _, _, _ => Raised
            end
          else
            let used_q := if negb (Nat.eqb (List.length d) 0)
                          then py_str (dict_get d "query_used" (VStr "Unknown")) else "Error" in
            Done (set_all row [("Untappd_Status", VStr not_found); ("Untappd_ID", VStr "")],
                  ["❌ No match: " ++ py_str prod ++ " | Query Sent: [" ++ used_q ++ "]"])
      | None =>
          Done (set_all row [("Untappd_Status", VStr not_found); ("Untappd_ID", VStr "")],
                ["❌ No match: " ++ py_str prod ++ " | Query Sent: [Error]"])
      end
  | _, _ => Raised
  end.

Fixpoint lookup_rows (rs : list dict) : outcome (list dict * list string) :=
  match rs with
  | [] => Done ([], [])
  | r :: rs' =>
      match lookup_row r with
      | Raised => Raised
      | Done (r', log) =>
          match lookup_rows rs' with
          | Raised => Raised
          | Done (rs'', logs) => Done (r' :: rs'', List.app log logs)
          end
      end
  end.

(** [batch_untappd_lookup]: the missing lookup columns are added with
    [""] before the loop.  The progress bar only displays. *)
Definition batch_untappd_lookup (matrix_df : frame) : outcome (list dict * list string) :=
  if frame_empty matrix_df then Done (List.map (fun r => row_dict matrix_df (snd r)) (rows matrix_df), ["Matrix Empty"])
  else
    let add := List.filter (fun c => negb (List.existsb (String.eqb c) (columns matrix_df))) lookup_cols in
    lookup_rows (List.map (fun r => List.app (row_dict matrix_df (snd r)) (List.map (fun c => (c, VStr "")) add))
                  (rows matrix_df)).

End WithSearch.

End UntappdLookup.

(** ** The product matrix: the grouping loop of [create_product_matrix] *)

Module ProductMatrix.

Import PyStr PyObj Matcher.

Open Scope string_scope.

Definition match_status : string := "✅ Match".

(** [df.fillna("")]: [None] and NaN cells become [""]. *)
Definition fillna (v : pyval) : pyval :=
  match v with
  | VNone => VStr ""
  | VFloat S754_nan => VStr ""
  | _ => v
  end.

Definition group_cols : list string := ["Supplier_Name"; "Collaborator"; "Product_Name"; "ABV"].

Definition key_of (row : dict) : list pyval := List.map (fun c => dict_get row c VNone) group_cols.

Fixpoint key_eq (a b : list pyval) : bool :=
  match a, b with
  | [], [] => true
  | x :: a', y :: b' => py_eq x y && key_eq a' b'
  | _, _ => false
  end.

(** [df.groupby(group_cols, sort=False)]: the groups in the order of their
    first line, each with its lines in order; a group's key is the key of
    its first line. *)
Fixpoint add_to_groups (r : dict) (gs : list (list pyval * list dict)) : list (list pyval * list dict) :=
  match gs with
  | [] => [(key_of r, [r])]
  | (k, items) :: gs' =>
      if key_eq (key_of r) k then (k, List.app items [r]) :: gs' else (k, items) :: add_to_groups r gs'
  end.

Definition group_rows (rs : list dict) : list (list pyval * list dict) :=
  List.fold_left (fun gs r => add_to_groups r gs) rs [].

(** The five cells of format slot [suffix]. *)
Definition format_slot (suffix : string) (item : dict) : outcome dict :=
  match dict_lookup item "Format", dict_lookup item "Pack_Size", dict_lookup item "Volume",
        dict_lookup item "Item_Price" with
  | Some fmt, Some pk, Some vol, Some price =>
      Done [("Format" ++ suffix, fmt); ("Pack_Size" ++ suffix, pk); ("Volume" ++ suffix, vol);
            ("Item_Price" ++ suffix, price); ("Split_Case" ++ suffix, dict_get item "Use_Split" (VBool false))]
  | _, _, _, _ => Raised
  end.

(** [for i, (_, item) in enumerate(group.iterrows()): if i >= 3: break]. *)
Fixpoint format_slots (i : nat) (items : list dict) : outcome dict :=
  match items with
  | [] => Done []
  | it :: items' =>
      if Nat.leb 3 i then Done []
      else match format_slot (Z_to_string (Z.of_nat i + 1)) it, format_slots (S i) items' with
           | Done a, Done b => Done (List.app a b)
           | _, _ => Raised
           end
  end.

Definition matrix_row (g : list pyval * list dict) : outcome dict :=
  let '(name, items) := g in
  let base := [("Supplier_Name", nth 0 name VNone); ("Type", VStr "Beer");
               ("Collaborator", nth 1 name VNone); ("Product_Name", nth 2 name VNone);
               ("ABV", nth 3 name VNone)] in
  match format_slots 0 items with
  | Done s => Done (List.app base s)
  | Raised => Raised
  end.

Fixpoint all_done {A : Type} (l : list (outcome A)) : outcome (list A) :=
  match l with
  | [] => Done []
  | Raised :: _ => Raised
  | Done a :: l' => match all_done l' with Raised => Raised | Done xs => Done (a :: xs) end
  end.

(** The lines that reach the grouping: after [fillna("")], without the
    lines whose [Shopify_Status] is ["✅ Match"] when that column exists. *)
Definition pending_lines (df : frame) : list dict :=
  let rs := List.map (fun r => List.map (fun kv => (fst kv, fillna (snd kv))) (row_dict df (snd r))) (rows df) in
  if List.existsb (String.eqb "Shopify_Status") (columns df)
  then List.filter (fun r => negb (py_eq (dict_get r "Shopify_Status" VNone) (VStr match_status))) rs
  else rs.

(** The rows of the matrix built by [create_product_matrix], before it
    assembles them into a DataFrame; [Raised] when a grouping column or a
    format cell is missing. *)
Definition product_matrix_rows (df : frame) : outcome (list dict) :=
  if frame_empty df then Done [] else
  match pending_lines df with
  | [] => Done []
  | _ :: _ =>
      if negb (List.forallb (fun c => List.existsb (String.eqb c) (columns df)) group_cols) then Raised
      else all_done (List.map matrix_row (group_rows (pending_lines df)))
  end.

(** The format slots of a matrix row. *)
Definition slots_of (m : dict) : list string :=
  List.filter (fun i => dict_has m ("Format" ++ i)) ["1"; "2"; "3"].

(** The five cells of format slot [sfx]. *)
Definition slot_keys (sfx : string) : list string :=
  ["Format" ++ sfx; "Pack_Size" ++ sfx; "Volume" ++ sfx; "Item_Price" ++ sfx; "Split_Case" ++ sfx].

End ProductMatrix.

(** ** Product-name cleaning: [clean_product_names] *)

Module Cleaner.

Import PyStr PyObj.

Open Scope string_scope.

(** [\w] of [re] on the Latin-1 range: [str.isalnum()] or ['_']. *)
Definition is_word (c : ascii) : bool :=
  let n := code c in
  is_ascii_alnum c || Z.eqb n 95 || Z.eqb n 170 || Z.eqb n 178 || Z.eqb n 179 || Z.eqb n 181
  || Z.eqb n 185 || Z.eqb n 186 || (Z.leb 188 n && Z.leb n 190)
  || (Z.leb 192 n && Z.leb n 255 && negb (Z.eqb n 215) && negb (Z.eqb n 247)).

(** [\d+]: the rest after a maximal run of at least one digit. *)
Fixpoint skip_digits (s : list ascii) : list ascii :=
  match s with
  | c :: s' => if is_digit c then skip_digits s' else s
  | [] => []
  end.

Definition digits_then (s : list ascii) : option (list ascii) :=
  match s with
  | c :: _ => if is_digit c then Some (skip_digits s) else None
  | [] => None
  end.

(** One letter under [re.IGNORECASE]. *)
Definition letter (l : ascii) (s : list ascii) : option (list ascii) :=
  match s with
  | c :: s' => if Ascii.eqb (lower_char c) l then Some s' else None
  | [] => None
  end.

(** The closing [\b] after a word character. *)
Definition end_boundary (s : list ascii) : option (list ascii) :=
  match s with
  | c :: _ => if is_word c then None else Some s
  | [] => Some s
  end.

Definition bind (o : option (list ascii)) (f : list ascii -> option (list ascii)) : option (list ascii) :=
  match o with Some r => f r | None => None end.

(** [\d+x\d+cl\b] at the start of the text: the rest after the match.  A
    shorter digit run never helps, the next character being a digit. *)
Definition pack_match (s : list ascii) : option (list ascii) :=
  bind (digits_then s) (fun r1 => bind (letter "x" r1) (fun r2 => bind (digits_then r2)
    (fun r3 => bind (letter "c" r3) (fun r4 => bind (letter "l" r4) end_boundary)))).

(** [\d+g\b]. *)
Definition weight_match (s : list ascii) : option (list ascii) :=
  bind (digits_then s) (fun r1 => bind (letter "g" r1) end_boundary).

(** [re.sub(r'\b' + body, '', s)]: the scan tries each position from the
    left; the opening [\b] before a digit asks for a non-word character
    (or the start) before it; after a match the scan resumes at its end. *)
Fixpoint sub_aux (body : list ascii -> option (list ascii)) (fuel : nat) (prev_word : bool)
    (s : list ascii) : list ascii :=
  match fuel with
  | O => s
  | S f =>
      match s with
      | [] => []
      | c :: s' =>
          match (if prev_word then None else body s) with
          | Some rest => sub_aux body f true rest
          | None => c :: sub_aux body f (is_word c) s'
          end
      end
  end.

Definition re_sub (body : list ascii -> option (list ascii)) (s : string) : string :=
  let l := list_ascii_of_string s in
  string_of_list_ascii (sub_aux body (List.length l) false l).

Definition remove_pipes (s : string) : string :=
  string_of_list_ascii (List.filter (fun c => negb (Ascii.eqb c "|"%char)) (list_ascii_of_string s)).

(** [cleaner] of [clean_product_names]. *)
Definition cleaner (name : string) : string :=
  let name1 := remove_pipes name in
  let name2 := re_sub pack_match name1 in
  let name3 := re_sub weight_match name2 in
  String.concat " " (split_ws name3).

Definition clean_value (v : pyval) : pyval :=
  match v with VStr s => VStr (cleaner s) | _ => v end.

(** [clean_product_names]: the [Product_Name] column through [cleaner],
    non-text cells unchanged. *)
Definition clean_product_names (df : frame) : frame :=
  if frame_empty df then df
  else mkFrame (columns df)
         (List.map (fun r => (fst r, List.map (fun cv => if String.eqb (fst cv) "Product_Name"
                                                        then clean_value (snd cv) else snd cv)
                                             (combine (columns df) (snd r))))
            (rows df)).

(** A word of [name.split()]: not empty, no whitespace. *)
Definition word_ok (w : string) : Prop :=
  w <> "" /\ forall c, In c (list_ascii_of_string w) -> is_space c = false.

(** A pattern body reads a prefix of the text and returns the rest. *)
Definition suffix_body (body : list ascii -> option (list ascii)) : Prop :=
  forall l r, body l = Some r -> exists p, l = List.app p r.

End Cleaner.

(** * Properties *)

Module PricingFacts.

Import PyFloat PyStr Pricing.

Lemma existsb_ext_in {A : Type} (f g : A -> bool) (l : list A) :
  (forall x, In x l -> f x = g x) -> existsb f l = existsb g l.
Proof.
  induction l as [|a l IH]; intros H; simpl; [reflexivity|].
  rewrite (H a (or_introl eq_refl)), IH; [reflexivity|].
  intros x Hx; apply H; right; exact Hx.
Qed.

Lemma draft_triggers_lower : forall t, In t draft_triggers -> lower t = t.
Proof.
  intros t Ht; simpl in Ht.
  repeat (destruct Ht as [<-|Ht]; [reflexivity|]); contradiction.
Qed.

(** C2 (corrected).  [63 * 1.285] is [80.95499999999999829...] in binary,
    so Python's [round] gives [80.95], not [80.96]. *)
Lemma sell_price_63_counterexample :
  calculate_sell_price (Some (of_Z 63)) "Rotational Product"%string "keg"%string <> dec 8096 (-2).
Proof. intro H; vm_compute in H; discriminate H. Qed.

(** Every cost other than zero goes through the four ordinary branches. *)
Lemma sell_price_nonzero (cost : float) (product_type fmt : string) :
  eqb cost zero = false ->
  calculate_sell_price (Some cost) product_type fmt = sell_price_spec cost product_type fmt.
Proof.
  intros H.
  unfold calculate_sell_price, sell_price_spec, is_draft_spec.
  rewrite H.
  rewrite (existsb_ext_in (fun t => PyStr.contains t (lower fmt))
                          (fun t => PyStr.contains (lower t) (lower fmt))); [reflexivity|].
  intros t Ht; rewrite (draft_triggers_lower t Ht); reflexivity.
Qed.

Lemma sell_price_zero (cost : float) (product_type fmt : string) :
  eqb cost zero = true -> calculate_sell_price (Some cost) product_type fmt = zero.
Proof. intros H; unfold calculate_sell_price; rewrite H; reflexivity. Qed.

Lemma ltb_zero_neq (c : float) : ltb c zero = true -> eqb c zero = false.
Proof. unfold eqb, ltb, SFltb, SFeqb; destruct (SFcompare c zero) as [[]|]; congruence. Qed.

(** C2 (amended): for every cost other than zero, [calculate_sell_price]
    applies the first of the four branches whose condition holds (draft
    and above 140: [cost + 40]; draft and below 63: [cost + 20]; core
    product: [cost * 1.265]; otherwise [cost * 1.285]), the draft test
    being a case-insensitive substring test against
    keykeg/steel/poly/uni/cask/keg/firkin/pin, with the arithmetic and
    the rounding to two decimals done on binary floats; a cost of exactly
    zero gives 0.00; in particular 140 gives 179.90, 140.01 gives 180.01,
    63 gives 80.95 and 62.99 gives 82.99 (product type "Rotational
    Product", format "keg"). *)
Theorem sell_price_branches :
  (forall (cost : float) (product_type fmt : string),
     eqb cost zero = false ->
     calculate_sell_price (Some cost) product_type fmt = sell_price_spec cost product_type fmt)
  /\ (forall (cost : float) (product_type fmt : string),
     eqb cost zero = true -> calculate_sell_price (Some cost) product_type fmt = zero)
  /\ calculate_sell_price (Some (of_Z 140)) "Rotational Product"%string "keg"%string = dec 17990 (-2)
  /\ calculate_sell_price (Some (dec 14001 (-2))) "Rotational Product"%string "keg"%string = dec 18001 (-2)
  /\ calculate_sell_price (Some (of_Z 63)) "Rotational Product"%string "keg"%string = dec 8095 (-2)
  /\ calculate_sell_price (Some (dec 6299 (-2))) "Rotational Product"%string "keg"%string = dec 8299 (-2).
Proof.
  split; [exact sell_price_nonzero|].
  split; [exact sell_price_zero|].
  repeat split; vm_compute; reflexivity.
Qed.

Lemma sell_price_branches_witness :
  (eqb (of_Z 100) zero = false
   /\ calculate_sell_price (Some (of_Z 100)) "Core Product"%string "Can"%string
      = sell_price_spec (of_Z 100) "Core Product"%string "Can"%string)
  /\ (eqb (S754_zero true) zero = true
   /\ calculate_sell_price (Some (S754_zero true)) "Core Product"%string "Can"%string = zero).
Proof.
  split; split; [vm_compute; reflexivity| |vm_compute; reflexivity|].
  - apply (proj1 sell_price_branches); vm_compute; reflexivity.
  - apply (proj1 (proj2 sell_price_branches)); vm_compute; reflexivity.
Defined.

(** C5 (corrected): a negative cost is not priced at zero. *)
Lemma sell_price_negative_counterexample :
  ~ (forall (cost : float) (product_type fmt : string),
       SFleb cost zero = true -> calculate_sell_price (Some cost) product_type fmt = zero).
Proof.
  intro H.
  specialize (H (of_Z (-5)) "Rotational Product"%string "keg"%string ltac:(vm_compute; reflexivity)).
  vm_compute in H; discriminate H.
Qed.

(** C5 (amended): when the cost is exactly zero (of either sign) or cannot
    be read as a float, [calculate_sell_price] returns 0.00 whatever the
    product type and format; every other cost, every negative cost among
    them, goes through the ordinary branches, so -5 with format "keg" is
    priced 15.00. *)
Theorem sell_price_zero_cost :
  (forall (cost_price : option float) (product_type fmt : string),
     (cost_price = None \/ exists c, cost_price = Some c /\ eqb c zero = true) ->
     calculate_sell_price cost_price product_type fmt = zero)
  /\ (forall (cost : float) (product_type fmt : string),
     eqb cost zero = false ->
     calculate_sell_price (Some cost) product_type fmt = sell_price_spec cost product_type fmt)
  /\ (forall (cost : float) (product_type fmt : string),
     ltb cost zero = true ->
     calculate_sell_price (Some cost) product_type fmt = sell_price_spec cost product_type fmt)
  /\ calculate_sell_price (Some (of_Z (-5))) "Rotational Product"%string "keg"%string = of_Z 15.
Proof.
  split; [|split; [exact sell_price_nonzero|split; [|vm_compute; reflexivity]]].
  - intros cost_price product_type fmt [->|[c [-> Hc]]]; [reflexivity|].
    exact (sell_price_zero c product_type fmt Hc).
  - intros cost product_type fmt H; apply sell_price_nonzero, ltb_zero_neq, H.
Qed.

Lemma sell_price_zero_cost_witness :
  calculate_sell_price (Some (S754_zero true)) "Core Product"%string "Keg"%string = zero
  /\ (eqb (of_Z (-7)) zero = false
      /\ calculate_sell_price (Some (of_Z (-7))) "Core Product"%string "Keg"%string
         = sell_price_spec (of_Z (-7)) "Core Product"%string "Keg"%string)
  /\ (ltb (of_Z (-7)) zero = true
      /\ calculate_sell_price (Some (of_Z (-7))) "Core Product"%string "Keg"%string
         = sell_price_spec (of_Z (-7)) "Core Product"%string "Keg"%string).
Proof.
  split; [|split; split; [vm_compute; reflexivity| |vm_compute; reflexivity|]].
  - apply (proj1 sell_price_zero_cost).
    right; exists (S754_zero true); split; [reflexivity | vm_compute; reflexivity].
  - apply (proj1 (proj2 sell_price_zero_cost)); vm_compute; reflexivity.
  - apply (proj1 (proj2 (proj2 sell_price_zero_cost))); vm_compute; reflexivity.
Defined.

End PricingFacts.

Module StrFacts.

Import PyStr.

Lemma length_append (s t : string) : String.length (s ++ t)%string = (String.length s + String.length t)%nat.
Proof. induction s as [|c s IH]; simpl; [reflexivity | now rewrite IH]. Qed.

Lemma length_substring0 (n : nat) (s : string) :
  String.length (substring 0 n s) = Nat.min n (String.length s).
Proof.
  revert s; induction n as [|n IH]; intros [|c s]; simpl; try reflexivity.
  now rewrite IH.
Qed.

Lemma length_repeat_x (k : nat) :
  String.length (String.concat EmptyString (List.repeat "X"%string k)) = k.
Proof. induction k as [|[|k] IH]; simpl in *; [reflexivity | reflexivity | now rewrite IH]. Qed.

Lemma split_ws_aux_nonempty (cur s : string) :
  Forall (fun w => w <> EmptyString) (split_ws_aux cur s).
Proof.
  revert cur; induction s as [|c s IH]; intros cur; simpl.
  - destruct (String.eqb_spec cur EmptyString); constructor; auto.
  - destruct (is_space c).
    + apply Forall_app; split; [|apply IH].
      destruct (String.eqb_spec cur EmptyString); constructor; auto.
    + apply IH.
Qed.

Lemma split_ws_nonempty (s : string) : Forall (fun w => w <> EmptyString) (split_ws s).
Proof. apply split_ws_aux_nonempty. Qed.

(** [lower] is a map on characters, so it commutes with concatenation. *)
Lemma map_chars_append (f : ascii -> ascii) (s t : string) :
  map_chars f (s ++ t)%string = (map_chars f s ++ map_chars f t)%string.
Proof. induction s as [|c s IH]; simpl; [reflexivity | now rewrite IH]. Qed.

Lemma prefix_append (p s t : string) : prefix p s = true -> prefix p (s ++ t)%string = true.
Proof.
  revert s; induction p as [|a p IH]; intros [|b s] H; simpl in *; try discriminate; auto.
  apply andb_prop in H as [H1 H2]; rewrite H1; simpl; auto.
Qed.

Lemma contains_append_l (p s t : string) : contains p s = true -> contains p (s ++ t)%string = true.
Proof.
  induction s as [|c s IH]; simpl; intros H.
  - destruct p; [destruct t; reflexivity | discriminate].
  - apply orb_prop in H as [H|H].
    + pose proof (prefix_append p (String c s) t H) as H'; simpl in H'.
      rewrite H'; reflexivity.
    + rewrite (IH H), orb_true_r; reflexivity.
Qed.

Lemma contains_append_r (p s t : string) : contains p t = true -> contains p (s ++ t)%string = true.
Proof.
  induction s as [|c s IH]; simpl; intros H; [exact H|].
  rewrite (IH H), orb_true_r; reflexivity.
Qed.

Lemma contains_prefix (p s : string) : prefix p s = true -> contains p s = true.
Proof. destruct s; simpl; intros H; rewrite H; reflexivity. Qed.

Lemma prefix_self_append (p t : string) : prefix p (p ++ t)%string = true.
Proof. induction p as [|a p IH]; simpl; [reflexivity | now rewrite Ascii.eqb_refl, IH]. Qed.

(** A character of the pattern occurs in the string. *)
Lemma prefix_in (p s : string) (c : ascii) :
  prefix p s = true -> In c (list_ascii_of_string p) -> In c (list_ascii_of_string s).
Proof.
  revert s; induction p as [|a p IH]; intros [|b s] H Hc; simpl in *; try discriminate; try contradiction.
  apply andb_prop in H as [H1 H2]; apply Ascii.eqb_eq in H1; subst b.
  destruct Hc as [Hc|Hc]; [left; exact Hc | right; exact (IH s H2 Hc)].
Qed.

Lemma contains_in (p s : string) (c : ascii) :
  contains p s = true -> In c (list_ascii_of_string p) -> In c (list_ascii_of_string s).
Proof.
  induction s as [|b s IH]; simpl; intros H Hc.
  - exact (prefix_in p EmptyString c H Hc).
  - apply orb_prop in H as [H|H].
    + exact (prefix_in p (String b s) c H Hc).
    + right; exact (IH H Hc).
Qed.

Lemma in_append (c : ascii) (s t : string) :
  In c (list_ascii_of_string (s ++ t)%string) ->
  In c (list_ascii_of_string s) \/ In c (list_ascii_of_string t).
Proof.
  induction s as [|b s IH]; simpl; intros H; [right; exact H|].
  destruct H as [H|H]; [left; left; exact H|].
  destruct (IH H) as [H'|H']; [left; right; exact H' | right; exact H'].
Qed.

End StrFacts.

Module SkuFacts.

Import PyStr Normalize StrFacts SpecModels.

Lemma length_ljust_x (s : string) : String.length (ljust_x 4 s) = 4%nat.
Proof.
  unfold ljust_x; rewrite length_substring0, length_append, length_repeat_x; lia.
Qed.

Lemma length_first_char (w : string) : w <> EmptyString -> String.length (first_char w) = 1%nat.
Proof. destruct w as [|a [|b w]]; intros H; [contradiction | reflexivity | reflexivity]. Qed.

(** C8 (corrected): a one-letter name gives "AXXX", not the three
    characters "A" ++ "XX". *)
Lemma sku_parts_one_letter_counterexample :
  generate_sku_parts "A"%string <> (first_two "A" ++ "XX")%string.
Proof. vm_compute; discriminate. Qed.

(** C8 (amended): the product code is always four characters.  The name
    is stripped of everything but ASCII letters, digits and whitespace,
    upper-cased and split on whitespace; no word gives "XXXX"; four words
    or more give the first character of each of the first four; two or
    three words give the first two characters of each of the first two,
    padded or cut to four with "X"; one word gives its first two
    characters and "XX", padded to four with "X".  So "Hazy Pale Ale"
    gives "HAPA", "IPA" gives "IPXX", "Triple Hop Citra Pale" gives
    "THCP" and "A" gives "AXXX". *)
Theorem generate_sku_parts_shape :
  (forall name : string,
     String.length (generate_sku_parts name) = 4%nat
     /\ generate_sku_parts name = product_code_words (split_ws (upper (keep_alnum_space name))))
  /\ generate_sku_parts "Hazy Pale Ale" = "HAPA"%string
  /\ generate_sku_parts "IPA" = "IPXX"%string
  /\ generate_sku_parts "Triple Hop Citra Pale" = "THCP"%string
  /\ generate_sku_parts "A" = "AXXX"%string.
Proof.
  split; [|repeat split; vm_compute; reflexivity].
  intros name.
  assert (Hne := split_ws_nonempty (upper (keep_alnum_space name))).
  unfold generate_sku_parts, product_code_words; cbv zeta.
  destruct (split_ws (upper (keep_alnum_space name))) as [|w1 [|w2 [|w3 [|w4 rest]]]] eqn:Hw;
    [simpl; split; reflexivity
    | simpl; split; [apply length_ljust_x | reflexivity] ..|].
  replace (4 <=? Z.of_nat (List.length (w1 :: w2 :: w3 :: w4 :: rest)))%Z with true
    by (symmetry; apply Z.leb_le; simpl List.length; lia).
  simpl; split; [|reflexivity].
  assert (Hin : forall w, In w [w1; w2; w3; w4] -> w <> EmptyString)
    by (intros w Hw'; rewrite Forall_forall in Hne; apply Hne; simpl in *; tauto).
  rewrite !length_append, !length_first_char
    by (apply Hin; simpl; tauto); reflexivity.
Qed.

End SkuFacts.

Module MatchFacts.

Import PyStr Normalize Matcher StrFacts SpecModels.

Lemma str_append_assoc (a b c : string) : (a ++ (b ++ c) = (a ++ b) ++ c)%string.
Proof. induction a as [|x a IH]; simpl; [reflexivity | now rewrite IH]. Qed.

Lemma prefix_spec (p s : string) : prefix p s = true <-> exists b, s = (p ++ b)%string.
Proof.
  revert s; induction p as [|a p IH]; intros s; simpl.
  - split; [intros _; now exists s | reflexivity].
  - destruct s as [|c s].
    + split; [discriminate | intros [b Hb]; discriminate].
    + rewrite Bool.andb_true_iff, IH, Ascii.eqb_eq; split.
      * intros [-> [b ->]]; now exists b.
      * intros [b Hb]; injection Hb as -> ->; split; [reflexivity | now exists b].
Qed.

Lemma contains_spec (p s : string) :
  contains p s = true <-> exists a b, s = (a ++ p ++ b)%string.
Proof.
  induction s as [|c s IH]; simpl.
  - rewrite prefix_spec; split.
    + intros [b Hb]; exists EmptyString, b; exact Hb.
    + intros [a [b Hab]]; destruct a; [now exists b | discriminate].
  - rewrite Bool.orb_true_iff, prefix_spec, IH; split.
    + intros [[b Hb] | [a [b Hab]]].
      * exists EmptyString, b; exact Hb.
      * exists (String c a), b; now rewrite Hab.
    + intros [a [b Hab]]; destruct a as [|x a].
      * left; now exists b.
      * right; injection Hab as -> Hs; now exists a, b.
Qed.

Lemma contains_trans (q p s : string) :
  contains q p = true -> contains p s = true -> contains q s = true.
Proof.
  rewrite !contains_spec; intros [a [b ->]] [a' [b' ->]].
  exists (a' ++ a)%string, (b ++ b')%string.
  now rewrite <- !str_append_assoc.
Qed.

Lemma insert_desc_in (x y : Z * product * string) (l : list (Z * product * string)) :
  In x (insert_desc y l) -> x = y \/ In x l.
Proof.
  induction l as [|z l IH]; simpl.
  - intros [H | []]; left; now symmetry.
  - destruct (Z.leb _ _); simpl.
    + intros [H | H]; [right; left; exact H|].
      destruct (IH H) as [H' | H']; [left | right; right]; assumption.
    + intros [H | [H | H]]; [left; now symmetry | right; left | right; right]; assumption.
Qed.

Lemma sort_desc_in (x : Z * product * string) (l : list (Z * product * string)) :
  In x (sort_desc l) -> In x l.
Proof.
  unfold sort_desc.
  assert (Hg : forall acc, In x (List.fold_left (fun acc x => insert_desc x acc) l acc) ->
                           In x acc \/ In x l).
  { induction l as [|y l IH]; simpl; intros acc H; [now left|].
    destruct (IH _ H) as [H' | H']; [|now right; right].
    destruct (insert_desc_in _ _ _ H') as [-> | H'']; [now right; left | now left]. }
  intros H; destruct (Hg [] H) as [[] | H']; exact H'.
Qed.

Lemma scored_in (ratio : string -> string -> Z) (n : string) (cs : list product)
    (s : Z) (p : product) (c : string) :
  In (s, p, c) (scored ratio n cs) ->
  In p cs /\ s = score ratio n p /\ 40 < s /\ c = clean_title (p_title p).
Proof.
  unfold scored; rewrite filter_In, in_map_iff; simpl.
  intros [[p' [Heq Hin]] Hlt]; injection Heq as <- <- <-.
  repeat split; [exact Hin | now apply Z.ltb_lt].
Qed.

Lemma find_variant_sound (pk vol : string) (vs : list variant) (v : variant) :
  find_variant pk vol vs = Some v ->
  In v vs /\ pack_ok pk (lower (v_title v)) = true /\ vol_ok vol (lower (v_title v)) = true.
Proof.
  induction vs as [|w vs IH]; simpl; [discriminate|].
  destruct (pack_ok pk (lower (v_title w)) && vol_ok vol (lower (v_title w))) eqn:E.
  - intros H; injection H as <-; apply andb_prop in E; tauto.
  - intros H; destruct (IH H) as [H1 H2]; split; [now right | exact H2].
Qed.

Lemma find_match_sound (f pk vol : string) (cands : list (Z * product * string))
    (p : product) (v : variant) :
  find_match f pk vol cands = Done (Some (p, v)) ->
  exists s c m, In (s, p, c) cands /\ 75 <= s /\ format_meta p = Some m
    /\ is_compatible f (shop_format_str p m) (shop_keg_val p) = true
    /\ find_variant pk vol (p_variants p) = Some v.
Proof.
  induction cands as [|[[s q] c] cands IH]; [discriminate|].
  intros H; simpl in H.
  assert (Hrest : find_match f pk vol cands = Done (Some (p, v)) ->
                  exists s' c' m, In (s', p, c') ((s, q, c) :: cands) /\ 75 <= s'
                    /\ format_meta p = Some m
                    /\ is_compatible f (shop_format_str p m) (shop_keg_val p) = true
                    /\ find_variant pk vol (p_variants p) = Some v).
  { intros H'; destruct (IH H') as (s' & c' & m & Hin & Hr); exists s', c', m; split;
      [now right | exact Hr]. }
  destruct (Z.ltb s 75) eqn:Hs; [now apply Hrest|].
  destruct (format_meta q) as [m|] eqn:Hm; [|discriminate].
  destruct (is_compatible f _ _) eqn:Hc; simpl in H; [|now apply Hrest].
  destruct (find_variant pk vol (p_variants q)) as [w|] eqn:Hv; [|now apply Hrest].
  injection H as <- <-.
  exists s, c, m; repeat split; try assumption; [now left | now apply Z.ltb_ge].
Qed.

Lemma match_line_cases (ratio : string -> string -> Z) (cin7 : string -> id_cell)
    (cands : option (list product)) (row : invoice_line) (r : match_result) :
  match_line ratio cin7 cands row = Done r ->
  (exists cs p v s c m, cands = Some cs
     /\ In (s, p, c) (scored ratio (product_name row) cs) /\ 75 <= s
     /\ format_meta p = Some m
     /\ is_compatible (lower (format row)) (shop_format_str p m) (shop_keg_val p) = true
     /\ find_variant (pack_token (use_split row) (pack_size row))
          (normalize_vol_string (volume row)) (p_variants p) = Some v
     /\ r = matched_result cin7 p v)
  \/ r = empty_result CheckAndUpload \/ r = empty_result VendorNotFound.
Proof.
  unfold match_line; cbv zeta.
  destruct cands as [[|p0 cs0]|]; intros H;
    [injection H as <-; now right; right | | injection H as <-; now right; right].
  destruct (find_match _ _ _ _) as [|[[p v]|]] eqn:E; [discriminate | | injection H as <-; now right; left].
  injection H as <-; left.
  destruct (find_match_sound _ _ _ _ _ _ E) as (s & c & m & Hin & Hs & Hm & Hc & Hv).
  exists (p0 :: cs0), p, v, s, c, m; repeat split; try assumption.
  now apply sort_desc_in.
Qed.

Lemma matched_result_status (cin7 : string -> id_cell) (p : product) (v : variant) :
  shopify_status (matched_result cin7 p v) = Match.
Proof. unfold matched_result; cbv zeta; destruct (Nat.ltb _ _); reflexivity. Qed.

Lemma match_line_match (ratio : string -> string -> Z) (cin7 : string -> id_cell)
    (cands : option (list product)) (row : invoice_line) (r : match_result) :
  match_line ratio cin7 cands row = Done r -> shopify_status r = Match ->
  exists cs p v s c m, cands = Some cs
     /\ In (s, p, c) (scored ratio (product_name row) cs) /\ 75 <= s
     /\ format_meta p = Some m
     /\ is_compatible (lower (format row)) (shop_format_str p m) (shop_keg_val p) = true
     /\ find_variant (pack_token (use_split row) (pack_size row))
          (normalize_vol_string (volume row)) (p_variants p) = Some v
     /\ r = matched_result cin7 p v.
Proof.
  intros H Hst; destruct (match_line_cases _ _ _ _ _ H) as [Hm | [-> | ->]];
    [exact Hm | discriminate | discriminate].
Qed.

(** C3 (confirmed): a candidate enters the ranking only with a score
    above 40, where the score is the fuzzy ratio plus 10 when the lowered
    product name occurs in the lowered cleaned title; a match always comes
    from a candidate of score 75 or more: the result is built from a
    variant of that candidate, so when every candidate scores below 75
    (74 among them) the status is never Match.  At the boundary, the same
    line and candidate match with score 75 (ratio 65 plus the bonus) and do
    not with score 74 (ratio 64 plus the bonus). *)
Theorem score_floor :
  (forall (ratio : string -> string -> Z) (n : string) (cs : list product)
          (s : Z) (p : product) (c : string),
     In (s, p, c) (scored ratio n cs) -> 40 < s /\ In p cs /\ s = score ratio n p)
  /\ (forall (ratio : string -> string -> Z) (cin7 : string -> id_cell)
             (cands : option (list product)) (row : invoice_line) (r : match_result),
        match_line ratio cin7 cands row = Done r -> shopify_status r = Match ->
        exists cs p v, cands = Some cs /\ In p cs /\ 75 <= score ratio (product_name row) p
          /\ In v (p_variants p) /\ r = matched_result cin7 p v)
  /\ (forall (ratio : string -> string -> Z) (cin7 : string -> id_cell)
             (cs : list product) (row : invoice_line) (r : match_result),
        Forall (fun p => score ratio (product_name row) p < 75) cs ->
        match_line ratio cin7 (Some cs) row = Done r -> shopify_status r <> Match)
  /\ score (fun _ _ => 65) "Test Pale" can_candidate = 75
  /\ (forall cin7 : string -> id_cell,
        exists r, match_line (fun _ _ => 65) cin7 (Some [can_candidate]) can_line = Done r
          /\ shopify_status r = Match)
  /\ score (fun _ _ => 64) "Test Pale" can_candidate = 74
  /\ (forall cin7 : string -> id_cell,
        match_line (fun _ _ => 64) cin7 (Some [can_candidate]) can_line
        = Done (empty_result CheckAndUpload)).
Proof.
  split; [|split; [|split; [|split; [|split; [|split]]]]].
  - intros ratio n cs s p c H; destruct (scored_in _ _ _ _ _ _ H) as (H1 & H2 & H3 & _).
    repeat split; assumption.
  - intros ratio cin7 cands row r H Hst.
    destruct (match_line_match _ _ _ _ _ H Hst) as (cs & p & v & s & c & m & -> & Hin & Hs & _ & _ & Hv & ->).
    destruct (scored_in _ _ _ _ _ _ Hin) as (Hp & -> & _).
    destruct (find_variant_sound _ _ _ _ Hv) as (Hv' & _).
    exists cs, p, v; repeat split; assumption.
  - intros ratio cin7 cs row r Hall H Hst.
    destruct (match_line_match _ _ _ _ _ H Hst) as (cs' & p & v & s & c & m & Heq & Hin & Hs & _).
    injection Heq as <-.
    destruct (scored_in _ _ _ _ _ _ Hin) as (Hp & -> & _).
    rewrite Forall_forall in Hall; specialize (Hall p Hp); lia.
  - vm_compute; reflexivity.
  - intros cin7; eexists; split; [vm_compute; reflexivity | reflexivity].
  - vm_compute; reflexivity.
  - intros cin7; vm_compute; reflexivity.
Qed.

Lemma score_floor_witness :
  (In (75, can_candidate, "Test Pale") (scored (fun _ _ => 65) "Test Pale" [can_candidate])
   /\ 40 < 75 /\ In can_candidate [can_candidate]
   /\ 75 = score (fun _ _ => 65) "Test Pale" can_candidate)
  /\ (match_line (fun _ _ => 65) (fun _ => IdNone) (Some [can_candidate]) can_line
      = Done (matched_result (fun _ => IdNone) can_candidate can_variant)
      /\ exists cs p v, Some [can_candidate] = Some cs /\ In p cs
          /\ 75 <= score (fun _ _ => 65) (product_name can_line) p
          /\ In v (p_variants p)
          /\ matched_result (fun _ => IdNone) can_candidate can_variant = matched_result (fun _ => IdNone) p v)
  /\ (Forall (fun p => score (fun _ _ => 64) (product_name can_line) p < 75) [can_candidate]
      /\ match_line (fun _ _ => 64) (fun _ => IdNone) (Some [can_candidate]) can_line
         = Done (empty_result CheckAndUpload)
      /\ shopify_status (empty_result CheckAndUpload) <> Match).
Proof.
  assert (H : In (75, can_candidate, "Test Pale")
                 (scored (fun _ _ => 65) "Test Pale" [can_candidate]))
    by (vm_compute; left; reflexivity).
  assert (E : match_line (fun _ _ => 65) (fun _ => IdNone) (Some [can_candidate]) can_line
              = Done (matched_result (fun _ => IdNone) can_candidate can_variant))
    by (vm_compute; reflexivity).
  assert (F : Forall (fun p => score (fun _ _ => 64) (product_name can_line) p < 75) [can_candidate])
    by (constructor; [vm_compute; reflexivity | constructor]).
  assert (E' : match_line (fun _ _ => 64) (fun _ => IdNone) (Some [can_candidate]) can_line
               = Done (empty_result CheckAndUpload))
    by (vm_compute; reflexivity).
  split; [split; [exact H | exact (proj1 score_floor _ _ _ _ _ _ H)]|].
  split; [split; [exact E|]|].
  - exact (proj1 (proj2 score_floor) _ _ _ _ _ E (matched_result_status _ _ _)).
  - split; [exact F|split; [exact E'|]].
    exact (proj1 (proj2 (proj2 score_floor)) _ _ _ _ _ F E').
Defined.

(** C4 (corrected): the location SKUs need a stripped variant SKU longer
    than two characters, so a match on a variant whose SKU is "AB" has
    both location SKUs empty. *)
Lemma sku_fields_short_sku_counterexample :
  ~ (forall (ratio : string -> string -> Z) (cin7 : string -> id_cell)
            (cands : option (list product)) (row : invoice_line) (r : match_result),
       match_line ratio cin7 cands row = Done r -> shopify_status r = Match ->
       london_sku r <> "" /\ gloucester_sku r <> "").
Proof.
  intros H.
  assert (E : match_line (fun _ _ => 100) (fun _ => IdNone) (Some [short_sku_candidate]) can_line
              = Done (matched_result (fun _ => IdNone) short_sku_candidate (mkVariant "330ml" (Some "AB"))))
    by (vm_compute; reflexivity).
  destruct (H _ _ _ _ _ E (matched_result_status _ _ _)) as [Hl _].
  apply Hl; vm_compute; reflexivity.
Qed.

(** C4 (amended): every result of the matcher is in exactly one of two
    shapes.  Either the status is Match, the matched variant [v] is a
    variant of a candidate of the supplier, each catalog ID is looked up
    for a non-empty location SKU and is the empty text otherwise, and, when
    the SKU of [v] is a text [s], each location SKU is the location prefix
    ("L-" or "G-") followed by the stripped [s] without its first two
    characters when that stripped text is longer than two characters, and
    is empty otherwise.  Or the status is "Check and Upload" or "Vendor Not
    Found" and the matched product, matched variant, image, both location
    SKUs and both catalog IDs are empty.  A variant whose SKU is null is
    left out: the code reads it as the text "None". *)
Theorem match_line_sku_fields :
  (forall (ratio : string -> string -> Z) (cin7 : string -> id_cell)
          (cands : option (list product)) (row : invoice_line) (r : match_result),
     match_line ratio cin7 cands row = Done r ->
     (shopify_status r = Match
      /\ exists cs p v, cands = Some cs /\ In p cs /\ In v (p_variants p)
           /\ matched_variant r = v_title v
           /\ (forall sku : string, v_sku v = Some sku ->
                 london_sku r = loc_sku "L-" (strip sku)
                 /\ gloucester_sku r = loc_sku "G-" (strip sku))
           /\ cin7_london_id r
              = (if String.eqb (london_sku r) "" then IdText "" else cin7 (london_sku r))
           /\ cin7_glou_id r
              = (if String.eqb (gloucester_sku r) "" then IdText "" else cin7 (gloucester_sku r)))
     \/ ((shopify_status r = CheckAndUpload \/ shopify_status r = VendorNotFound)
         /\ matched_product r = "" /\ matched_variant r = "" /\ image r = ""
         /\ london_sku r = "" /\ gloucester_sku r = ""
         /\ cin7_london_id r = IdText "" /\ cin7_glou_id r = IdText ""))
  /\ loc_sku "L-" (strip " L-TP33 ") = "L-TP33"
  /\ loc_sku "G-" (strip " L-TP33 ") = "G-TP33".
Proof.
  split; [|split; vm_compute; reflexivity].
  intros ratio cin7 cands row r H.
  destruct (match_line_cases _ _ _ _ _ H)
    as [(cs & p & v & s & c & m & -> & Hin & _ & _ & _ & Hv & ->) | [-> | ->]].
  - left; split; [apply matched_result_status|].
    destruct (scored_in _ _ _ _ _ _ Hin) as (Hp & _).
    destruct (find_variant_sound _ _ _ _ Hv) as (Hv' & _).
    exists cs, p, v; split; [reflexivity|]; split; [exact Hp|]; split; [exact Hv'|].
    split; [unfold matched_result; cbv zeta; destruct (Nat.ltb _ _); reflexivity|].
    split; [intros sku Hsku|];
      unfold matched_result, loc_sku, sku_text; cbv zeta;
      [rewrite Hsku|]; destruct (Nat.ltb 2 _); repeat split; reflexivity.
  - right; repeat split; left; reflexivity.
  - right; repeat split; right; reflexivity.
Qed.

Lemma match_line_sku_fields_witness :
  match_line (fun _ _ => 65) (fun _ => IdNone) (Some [can_candidate]) can_line
  = Done (matched_result (fun _ => IdNone) can_candidate can_variant)
  /\ (shopify_status (matched_result (fun _ => IdNone) can_candidate can_variant) = Match
      /\ exists cs p v, Some [can_candidate] = Some cs /\ In p cs /\ In v (p_variants p)
           /\ matched_variant (matched_result (fun _ => IdNone) can_candidate can_variant) = v_title v
           /\ (forall sku : string, v_sku v = Some sku ->
                 london_sku (matched_result (fun _ => IdNone) can_candidate can_variant) = loc_sku "L-" (strip sku)
                 /\ gloucester_sku (matched_result (fun _ => IdNone) can_candidate can_variant) = loc_sku "G-" (strip sku))
           /\ cin7_london_id (matched_result (fun _ => IdNone) can_candidate can_variant)
              = (if String.eqb (london_sku (matched_result (fun _ => IdNone) can_candidate can_variant)) ""
                 then IdText "" else IdNone)
           /\ cin7_glou_id (matched_result (fun _ => IdNone) can_candidate can_variant)
              = (if String.eqb (gloucester_sku (matched_result (fun _ => IdNone) can_candidate can_variant)) ""
                 then IdText "" else IdNone)).
Proof.
  assert (E : match_line (fun _ _ => 65) (fun _ => IdNone) (Some [can_candidate]) can_line
              = Done (matched_result (fun _ => IdNone) can_candidate can_variant))
    by (vm_compute; reflexivity).
  split; [exact E|].
  destruct (proj1 match_line_sku_fields _ _ _ _ _ E) as [Hm | [[Hs | Hs] _]];
    [exact Hm | vm_compute in Hs; discriminate | vm_compute in Hs; discriminate].
Defined.

(** C1 (code bug): the keg families are read from the invoice format and
    from the candidate's keg-type metafield.  An invoice format containing
    "keykeg" never matches a candidate whose lowered keg type contains
    "steel", "stainless", "poly" or "dolium".  But the invoice side counts
    "pet" as poly while the candidate side does not, so the invoice line
    "KeyKeg 30L" matches a candidate whose keg type is "PET" once the fuzzy
    ratio of the names is 100. *)
Theorem keg_family_filter :
  (forall (ratio : string -> string -> Z) (cin7 : string -> id_cell)
          (cs : list product) (row : invoice_line) (r : match_result),
     contains "keykeg" (lower (format row)) = true ->
     match_line ratio cin7 (Some cs) row = Done r -> shopify_status r = Match ->
     exists p v, In p cs /\ In v (p_variants p) /\ r = matched_result cin7 p v
       /\ contains "steel" (shop_keg_val p) = false
       /\ contains "stainless" (shop_keg_val p) = false
       /\ contains "poly" (shop_keg_val p) = false
       /\ contains "dolium" (shop_keg_val p) = false)
  /\ (forall (ratio : string -> string -> Z) (cin7 : string -> id_cell),
        ratio "Test Pale" "Test Pale" = 100 ->
        exists r, match_line ratio cin7 (Some [pet_candidate]) keykeg_line = Done r
          /\ shopify_status r = Match /\ matched_product r = "Test Pale"
          /\ shop_keg_val pet_candidate = "pet").
Proof.
  split.
  - intros ratio cin7 cs row r Hkey H Hst.
    destruct (match_line_match _ _ _ _ _ H Hst)
      as (cs' & p & v & s & c & m & Ecs & Hin & _ & _ & Hc & Hv & ->).
    injection Ecs as <-.
    destruct (scored_in _ _ _ _ _ _ Hin) as (Hp & _).
    destruct (find_variant_sound _ _ _ _ Hv) as (Hv' & _).
    exists p, v; split; [exact Hp|]; split; [exact Hv'|]; split; [reflexivity|].
    assert (Hkeg : contains "keg" (lower (format row)) = true)
      by (apply (contains_trans _ "keykeg"); [reflexivity | exact Hkey]).
    unfold is_compatible, keg_compatible in Hc; rewrite Hkeg, Hkey in Hc.
    destruct (contains "steel" (shop_keg_val p)), (contains "stainless" (shop_keg_val p)),
      (contains "poly" (shop_keg_val p)), (contains "dolium" (shop_keg_val p));
      simpl in Hc; rewrite ?Bool.andb_false_r in Hc; try discriminate; repeat split.
  - intros ratio cin7 H.
    vm_compute; rewrite H; vm_compute.
    eexists; split; [reflexivity | repeat split].
Qed.

Lemma keg_family_filter_witness :
  exists r, match_line (fun _ _ => 100) (fun _ => IdNone) (Some [pet_candidate]) keykeg_line = Done r
    /\ shopify_status r = Match /\ matched_product r = "Test Pale"
    /\ shop_keg_val pet_candidate = "pet".
Proof. apply (proj2 keg_family_filter); reflexivity. Defined.

End MatchFacts.

Module SynthFacts.

Import PyFloat PyStr Normalize Synth.

Lemma synth_rows_for_spec (tb : tables) (row : staged) (fsku fname : string) (p c : float) :
  exact p <> None ->
  exists rs, synth_rows_for tb row fsku fname (p, c) = Done rs
    /\ List.length rs = List.length (connectors_of (strip (st_format row)))
    /\ Forall (fun r => family_sku r = fsku /\ family_name r = fname
                        /\ row_pack_size r = p /\ item_price r = c) rs.
Proof.
  intros Hp; unfold synth_rows_for; cbv zeta.
  destruct (exact p); [|contradiction].
  eexists; split; [reflexivity|]; split; [apply List.length_map|].
  apply Forall_forall; intros r Hr; apply in_map_iff in Hr.
  destruct Hr as (conn & <- & _); repeat split.
Qed.

Lemma synth_rows_for_family (tb : tables) (row : staged) (fsku fname : string)
    (vc : float * float) (rs : list synth_row) :
  synth_rows_for tb row fsku fname vc = Done rs ->
  Forall (fun r => family_sku r = fsku /\ family_name r = fname) rs.
Proof.
  destruct vc as [p c]; unfold synth_rows_for; cbv zeta.
  destruct (exact p); [|discriminate].
  intros H; injection H as <-.
  apply Forall_forall; intros r Hr; apply in_map_iff in Hr.
  destruct Hr as (conn & <- & _); split; reflexivity.
Qed.

Lemma concat_outcomes_forall {A : Type} (P : A -> Prop) (l : list (outcome (list A)))
    (xs : list A) :
  concat_outcomes l = Done xs ->
  (forall ys, In (Done ys) l -> Forall P ys) -> Forall P xs.
Proof.
  revert xs; induction l as [|o l IH]; simpl; intros xs H HP.
  - injection H as <-; constructor.
  - destruct o as [|ys]; [discriminate|].
    destruct (concat_outcomes l) as [|zs] eqn:E; [discriminate|].
    injection H as <-; apply Forall_app; split.
    + apply HP; now left.
    + apply IH; [reflexivity | intros ws Hw; apply HP; now right].
Qed.

(** C6 (confirmed): a staged row with pack "24", price "48", the split
    flag set, format "Can" and volume "33cl" gives exactly two rows, with
    (pack, price) = (24, 48) and (12, 24), whatever the lookup tables, the
    date, the index and the other columns; and every row generated for a
    staged row carries that row's family SKU (supplier code, product code,
    date, index, format code) and family name. *)
Theorem split_case_rows :
  (forall (tb : tables) (today_str : string) (idx : Z) (brewery product abv attr5 : string),
     let row := mkStaged brewery product "Can" "33cl" abv attr5 "24" "48" true in
     exists rows, synthesize tb today_str idx row = Done rows
       /\ List.map (fun r => (row_pack_size r, item_price r)) rows
          = [(of_Z 24, of_Z 48); (of_Z 12, of_Z 24)]
       /\ Forall (fun r => family_sku r = family_sku_of tb today_str idx row
                           /\ family_name r = family_name_of row) rows)
  /\ (forall (tb : tables) (today_str : string) (idx : Z) (row : staged) (rows : list synth_row),
        synthesize tb today_str idx row = Done rows ->
        Forall (fun r => family_sku r = family_sku_of tb today_str idx row
                         /\ family_name r = family_name_of row) rows).
Proof.
  split.
  - intros tb today_str idx brewery product abv attr5 row.
    unfold synthesize; cbv zeta.
    replace (variants_config row) with [(of_Z 24, of_Z 48); (of_Z 12, of_Z 24)]
      by (vm_compute; reflexivity).
    assert (Hc : List.length (connectors_of (strip (st_format row))) = 1%nat)
      by (vm_compute; reflexivity).
    destruct (synth_rows_for_spec tb row (family_sku_of tb today_str idx row)
                (family_name_of row) (of_Z 24) (of_Z 48)) as (rs1 & E1 & L1 & F1);
      [vm_compute; discriminate|].
    destruct (synth_rows_for_spec tb row (family_sku_of tb today_str idx row)
                (family_name_of row) (of_Z 12) (of_Z 24)) as (rs2 & E2 & L2 & F2);
      [vm_compute; discriminate|].
    cbn [List.map concat_outcomes]; rewrite E1, E2.
    rewrite Hc in L1, L2.
    destruct rs1 as [|r1 [|]]; try discriminate; destruct rs2 as [|r2 [|]]; try discriminate.
    inversion F1 as [|? ? (Hs1 & Hn1 & Hp1 & Hc1) _];
      inversion F2 as [|? ? (Hs2 & Hn2 & Hp2 & Hc2) _].
    exists [r1; r2]; split; [reflexivity|]; split.
    + simpl; rewrite Hp1, Hc1, Hp2, Hc2; reflexivity.
    + repeat constructor; assumption.
  - intros tb today_str idx row rows H.
    apply (concat_outcomes_forall _ _ _ H).
    intros ys Hin; apply in_map_iff in Hin; destruct Hin as (vc & Hvc & _).
    exact (synth_rows_for_family _ _ _ _ _ _ Hvc).
Qed.

Lemma split_case_rows_witness :
  exists rows,
    synthesize (mkTables [] [] [] [] []) "20261018" 0
      (mkStaged "Example Brew Co" "Test Pale" "Can" "33cl" "5.0" "Rotational Product" "24" "48" true)
    = Done rows
    /\ Forall (fun r => family_sku r = "XXXXTEPA-20261018-0-UN"
                        /\ family_name r = "Example Brew Co / Test Pale / 5.0% / Can") rows.
Proof.
  eexists; split; [vm_compute; reflexivity|].
  apply (proj2 split_case_rows (mkTables [] [] [] [] []) "20261018" 0
           (mkStaged "Example Brew Co" "Test Pale" "Can" "33cl" "5.0" "Rotational Product" "24" "48" true)).
  vm_compute; reflexivity.
Defined.

End SynthFacts.

Module FloatFacts.

Import PyFloat PyStr PyNum.

Lemma digits2_pos_log2 (p : positive) : Zpos (digits2_pos p) = Z.log2 (Zpos p) + 1.
Proof.
  induction p as [p IH|p IH|]; simpl; [| |reflexivity];
    rewrite Pos2Z.inj_succ; destruct p; simpl in *; lia.
Qed.

Lemma Zdigits2_shift (p : positive) (k : Z) : 0 <= k ->
  Zdigits2 (Zpos p * 2 ^ k) = Z.log2 (Zpos p) + 1 + k.
Proof.
  intros Hk.
  assert (Hpos : 0 < Zpos p * 2 ^ k) by (apply Z.mul_pos_pos; [lia | apply Z.pow_pos_nonneg; lia]).
  destruct (Zpos p * 2 ^ k) as [|q|q] eqn:E; try lia.
  cbn [Zdigits2]; rewrite digits2_pos_log2, <- E, Z.log2_mul_pow2; lia.
Qed.

Lemma div_eucl_1 (a : Z) : Z.div_eucl a 1 = (a, 0).
Proof.
  assert (H : Z.div_eucl a 1 = (a / 1, a mod 1))
    by (unfold Z.div, Z.modulo; destruct (Z.div_eucl a 1); reflexivity).
  now rewrite H, Z.div_1_r, Z.mod_1_r.
Qed.

Lemma of_Z_pos (p : positive) : Zpos p < 2 ^ 53 ->
  of_Z (Zpos p) = S754_finite false (Z.to_pos (Zpos p * 2 ^ (52 - Z.log2 (Zpos p))))
                               (Z.log2 (Zpos p) - 52).
Proof.
  intros Hp.
  assert (Hl : 0 <= Z.log2 (Zpos p) <= 52).
  { split; [apply Z.log2_nonneg|]. apply Z.lt_succ_r, Z.log2_lt_pow2; lia. }
  set (d := Z.log2 (Zpos p)) in *.
  unfold of_Z, of_ratio, SFdiv_core_binary.
  replace (Zdigits2 (Zpos p)) with (d + 1) by (simpl; rewrite digits2_pos_log2; reflexivity).
  replace (Z.min (fexp prec emax (d + 1 + 0 - (Zdigits2 1 + 0))) (0 - 0)) with (d - 53)
    by (unfold fexp, emin, prec, emax; simpl Zdigits2; lia).
  replace (0 - 0 - (d - 53)) with (Zpos (Z.to_pos (53 - d))) by lia.
  rewrite Z.shiftl_mul_pow2 by lia.
  rewrite div_eucl_1.
  change (new_location 1 0) with loc_Exact.
  unfold binary_round_aux, shr_fexp.
  rewrite Zdigits2_shift by lia; fold d.
  replace (fexp prec emax (d + 1 + Zpos (Z.to_pos (53 - d)) + (d - 53)) - (d - 53)) with 1
    by (unfold fexp, emin, prec, emax; lia).
  set (q := Z.to_pos (Zpos p * 2 ^ (52 - d))).
  assert (Eq : Zpos q = Zpos p * 2 ^ (52 - d))
    by (unfold q; rewrite Z2Pos.id; [reflexivity | apply Z.mul_pos_pos; [lia | apply Z.pow_pos_nonneg; lia]]).
  replace (Zpos p * 2 ^ Zpos (Z.to_pos (53 - d))) with (Zpos (xO q))
    by (rewrite Pos2Z.inj_xO, Eq, Z2Pos.id by lia;
        replace (53 - d) with (Z.succ (52 - d)) by lia; rewrite Z.pow_succ_r by lia; ring).
  cbn [shr iter_pos shr_1 shr_record_of_loc shr_m loc_of_shr_record orb].
  cbn [round_nearest_even].
  replace (Zdigits2 (Zpos q)) with 53
    by (rewrite Eq, Zdigits2_shift by lia; fold d; lia).
  replace (fexp prec emax (53 + (d - 53 + 1)) - (d - 53 + 1)) with 0
    by (unfold fexp, emin, prec, emax; lia).
  cbn [shr shr_m].
  replace (Z.leb (d - 53 + 1) (emax - prec)) with true
    by (symmetry; apply Z.leb_le; unfold emax, prec; lia).
  f_equal; lia.
Qed.

Lemma exact_of_Z (P : Z) : 1 <= P < 2 ^ 53 ->
  is_integer (of_Z P) = true /\ trunc (of_Z P) = P.
Proof.
  intros HP; destruct P as [|p|p]; try lia.
  assert (Hl : 0 <= Z.log2 (Zpos p) <= 52).
  { split; [apply Z.log2_nonneg|]. apply Z.lt_succ_r, Z.log2_lt_pow2; lia. }
  set (d := Z.log2 (Zpos p)) in *.
  assert (Hk : 0 < 2 ^ (52 - d)) by (apply Z.pow_pos_nonneg; lia).
  assert (Eq : Zpos (Z.to_pos (Zpos p * 2 ^ (52 - d))) = Zpos p * 2 ^ (52 - d))
    by (rewrite Z2Pos.id; [reflexivity | nia]).
  rewrite of_Z_pos by lia; fold d.
  unfold is_integer, trunc, exact.
  destruct (Z.leb_spec 0 (d - 52)) as [He|He].
  - replace d with 52 in * by lia; cbn [Z.sub Z.opp Z.pow_pos]; rewrite Eq.
    simpl; split; [apply Z.eqb_eq, Z.mod_1_r | rewrite Z.quot_1_r; lia].
  - rewrite Eq, Z2Pos.id by (apply Z.pow_pos_nonneg; lia).
    replace (- (d - 52)) with (52 - d) by lia.
    split; [apply Z.eqb_eq, Z.mod_mul; lia | apply Z.quot_mul; lia].
Qed.

Lemma ltb_one_of_Z (P : Z) : 1 <= P < 2 ^ 53 -> ltb (of_Z 1) (of_Z P) = (1 <? P).
Proof.
  intros HP; destruct P as [|p|p]; try lia.
  assert (Hl : 0 <= Z.log2 (Zpos p) <= 52).
  { split; [apply Z.log2_nonneg|]. apply Z.lt_succ_r, Z.log2_lt_pow2; lia. }
  change (of_Z 1) with (S754_finite false 4503599627370496 (-52)).
  rewrite (of_Z_pos p) by lia.
  unfold ltb, SFltb, SFcompare.
  destruct (Pos.eq_dec p 1) as [->|E].
  - reflexivity.
  - assert (H1 : 1 <= Z.log2 (Zpos p)) by (apply Z.log2_le_pow2; [lia|]; simpl; lia).
    replace (-52 ?= Z.log2 (Zpos p) - 52) with Lt by (symmetry; apply Z.compare_lt_iff; lia).
    symmetry; apply Z.ltb_lt; lia.
Qed.

Lemma lower_digit_char (k : Z) : 0 <= k < 10 -> lower_char (digit_char k) = digit_char k.
Proof.
  intros Hk; replace k with (Z.of_nat (Z.to_nat k)) by lia.
  assert (Hn : (Z.to_nat k < 10)%nat) by lia.
  destruct (Z.to_nat k) as [|[|[|[|[|[|[|[|[|[|n]]]]]]]]]]; try lia; vm_compute; reflexivity.
Qed.

Lemma lower_digits (f : nat) (n : Z) (acc : string) : 0 <= n ->
  lower (digits_of_pos_aux f n acc) = digits_of_pos_aux f n (lower acc).
Proof.
  revert n acc; induction f as [|f IH]; intros n acc Hn; [reflexivity|].
  simpl; destruct (n <? 10).
  - unfold lower; simpl; rewrite lower_digit_char by (apply Z.mod_pos_bound; lia); reflexivity.
  - rewrite IH by (apply Z.div_pos; lia).
    unfold lower; simpl; rewrite lower_digit_char by (apply Z.mod_pos_bound; lia); reflexivity.
Qed.

Lemma lower_Z_to_string (n : Z) : 0 <= n -> lower (Z_to_string n) = Z_to_string n.
Proof.
  intros Hn; unfold Z_to_string.
  replace (n <? 0) with false by (symmetry; apply Z.ltb_ge; lia).
  now rewrite lower_digits.
Qed.

Lemma digits_length (f : nat) (n : Z) (acc : string) :
  (String.length acc <= String.length (digits_of_pos_aux f n acc))%nat.
Proof.
  revert n acc; induction f as [|f IH]; intros n acc; simpl; [lia|].
  destruct (n <? 10); simpl; [lia|].
  specialize (IH (n / 10) (String (digit_char (n mod 10)) acc)); simpl in IH; lia.
Qed.

Lemma digits_length_S (f : nat) (n : Z) (acc : string) :
  (S (String.length acc) <= String.length (digits_of_pos_aux (S f) n acc))%nat.
Proof.
  simpl; destruct (n <? 10); simpl; [lia|].
  apply (digits_length f (n / 10) (String (digit_char (n mod 10)) acc)).
Qed.

Lemma digits_step (f : nat) (n : Z) (acc : string) : 10 <= n ->
  digits_of_pos_aux (S f) n acc = digits_of_pos_aux f (n / 10) (String (digit_char (n mod 10)) acc).
Proof. intros Hn; simpl; now rewrite (proj2 (Z.ltb_ge n 10) Hn). Qed.

Lemma Z_to_string_not_one (n : Z) : 2 <= n -> Z_to_string n <> "1"%string.
Proof.
  intros Hn; unfold Z_to_string.
  replace (n <? 0) with false by (symmetry; apply Z.ltb_ge; lia).
  destruct (Z.ltb_spec n 10) as [Hs|Hs].
  - cbn [digits_of_pos_aux]; rewrite (proj2 (Z.ltb_lt n 10) Hs).
    rewrite Z.mod_small by lia.
    replace n with (Z.of_nat (Z.to_nat n)) by lia.
    assert (Hb : (2 <= Z.to_nat n < 10)%nat) by lia.
    destruct (Z.to_nat n) as [|[|[|[|[|[|[|[|[|[|k]]]]]]]]]]; try lia; vm_compute; discriminate.
  - assert (Hf : (3 <= Z.to_nat (Z.log2 (Z.abs n + 1)))%nat).
    { assert (3 <= Z.log2 (Z.abs n + 1)) by (apply Z.log2_le_pow2; lia). lia. }
    destruct (Z.to_nat (Z.log2 (Z.abs n + 1))) as [|f]; try lia.
    rewrite digits_step by lia; destruct f as [|f]; [lia|].
    intros H; assert (Hl := digits_length_S (S f) (n / 10) (String (digit_char (n mod 10)) EmptyString)).
    rewrite H in Hl; simpl in Hl; lia.
Qed.

End FloatFacts.

Module RoundTripFacts.

Import PyFloat PyStr PyNum Normalize Synth StrFacts MatchFacts FloatFacts.

Open Scope string_scope.

Lemma lower_append (s t : string) : lower (s ++ t) = lower s ++ lower t.
Proof. apply map_chars_append. Qed.

Lemma str_append_empty (s : string) : s ++ EmptyString = s.
Proof. induction s as [|c s IH]; simpl; [reflexivity | now rewrite IH]. Qed.

Lemma in_contains (c : ascii) (s : string) :
  In c (list_ascii_of_string s) -> contains (String c EmptyString) s = true.
Proof.
  induction s as [|b s IH]; simpl; [contradiction|].
  intros [<- | H].
  - now rewrite Ascii.eqb_refl.
  - rewrite IH by exact H; apply orb_true_r.
Qed.

Lemma no_x_no_sep (s : string) : contains "x" s = false -> contains " x " s = false.
Proof.
  intros H; destruct (contains " x " s) eqn:E; [|reflexivity].
  rewrite <- H; symmetry; apply in_contains, (contains_in " x " s "x"%char E); simpl; tauto.
Qed.

Lemma no_x_append (s t : string) :
  contains "x" s = false -> contains "x" t = false -> contains "x" (s ++ t) = false.
Proof.
  intros Hs Ht; destruct (contains "x" (s ++ t)) eqn:E; [|reflexivity].
  destruct (in_append "x"%char s t (contains_in "x" _ "x"%char E (or_introl eq_refl))) as [H | H];
    apply in_contains in H; congruence.
Qed.

Lemma connectors_no_x (fmt conn : string) :
  In conn (connectors_of fmt) -> contains "x" (lower (" - " ++ conn)) = false.
Proof.
  unfold connectors_of; intros H.
  repeat match type of H with context [if ?b then _ else _] => destruct b end;
    simpl in H; repeat (destruct H as [<- | H]; [vm_compute; reflexivity|]); contradiction.
Qed.

(** C7 (corrected): a pack of 1 and the volume "375ml" give the title
    "375ml", but the matcher's volume token is "37.5", which the title does
    not contain. *)
Lemma roundtrip_375ml_counterexample :
  ~ (forall (P : Z) (vol_text fmt conn : string),
       1 <= P < 2 ^ 53 -> In conn (connectors_of fmt) ->
       pack_ok (float_token (of_Z P))
         (lower (variant_name_of (trunc (of_Z P)) (ltb (of_Z 1) (of_Z P)) (strip vol_text) conn)) = true
       /\ vol_ok (normalize_vol_string vol_text)
         (lower (variant_name_of (trunc (of_Z P)) (ltb (of_Z 1) (of_Z P)) (strip vol_text) conn)) = true).
Proof.
  intros H.
  destruct (H 1 "375ml" "Can" "") as [_ Hv]; [lia | simpl; tauto |].
  vm_compute in Hv; discriminate.
Qed.

(** C7 (amended): take a whole pack count [P] with [1 <= P < 2^53], a
    volume text [V] and a connector of the synthesizer.  The matcher's pack
    token of [P] is its decimal text.  The variant title built by the
    synthesizer ("P x V" when [P > 1], else "V", stripped [V], with
    " - connector" when there is a connector) passes the matcher's pack
    check when [P > 1], and when [P = 1] provided the lowered [V] has no
    letter "x".  It passes the volume check whenever the normalized volume
    token occurs in the lowered, stripped [V]: this holds for "330ml",
    "440ml", "500ml", "33cl", "30L", "1.5L" and "20L", but not for a
    millilitre volume that is not a multiple of 10, such as "375ml". *)
Theorem pack_volume_roundtrip :
  (forall (P : Z) (vol_text fmt conn : string),
     1 <= P < 2 ^ 53 ->
     In conn (connectors_of fmt) ->
     (P = 1 -> contains "x" (lower (strip vol_text)) = false) ->
     contains (normalize_vol_string vol_text) (lower (strip vol_text)) = true ->
     float_token (of_Z P) = Z_to_string P
     /\ pack_ok (float_token (of_Z P))
          (lower (variant_name_of (trunc (of_Z P)) (ltb (of_Z 1) (of_Z P)) (strip vol_text) conn)) = true
     /\ vol_ok (normalize_vol_string vol_text)
          (lower (variant_name_of (trunc (of_Z P)) (ltb (of_Z 1) (of_Z P)) (strip vol_text) conn)) = true)
  /\ List.forallb (fun v => contains (normalize_vol_string v) (lower (strip v)))
       ["330ml"; "440ml"; "500ml"; "33cl"; "30L"; "1.5L"; "20L"] = true
  /\ contains (normalize_vol_string "375ml") (lower (strip "375ml")) = false.
Proof.
  split; [|split; vm_compute; reflexivity].
  intros P vol_text fmt conn HP Hc Hx Hv.
  destruct (exact_of_Z P HP) as [Hi Ht].
  assert (Htok : float_token (of_Z P) = Z_to_string P)
    by (unfold float_token; rewrite Hi, Ht; reflexivity).
  rewrite Htok, Ht, ltb_one_of_Z by exact HP.
  split; [reflexivity|].
  set (sfx := if String.eqb conn "" then EmptyString else (" - " ++ conn)).
  assert (Hsfx : contains "x" (lower sfx) = false)
    by (unfold sfx; destruct (String.eqb conn ""); [reflexivity | exact (connectors_no_x _ _ Hc)]).
  assert (Ht' : forall base, (if String.eqb conn "" then base else base ++ " - " ++ conn)
                             = base ++ sfx)
    by (intros base; unfold sfx; destruct (String.eqb conn ""); [now rewrite str_append_empty | reflexivity]).
  unfold variant_name_of; rewrite Ht'.
  destruct (Z.ltb_spec 1 P) as [Hm | Hm].
  - rewrite !lower_append, lower_Z_to_string by lia.
    change (lower " x ") with " x ".
    split.
    + unfold pack_ok.
      replace (String.eqb (Z_to_string P) "1") with false
        by (symmetry; apply String.eqb_neq, Z_to_string_not_one; lia).
      apply orb_true_intro; left; apply contains_spec.
      exists EmptyString, (" " ++ lower (strip vol_text) ++ lower sfx).
      rewrite <- !str_append_assoc; reflexivity.
    + unfold vol_ok; rewrite contains_append_l; [reflexivity|].
      apply contains_append_r, contains_append_r, Hv.
  - assert (P = 1) as -> by lia.
    rewrite lower_append; split.
    + unfold pack_ok; simpl String.eqb; cbv iota.
      rewrite no_x_no_sep; [reflexivity|].
      apply no_x_append; [apply Hx; reflexivity | exact Hsfx].
    + unfold vol_ok; rewrite contains_append_l; [reflexivity | exact Hv].
Qed.

Lemma pack_volume_roundtrip_witness :
  float_token (of_Z 24) = Z_to_string 24
  /\ pack_ok (float_token (of_Z 24))
       (lower (variant_name_of (trunc (of_Z 24)) (ltb (of_Z 1) (of_Z 24)) (strip "330ml") "")) = true
  /\ vol_ok (normalize_vol_string "330ml")
       (lower (variant_name_of (trunc (of_Z 24)) (ltb (of_Z 1) (of_Z 24)) (strip "330ml") "")) = true.
Proof.
  apply (proj1 pack_volume_roundtrip 24 "330ml" "Can" "").
  - lia.
  - vm_compute; left; reflexivity.
  - intros H; discriminate.
  - vm_compute; reflexivity.
Defined.

End RoundTripFacts.

Module NormalizeFacts.

Import PyFloat PyStr PyNum Normalize Matcher SpecModels.

Open Scope string_scope.

Lemma in_lstrip (c : ascii) (s : string) :
  In c (list_ascii_of_string (lstrip s)) -> In c (list_ascii_of_string s).
Proof.
  induction s as [|b s IH]; simpl; [tauto|].
  destruct (is_space b); simpl; [intros H; right; exact (IH H) | tauto].
Qed.

Lemma in_rev_string (c : ascii) (s : string) :
  In c (list_ascii_of_string (rev_string s)) -> In c (list_ascii_of_string s).
Proof.
  unfold rev_string; rewrite list_ascii_of_string_of_list_ascii.
  apply in_rev.
Qed.

Lemma in_strip (c : ascii) (s : string) :
  In c (list_ascii_of_string (strip s)) -> In c (list_ascii_of_string s).
Proof.
  intros H; unfold strip in H.
  apply in_lstrip, in_rev_string, in_lstrip, in_rev_string; exact H.
Qed.

Lemma in_lower (c : ascii) (s : string) :
  In c (list_ascii_of_string (lower s)) ->
  exists c', In c' (list_ascii_of_string s) /\ c = lower_char c'.
Proof.
  induction s as [|b s IH]; simpl; [tauto|].
  intros [H | H]; [exists b; split; [now left | now symmetry]|].
  destruct (IH H) as (c' & H1 & H2); exists c'; split; [now right | exact H2].
Qed.

Lemma is_digit_lower_char (c : ascii) : is_digit (lower_char c) = is_digit c.
Proof.
  destruct c as [[] [] [] [] [] [] [] []]; vm_compute; reflexivity.
Qed.

Lemma first_number_none (l : list ascii) :
  (forall c, In c l -> is_digit c = false) -> first_number l = None.
Proof.
  induction l as [|c l IH]; simpl; intros H; [reflexivity|].
  rewrite (H c (or_introl eq_refl)); apply IH; intros d Hd; apply H; now right.
Qed.

Open Scope Z_scope.

Lemma round_aux_nonneg (m e : Z) (l : location) :
  is_negative (binary_round_aux prec emax false m e l) = false.
Proof.
  unfold binary_round_aux.
  destruct (shr_fexp prec emax m e l) as [r1 e1].
  destruct (shr_fexp prec emax _ e1 loc_Exact) as [r2 e2].
  destruct (shr_m r2); try reflexivity.
  destruct (Z.leb _ _); reflexivity.
Qed.

Lemma of_ratio_nonneg (n : Z) (d : positive) : 0 <= n -> is_negative (of_ratio n d) = false.
Proof.
  intros Hn; destruct n as [|p|p]; [reflexivity| |lia].
  unfold of_ratio; destruct (SFdiv_core_binary _ _ _ _ _ _) as [[m e] l].
  apply round_aux_nonneg.
Qed.

Lemma dec_nonneg (m k : Z) : 0 <= m -> is_negative (dec m k) = false.
Proof.
  intros Hm; unfold dec; destruct (0 <=? k) eqn:E; apply of_ratio_nonneg; [|exact Hm].
  apply Z.leb_le in E; apply Z.mul_nonneg_nonneg; [exact Hm | apply Z.pow_nonneg; lia].
Qed.

Lemma div_ten_nonneg (x : float) : is_negative x = false -> is_negative (div x (of_Z 10)) = false.
Proof.
  intros H.
  assert (E : of_Z 10 = S754_finite false 5629499534213120 (-49)) by (vm_compute; reflexivity).
  unfold div; rewrite E.
  destruct x as [s|s| |s m e]; cbn in H; subst; try reflexivity.
  cbn [SFdiv xorb].
  destruct (SFdiv_core_binary _ _ _ _ _ _) as [[mz ez] lz]; apply round_aux_nonneg.
Qed.

Lemma trunc_nonneg (x : float) : is_negative x = false -> 0 <= trunc x.
Proof.
  intros H; unfold trunc, exact.
  destruct x as [s|s| |s m e]; cbn in H; subst; [cbn; lia..|].
  cbn [exact]; destruct (0 <=? e) eqn:E.
  - apply Z.quot_pos; [|lia]. apply Z.mul_nonneg_nonneg; [lia|apply Z.pow_nonneg; lia].
  - apply Z.quot_pos; lia.
Qed.

Lemma is_digit_digit_char (k : Z) : 0 <= k < 10 -> is_digit (digit_char k) = true.
Proof.
  intros Hk; replace k with (Z.of_nat (Z.to_nat k)) by lia.
  assert (Hn : (Z.to_nat k < 10)%nat) by lia.
  destruct (Z.to_nat k) as [|[|[|[|[|[|[|[|[|[|n]]]]]]]]]]; try lia; vm_compute; reflexivity.
Qed.

Lemma digits_all (f : nat) (n : Z) (acc : string) : 0 <= n ->
  forallb is_digit (list_ascii_of_string acc) = true ->
  forallb is_digit (list_ascii_of_string (digits_of_pos_aux f n acc)) = true.
Proof.
  revert n acc; induction f as [|f IH]; intros n acc Hn Hacc; [exact Hacc|].
  cbn [digits_of_pos_aux].
  assert (Hd : forallb is_digit (list_ascii_of_string (String (digit_char (n mod 10)) acc)) = true).
  { cbn [list_ascii_of_string forallb]; rewrite is_digit_digit_char by (apply Z.mod_pos_bound; lia).
    exact Hacc. }
  destruct (n <? 10); [exact Hd|].
  apply IH; [apply Z.div_pos; lia | exact Hd].
Qed.

Lemma Z_to_string_int_string (n : Z) : 0 <= n -> is_int_string (Z_to_string n) = true.
Proof.
  intros Hn; unfold is_int_string, all_digits, Z_to_string.
  replace (n <? 0) with false by (symmetry; apply Z.ltb_ge; lia).
  apply andb_true_intro; split.
  - apply negb_true_iff, String.eqb_neq; intros E.
    pose proof (FloatFacts.digits_length_S (Z.to_nat (Z.log2 (Z.abs n + 1))) n EmptyString) as L.
    rewrite E in L; simpl in L; lia.
  - apply digits_all; [exact Hn | reflexivity].
Qed.

Lemma forallb_digit_append (s t : string) :
  forallb is_digit (list_ascii_of_string (s ++ t)) =
  forallb is_digit (list_ascii_of_string s) && forallb is_digit (list_ascii_of_string t).
Proof.
  induction s as [|c s IH]; simpl; [reflexivity|]. rewrite IH, andb_assoc; reflexivity.
Qed.

Lemma format_short_not_int (S : string) (decpt : Z) : is_int_string (format_short S decpt) = false.
Proof.
  unfold is_int_string, all_digits, format_short; cbv zeta.
  destruct ((decpt <=? -4) || (16 <? decpt)); [|destruct (decpt <=? 0); [|destruct (_ <=? decpt)]];
    rewrite ?forallb_digit_append; cbn [list_ascii_of_string forallb];
    change (is_digit "e"%char) with false; change (is_digit "."%char) with false;
    rewrite ?andb_false_r, ?andb_false_l, ?andb_false_r; reflexivity.
Qed.

Lemma repr_not_int (x : float) : is_int_string (repr x) = false.
Proof.
  destruct x as [[]|[]| |s m e]; try reflexivity.
  unfold repr.
  destruct (if 0 <=? e then _ else _) as [n d].
  destruct (shortest _ _ _ _ _ _) as [D k].
  destruct s; [|apply format_short_not_int].
  unfold is_int_string, all_digits; rewrite andb_false_r; reflexivity.
Qed.

Lemma digits_prefix_digits (s : list ascii) :
  forall ch, In ch (fst (digits_prefix s)) -> is_digit ch = true.
Proof.
  induction s as [|c s IH]; simpl; [tauto|].
  destruct (is_digit c) eqn:Ec; [|simpl; tauto].
  destruct (digits_prefix s) as [d rest] eqn:E; simpl in *.
  intros ch [<- | H]; [exact Ec | exact (IH ch H)].
Qed.

Lemma number_token_chars (s : list ascii) (ch : ascii) :
  In ch (number_token s) -> is_digit ch = true \/ ch = "."%char.
Proof.
  unfold number_token.
  pose proof (digits_prefix_digits s) as Hd.
  destruct (digits_prefix s) as [d rest]; simpl in Hd.
  destruct rest as [|c r]; [intros H; left; exact (Hd ch H)|].
  destruct (Ascii.eqb_spec c "."%char) as [->|_]; [|intros H; left; exact (Hd ch H)].
  intros H; apply in_app_or in H as [H | [<- | H]];
    [left; exact (Hd ch H) | right; reflexivity | left; exact (digits_prefix_digits r ch H)].
Qed.

Lemma first_number_chars (l : list ascii) (tok : string) :
  first_number l = Some tok ->
  forall ch, In ch (list_ascii_of_string tok) -> is_digit ch = true \/ ch = "."%char.
Proof.
  induction l as [|c l IH]; simpl; [discriminate|].
  destruct (is_digit c); [|exact IH].
  intros H; injection H as <-; rewrite list_ascii_of_string_of_list_ascii.
  apply number_token_chars.
Qed.

Lemma digit_run_nonneg (acc : Z) (n : nat) (s : list ascii) :
  0 <= acc -> 0 <= fst (fst (digit_run acc n s)).
Proof.
  remember (List.length s) as len eqn:Hlen.
  revert acc n s Hlen; induction len as [len IH] using lt_wf_ind.
  intros acc n s Hlen Hacc; destruct s as [|c s]; simpl; [exact Hacc|].
  assert (Hv : forall d, is_digit d = true -> 0 <= acc * 10 + digit_val d).
  { intros d Hdig; unfold is_digit, digit_val in *; cbv zeta in Hdig.
    apply andb_prop in Hdig as [H1 _]; apply Z.leb_le in H1; lia. }
  simpl in Hlen.
  destruct (is_digit c) eqn:Ec; [apply (IH (List.length s)); [lia|reflexivity|apply Hv, Ec]|].
  destruct (Ascii.eqb c "_"%char); [|exact Hacc].
  destruct s as [|c2 s'']; [exact Hacc|].
  destruct (is_digit c2) eqn:Ec2; [|exact Hacc].
  simpl in Hlen; apply (IH (List.length s'')); [lia|reflexivity|apply Hv, Ec2].
Qed.

Lemma digitpart_nonneg (s : list ascii) (a : Z) (k : nat) (r : list ascii) :
  digitpart s = Some (a, k, r) -> 0 <= a.
Proof.
  unfold digitpart; destruct s as [|c s]; [discriminate|].
  destruct (is_digit c); [|discriminate].
  intros H; assert (E : digit_run 0 O (c :: s) = (a, k, r)) by congruence.
  pose proof (digit_run_nonneg 0 O (c :: s) (Z.le_refl 0)) as Hn.
  rewrite E in Hn; exact Hn.
Qed.

Lemma number_part_nonneg (s : list ascii) (m : Z) (k : nat) (r : list ascii) :
  number_part s = Some (m, k, r) -> 0 <= m.
Proof.
  unfold number_part.
  destruct (digitpart s) as [[[a n] rest]|] eqn:Ed.
  - pose proof (digitpart_nonneg _ _ _ _ Ed) as Ha.
    destruct rest as [|c r0]; [intros H; injection H as <- _ _; exact Ha|].
    destruct (Ascii.eqb c "."%char); [|intros H; injection H as <- _ _; exact Ha].
    destruct (digitpart r0) as [[[b k'] r']|] eqn:Eb; intros H; injection H as <- _ _; [|exact Ha].
    pose proof (digitpart_nonneg _ _ _ _ Eb); pose proof (Z.pow_nonneg 10 (Z.of_nat k')).
    nia.
  - destruct s as [|c r0]; [discriminate|].
    destruct (Ascii.eqb c "."%char); [|discriminate].
    destruct (digitpart r0) as [[[b k'] r']|] eqn:Eb; [|discriminate].
    intros H; injection H as <- _ _; exact (digitpart_nonneg _ _ _ _ Eb).
Qed.

(** A text without a minus sign reads as a float that is not negative. *)
Lemma float_of_string_nonneg (s : string) (x : float) :
  (forall ch, In ch (list_ascii_of_string s) -> ch <> "-"%char) ->
  float_of_string s = Some x -> is_negative x = false.
Proof.
  intros Hs; unfold float_of_string.
  destruct (sign_part (list_ascii_of_string (strip s))) as [neg body] eqn:Esign.
  assert (Hneg : neg = false).
  { destruct (list_ascii_of_string (strip s)) as [|c r] eqn:El; simpl in Esign;
      [injection Esign as <- _; reflexivity|].
    destruct (Ascii.eqb_spec c "-"%char) as [->|_].
    - exfalso; apply (Hs "-"%char); [|reflexivity].
      apply in_strip; rewrite El; left; reflexivity.
    - destruct (Ascii.eqb c "+"%char); injection Esign as <- _; reflexivity. }
  subst neg.
  destruct (_ || _); [intros H; injection H as <-; reflexivity|].
  destruct (String.eqb _ _); [intros H; injection H as <-; reflexivity|].
  destruct (number_part body) as [[[m k] rest]|] eqn:En; [|discriminate].
  destruct (exponent_part rest) as [[z [|c r]]|]; try discriminate.
  intros H; injection H as <-; apply dec_nonneg, (number_part_nonneg _ _ _ _ En).
Qed.

Open Scope string_scope.

(** C9 (corrected): a number beyond the float range gives "inf", and a
    value below 1e-4 gives Python's exponent notation, so the output is
    neither an integer text nor a decimal text. *)
Lemma normalize_vol_output_counterexample :
  ~ (forall v : string,
       is_int_string (normalize_vol_string v) || is_decimal_string (normalize_vol_string v) = true)
  /\ normalize_vol_string huge_volume = "inf"
  /\ normalize_vol_string "0.00001l" = "1e-05".
Proof.
  split; [|split; vm_compute; reflexivity].
  intros H; specialize (H "0.00001l"); vm_compute in H; discriminate.
Qed.

(** C9 (amended): an empty text, or a text with no digit, gives "0".
    Otherwise the lowered, stripped text is searched for its first match of
    [\d+\.?\d*]; that token is read as a float, which is never negative,
    and divided by 10 when "ml" occurs in the lowered, stripped text.  An
    integral value [y] is printed as the decimal digits of the integer [y];
    any other value is printed as Python's [str] of the float, which is
    never a plain digit string, so the output is a digit string exactly
    when [y] is integral; an infinite [y] gives "inf".  For instance
    "375ml" gives "37.5", "0.00001l" gives "1e-05" and a number beyond the
    float range gives "inf". *)
Theorem normalize_vol_cases :
  (forall v : string,
     (forall c, In c (list_ascii_of_string v) -> is_digit c = false) ->
     normalize_vol_string v = "0")
  /\ (forall (v tok : string) (x : float),
        v <> "" ->
        first_number (list_ascii_of_string (lower (strip v))) = Some tok ->
        float_of_string tok = Some x ->
        let y := if contains "ml" (lower (strip v)) then div x (of_Z 10) else x in
        is_negative y = false
        /\ (is_integer y = true ->
            normalize_vol_string v = Z_to_string (trunc y) /\ (0 <= trunc y)%Z)
        /\ (is_integer y = false -> normalize_vol_string v = repr y)
        /\ is_int_string (normalize_vol_string v) = is_integer y
        /\ (y = S754_infinity false -> normalize_vol_string v = "inf"))
  /\ normalize_vol_string "330ml" = "33"
  /\ normalize_vol_string "375ml" = "37.5"
  /\ normalize_vol_string "50L" = "50"
  /\ normalize_vol_string " 33 CL " = "33"
  /\ normalize_vol_string "2.50L" = "2.5"
  /\ normalize_vol_string "" = "0"
  /\ normalize_vol_string "n/a" = "0"
  /\ normalize_vol_string "0.00001l" = "1e-05"
  /\ normalize_vol_string huge_volume = "inf".
Proof.
  split; [|split; [|repeat split; vm_compute; reflexivity]].
  - intros v Hv; unfold normalize_vol_string.
    destruct (String.eqb v "") eqn:E; [reflexivity|].
    rewrite first_number_none; [reflexivity|].
    intros c Hc; destruct (in_lower _ _ Hc) as (c' & Hc' & ->).
    rewrite is_digit_lower_char; apply Hv, in_strip, Hc'.
  - intros v tok x Hne Htok Hx; cbv zeta.
    assert (Hn : is_negative (if contains "ml" (lower (strip v)) then div x (of_Z 10) else x) = false).
    { assert (Hx0 : is_negative x = false).
      { apply (float_of_string_nonneg tok); [|exact Hx].
        intros ch Hch; destruct (first_number_chars _ _ Htok ch Hch) as [Hd | ->];
          [intros ->; discriminate Hd | discriminate]. }
      destruct (contains "ml" (lower (strip v))); [apply div_ten_nonneg|]; exact Hx0. }
    assert (Hv : normalize_vol_string v
                 = float_token (if contains "ml" (lower (strip v)) then div x (of_Z 10) else x)).
    { unfold normalize_vol_string.
      rewrite (proj2 (String.eqb_neq v "") Hne); cbv zeta.
      rewrite Htok, Hx; unfold float_token; reflexivity. }
    rewrite Hv; unfold float_token; revert Hn.
    generalize (if contains "ml" (lower (strip v)) then div x (of_Z 10) else x) as y.
    intros y Hn; split; [exact Hn|];
      (destruct (is_integer y) eqn:Ei;
       [split; [intros _; split; [reflexivity | apply trunc_nonneg, Hn]|];
        split; [discriminate|];
        split; [apply Z_to_string_int_string, trunc_nonneg, Hn|];
        intros Hy; rewrite Hy in Ei; discriminate Ei
       |split; [discriminate|];
        split; [reflexivity|];
        split; [apply repr_not_int|];
        intros ->; reflexivity]).
Qed.

Lemma normalize_vol_cases_witness :
  normalize_vol_string "n/a" = "0"
  /\ (let y := if contains "ml" (lower (strip "375ml")) then div (of_Z 375) (of_Z 10) else of_Z 375 in
      is_negative y = false
      /\ (is_integer y = true ->
          normalize_vol_string "375ml" = Z_to_string (trunc y) /\ (0 <= trunc y)%Z)
      /\ (is_integer y = false -> normalize_vol_string "375ml" = repr y)
      /\ is_int_string (normalize_vol_string "375ml") = is_integer y
      /\ (y = S754_infinity false -> normalize_vol_string "375ml" = "inf")).
Proof.
  split.
  - apply (proj1 normalize_vol_cases); intros c Hc; simpl in Hc.
    destruct Hc as [<- | [<- | [<- | []]]]; reflexivity.
  - exact (proj1 (proj2 normalize_vol_cases) "375ml" "375" (of_Z 375)
             ltac:(discriminate) ltac:(vm_compute; reflexivity) ltac:(vm_compute; reflexivity)).
Defined.

End NormalizeFacts.

Module POFacts.

Import PyFloat Matcher PurchaseOrder FloatFacts.

Open Scope string_scope.

Lemma div_eucl_pair (a b : Z) : Z.div_eucl a b = (a / b, a mod b).
Proof. unfold Z.div, Z.modulo; destruct (Z.div_eucl a b); reflexivity. Qed.

(** Doubling a normal float whose exponent stays in range is exact. *)
Lemma mul_two (s : bool) (m : positive) (e : Z) :
  Zpos (digits2_pos m) = 53 -> -1074 <= e <= 970 ->
  mul (S754_finite s m e) (of_Z 2) = S754_finite s m (e + 1).
Proof.
  intros Hm He.
  change (of_Z 2) with (S754_finite false 4503599627370496 (-51)).
  unfold mul, SFmul; rewrite xorb_false_r.
  unfold binary_round_aux, shr_fexp.
  assert (Hd : Zdigits2 (Zpos (m * 4503599627370496)) = 105).
  { rewrite Pos2Z.inj_mul; change (Zpos 4503599627370496) with (2 ^ 52).
    rewrite Zdigits2_shift by lia; rewrite digits2_pos_log2 in Hm; lia. }
  rewrite Hd.
  replace (fexp prec emax (105 + (e + -51)) - (e + -51)) with 52
    by (unfold fexp, emin, prec, emax; lia).
  rewrite (Pos.mul_comm m); cbn [Pos.mul].
  cbn [shr iter_pos shr_1 shr_record_of_loc shr_m loc_of_shr_record orb].
  cbn [round_nearest_even].
  replace (Zdigits2 (Zpos m)) with 53 by (simpl; lia).
  replace (fexp prec emax (53 + (e + -51 + 52)) - (e + -51 + 52)) with 0
    by (unfold fexp, emin, prec, emax; lia).
  cbn [shr shr_m].
  replace (Z.leb (e + -51 + 52) (emax - prec)) with true
    by (symmetry; apply Z.leb_le; unfold emax, prec; lia).
  f_equal; lia.
Qed.

(** Halving a normal float that stays normal is exact. *)
Lemma div_two (s : bool) (m : positive) (e : Z) :
  Zpos (digits2_pos m) = 53 -> -1072 <= e <= 971 ->
  div (S754_finite s m e) (of_Z 2) = S754_finite s m (e - 1).
Proof.
  intros Hm He.
  change (of_Z 2) with (S754_finite false 4503599627370496 (-51)).
  unfold div, SFdiv; rewrite xorb_false_r.
  unfold SFdiv_core_binary.
  replace (Zdigits2 (Zpos m)) with 53 by (simpl; lia).
  change (Zdigits2 (Zpos 4503599627370496)) with 53.
  replace (Z.min (fexp prec emax (53 + e - (53 + -51))) (e - -51)) with (e - 2)
    by (unfold fexp, emin, prec, emax; lia).
  replace (e - -51 - (e - 2)) with 53 by lia.
  rewrite Z.shiftl_mul_pow2 by lia.
  rewrite div_eucl_pair.
  replace (Zpos m * 2 ^ 53 / Zpos 4503599627370496) with (Zpos (xO m))
    by (change (Zpos 4503599627370496) with (2 ^ 52);
        replace (2 ^ 53) with (2 * 2 ^ 52) by reflexivity;
        rewrite Z.mul_assoc, Z.div_mul by (apply Z.pow_nonzero; lia); lia).
  replace (Zpos m * 2 ^ 53 mod Zpos 4503599627370496) with 0
    by (change (Zpos 4503599627370496) with (2 ^ 52);
        replace (2 ^ 53) with (2 * 2 ^ 52) by reflexivity;
        rewrite Z.mul_assoc, Z.mod_mul by (apply Z.pow_nonzero; lia); reflexivity).
  change (new_location (Zpos 4503599627370496) 0) with loc_Exact.
  unfold binary_round_aux, shr_fexp.
  replace (Zdigits2 (Zpos (xO m))) with 54 by (simpl; rewrite Pos2Z.inj_succ; lia).
  replace (fexp prec emax (54 + (e - 2)) - (e - 2)) with 1
    by (unfold fexp, emin, prec, emax; lia).
  cbn [shr iter_pos shr_1 shr_record_of_loc shr_m loc_of_shr_record orb].
  cbn [round_nearest_even].
  replace (Zdigits2 (Zpos m)) with 53 by (simpl; lia).
  replace (fexp prec emax (53 + (e - 2 + 1)) - (e - 2 + 1)) with 0
    by (unfold fexp, emin, prec, emax; lia).
  cbn [shr shr_m].
  replace (Z.leb (e - 2 + 1) (emax - prec)) with true
    by (symmetry; apply Z.leb_le; unfold emax, prec; lia).
  f_equal; lia.
Qed.

Lemma mul_exponent_shift (sq sp : bool) (mq mp : positive) (eq ep : Z) :
  mul (S754_finite sq mq (eq + 1)) (S754_finite sp mp (ep - 1))
  = mul (S754_finite sq mq eq) (S754_finite sp mp ep).
Proof. unfold mul, SFmul; now replace (eq + 1 + (ep - 1)) with (eq + ep) by lia. Qed.

(** C10 (corrected): doubling a quantity of 1e308 overflows, so the split
    line's total is infinite while quantity times price is 1e308; and
    halving the smallest positive float (2^-1074) underflows to zero, so
    with quantity 1 the split line's total is zero while quantity times
    price is 2^-1074. *)
Lemma po_total_range_counterexample :
  ~ (forall r : po_input,
       in_status r = Match -> in_use_split r = true ->
       po_total (po_line r) = mul (in_quantity r) (in_item_price r))
  /\ po_total (po_line (mkPoInput Match "Test Pale" "30L" (of_Z 1) (S754_finite false 1 (-1074))
                                  true (IdText "") (IdText "")))
     <> mul (of_Z 1) (S754_finite false 1 (-1074)).
Proof.
  split; [|vm_compute; discriminate].
  intros H.
  specialize (H (mkPoInput Match "Test Pale" "30L" (dec 1 308) (of_Z 1) true (IdText "") (IdText ""))
                eq_refl eq_refl).
  vm_compute in H; discriminate.
Qed.

(** A quantity that is zero or a normal float of exponent at most 970
    doubles exactly. *)
Lemma mul_two_zero_or_normal (q : float) (sq : bool) :
  (q = S754_zero sq \/ exists mq eq, q = S754_finite sq mq eq
     /\ Zpos (digits2_pos mq) = 53 /\ -1074 <= eq <= 970) ->
  (mul q (of_Z 2) = S754_zero sq /\ q = S754_zero sq)
  \/ exists mq eq, mul q (of_Z 2) = S754_finite sq mq (eq + 1) /\ q = S754_finite sq mq eq.
Proof.
  intros [-> | (mq & eq & -> & Hm & He)].
  - left; split; [|reflexivity].
    change (of_Z 2) with (S754_finite false 4503599627370496 (-51)).
    unfold mul, SFmul; rewrite xorb_false_r; reflexivity.
  - right; exists mq, eq; split; [apply mul_two; assumption | reflexivity].
Qed.

(** A price that is zero or a normal float of exponent at least -1072
    halves exactly. *)
Lemma div_two_zero_or_normal (p : float) (sp : bool) :
  (p = S754_zero sp \/ exists mp ep, p = S754_finite sp mp ep
     /\ Zpos (digits2_pos mp) = 53 /\ -1072 <= ep <= 971) ->
  (div p (of_Z 2) = S754_zero sp /\ p = S754_zero sp)
  \/ exists mp ep, div p (of_Z 2) = S754_finite sp mp (ep - 1) /\ p = S754_finite sp mp ep.
Proof.
  intros [-> | (mp & ep & -> & Hm & He)].
  - left; split; [|reflexivity].
    change (of_Z 2) with (S754_finite false 4503599627370496 (-51)).
    unfold div, SFdiv; rewrite xorb_false_r; reflexivity.
  - right; exists mp, ep; split; [apply div_two; assumption | reflexivity].
Qed.

(** C10 (amended): the purchase order keeps exactly the lines whose
    status is Match, in order.  A line without the split flag keeps its
    quantity [q] and price [p], with total [q * p].  A line with the split
    flag gets quantity [q * 2], cost [p / 2] and total [(q * 2) * (p / 2)],
    all in binary floating point; that total equals [q * p] whenever each
    of [q] and [p] is zero (a free line included) or a normal float, the
    exponent of [q] being at most 970 (so that doubling cannot overflow)
    and the exponent of [p] at least -1072 (so that halving stays
    normal).  Beyond that range the equality fails: a quantity of 1e308
    gives an infinite total, and a price of 2^-1074 halves to zero. *)
Theorem po_split_lines :
  (forall rows : list po_input,
     prepare_final_po_lines rows
     = List.map po_line
         (List.filter (fun r => match in_status r with Match => true | _ => false end) rows))
  /\ (forall r : po_input, in_use_split r = false ->
        po_qty (po_line r) = in_quantity r /\ po_cost (po_line r) = in_item_price r
        /\ po_total (po_line r) = mul (in_quantity r) (in_item_price r))
  /\ (forall r : po_input, in_use_split r = true ->
        po_qty (po_line r) = mul (in_quantity r) (of_Z 2)
        /\ po_cost (po_line r) = div (in_item_price r) (of_Z 2)
        /\ po_total (po_line r) = mul (po_qty (po_line r)) (po_cost (po_line r)))
  /\ (forall (r : po_input) (sq sp : bool),
        in_use_split r = true ->
        (in_quantity r = S754_zero sq \/ exists mq eq, in_quantity r = S754_finite sq mq eq
           /\ Zpos (digits2_pos mq) = 53 /\ -1074 <= eq <= 970) ->
        (in_item_price r = S754_zero sp \/ exists mp ep, in_item_price r = S754_finite sp mp ep
           /\ Zpos (digits2_pos mp) = 53 /\ -1072 <= ep <= 971) ->
        po_total (po_line r) = mul (in_quantity r) (in_item_price r)).
Proof.
  split; [|split; [|split]].
  - induction rows as [|r rs IH]; [reflexivity|].
    simpl; destruct (in_status r); simpl; rewrite IH; reflexivity.
  - intros r Hs; unfold po_line; rewrite Hs; repeat split.
  - intros r Hs; unfold po_line; rewrite Hs; repeat split.
  - intros r sq sp Hs Hq Hp.
    unfold po_line; rewrite Hs; cbn [po_total].
    destruct (mul_two_zero_or_normal _ _ Hq) as [[E1 E2] | (mq & eq & E1 & E2)];
      destruct (div_two_zero_or_normal _ _ Hp) as [[F1 F2] | (mp & ep & F1 & F2)];
      rewrite E1, F1, E2, F2; [reflexivity | reflexivity | reflexivity |].
    exact (mul_exponent_shift sq sp mq mp eq ep).
Qed.

Lemma po_split_lines_witness :
  po_total (po_line (mkPoInput Match "Test Pale" "30L" (of_Z 3) (dec 4599 (-2)) true (IdText "") (IdText "")))
  = mul (of_Z 3) (dec 4599 (-2))
  /\ po_total (po_line (mkPoInput Match "Test Pale" "30L" (of_Z 3) zero true (IdText "") (IdText "")))
  = mul (of_Z 3) zero.
Proof.
  split.
  - apply (proj2 (proj2 (proj2 po_split_lines))
             (mkPoInput Match "Test Pale" "30L" (of_Z 3) (dec 4599 (-2)) true (IdText "") (IdText ""))
             false false); [reflexivity| |].
    + right; exists 6755399441055744%positive, (-51); split; [reflexivity|split; [reflexivity|lia]].
    + right; exists 6472517089461535%positive, (-47); split; [reflexivity|split; [reflexivity|lia]].
  - apply (proj2 (proj2 (proj2 po_split_lines))
             (mkPoInput Match "Test Pale" "30L" (of_Z 3) zero true (IdText "") (IdText ""))
             false false); [reflexivity| |].
    + right; exists 6755399441055744%positive, (-51); split; [reflexivity|split; [reflexivity|lia]].
    + left; reflexivity.
Defined.

End POFacts.

Module ObjFacts.

Import PyStr PyObj.

Open Scope string_scope.

Lemma dict_lookup_set (k k' : string) (v : pyval) (d : dict) :
  dict_lookup (dict_set k v d) k' = if String.eqb k' k then Some v else dict_lookup d k'.
Proof.
  induction d as [|[k0 v0] d IH]; simpl.
  - destruct (String.eqb k' k); reflexivity.
  - destruct (String.eqb_spec k k0) as [->|Hne]; simpl.
    + destruct (String.eqb k' k0); reflexivity.
    + rewrite IH. destruct (String.eqb_spec k' k0) as [->|Hne']; [|reflexivity].
      destruct (String.eqb_spec k0 k); [congruence | reflexivity].
Qed.

Lemma dict_set_keys (k : string) (v : pyval) (d : dict) :
  List.map fst (dict_set k v d) = if dict_has d k then List.map fst d else List.app (List.map fst d) [k].
Proof.
  unfold dict_has; induction d as [|[k0 v0] d IH]; simpl; [reflexivity|].
  destruct (String.eqb_spec k k0) as [->|Hne]; simpl; [reflexivity|].
  rewrite IH; destruct (dict_lookup d k); reflexivity.
Qed.

Lemma dict_lookup_none (d : dict) (k : string) :
  ~ In k (List.map fst d) -> dict_lookup d k = None.
Proof.
  induction d as [|[k0 v0] d IH]; simpl; [reflexivity|].
  intros H; destruct (String.eqb_spec k k0); [subst; tauto|].
  apply IH; tauto.
Qed.

Lemma dict_lookup_some (d : dict) (k : string) :
  In k (List.map fst d) -> exists v, dict_lookup d k = Some v.
Proof.
  induction d as [|[k0 v0] d IH]; simpl; [tauto|].
  intros H; destruct (String.eqb_spec k k0); [eauto|].
  apply IH; destruct H; [congruence | assumption].
Qed.

Lemma dict_lookup_keys (d e : dict) (k : string) :
  List.map fst d = List.map fst e ->
  (dict_lookup d k = None <-> dict_lookup e k = None).
Proof.
  revert e; induction d as [|[k0 v0] d IH]; intros [|[k1 v1] e]; simpl; try discriminate.
  - tauto.
  - intros H; injection H as -> H.
    destruct (String.eqb k k1); [split; discriminate | apply IH; exact H].
Qed.

(** [d[k] = v] when [d[k]] already is [v] changes nothing. *)
Lemma dict_set_same (k : string) (v : pyval) (d : dict) :
  dict_lookup d k = Some v -> dict_set k v d = d.
Proof.
  induction d as [|[k0 v0] d IH]; simpl; [discriminate|].
  destruct (String.eqb_spec k k0) as [->|]; intros H.
  - injection H as ->; reflexivity.
  - rewrite (IH H); reflexivity.
Qed.

End ObjFacts.

Module ShopifyFacts.

Import PyFloat PyStr PyNum PyObj Matcher Synth Shopify Staging ObjFacts.

Open Scope string_scope.

Lemma synth_row_shape (tb : tables) (row : staged) (fsku fname : string) (vc : float * float)
    (rs : list synth_row) (r : synth_row) :
  synth_rows_for tb row fsku fname vc = Done rs -> In r rs ->
  In (keg_connector r) (connectors_of (strip (st_format row))) /\ exact (row_pack_size r) <> None.
Proof.
  destruct vc as [p c]; unfold synth_rows_for; cbv zeta.
  destruct (exact p) eqn:E; [|discriminate].
  intros H; injection H as <-; intros Hr; apply in_map_iff in Hr.
  destruct Hr as (conn & <- & Hc); simpl; split; [exact Hc | congruence].
Qed.

Lemma connectors_cases (fmt conn : string) :
  In conn (connectors_of fmt) ->
  conn = "" \/ conn = "US Sankey D-Type Coupler" \/ conn = "Sankey Coupler" \/ conn = "KeyKeg Coupler".
Proof.
  unfold connectors_of; cbv zeta.
  repeat match goal with |- context [if ?b then _ else _] => destruct b end;
  simpl; intuition.
Qed.

Lemma upload_row_lookup (base : dict) (r : synth_row) (k : string) :
  dict_lookup (upload_row base r) k =
  if String.eqb k "Variant_SKU" then Some (VStr (variant_sku r))
  else if String.eqb k "Variant_Name" then Some (VStr (variant_name r))
  else if String.eqb k "pack_size" then Some (VFloat (row_pack_size r))
  else if String.eqb k "Sales_Price" then Some (VFloat (sales_price r))
  else if String.eqb k "item_price" then Some (VFloat (item_price r))
  else if String.eqb k "Attribute_5" then Some (VStr (attr_5 r))
  else if String.eqb k "Keg_Connector" then Some (VStr (keg_connector r))
  else if String.eqb k "Weight" then Some (VFloat (weight r))
  else if String.eqb k "Family_Name" then Some (VStr (family_name r))
  else if String.eqb k "Family_SKU" then Some (VStr (family_sku r))
  else dict_lookup base k.
Proof.
  unfold upload_row; cbn [fold_left fst snd]; rewrite !dict_lookup_set; reflexivity.
Qed.

Lemma filter_group_valid (row : dict) (s : string) :
  get_filter_group row = Some s -> In s valid_options.
Proof.
  unfold get_filter_group; cbv zeta.
  destruct (existsb (String.eqb (strip _)) valid_options) eqn:E1.
  - intros H; injection H as <-; apply existsb_exists in E1.
    destruct E1 as (x & Hx & Hxe); apply String.eqb_eq in Hxe; subst; exact Hx.
  - match goal with |- (if existsb (String.eqb ?t) _ then _ else _) = _ -> _ =>
      destruct (existsb (String.eqb t) valid_options) eqn:E2 end; [|discriminate].
    intros H; injection H as <-; apply existsb_exists in E2.
    destruct E2 as (x & Hx & Hxe); apply String.eqb_eq in Hxe; subst; exact Hx.
Qed.

(** X1: [get_filter_group] returns [None] or one of its six valid options. *)
Theorem filter_group_options (row : dict) :
  match get_filter_group row with
  | Some s => In s ["6 Packs"; "12 Packs"; "24 Packs"; "KeyKeg Coupler"; "Sankey Coupler";
                    "US Sankey D-Type Coupler"]
  | None => True
  end.
Proof.
  destruct (get_filter_group row) as [s|] eqn:E; [exact (filter_group_valid row s E) | exact I].
Qed.

Lemma lower_char_n (c : ascii) : lower_char c = "n"%char -> c = "n"%char \/ c = "N"%char.
Proof.
  destruct c as [[] [] [] [] [] [] [] []]; vm_compute; intros H;
    first [discriminate H | left; reflexivity | right; reflexivity].
Qed.

Lemma lower_char_a (c : ascii) : lower_char c = "a"%char -> c = "a"%char \/ c = "A"%char.
Proof.
  destruct c as [[] [] [] [] [] [] [] []]; vm_compute; intros H;
    first [discriminate H | left; reflexivity | right; reflexivity].
Qed.

(** [float("nan")], in any case and with surrounding spaces. *)
Lemma float_of_string_nan (s : string) :
  lower (strip s) = "nan" -> float_of_string s = Some S754_nan.
Proof.
  unfold float_of_string; remember (strip s) as t eqn:Ht; clear Ht; intros Heq.
  destruct t as [|c1 [|c2 [|c3 [|c4 t]]]]; simpl in Heq; try discriminate.
  injection Heq as H1 H2 H3.
  destruct (lower_char_n c1 H1) as [->| ->]; destruct (lower_char_a c2 H2) as [->| ->];
    destruct (lower_char_n c3 H3) as [->| ->]; vm_compute; reflexivity.
Qed.

Lemma split_once_app (sep : ascii) (a b : string) :
  ~ In sep (list_ascii_of_string a) -> split_once sep (a ++ String sep b) = Some (a, b).
Proof.
  induction a as [|c a IH]; simpl; intros H.
  - rewrite Ascii.eqb_refl; reflexivity.
  - destruct (Ascii.eqb_spec c sep); [tauto|].
    rewrite IH; [reflexivity | tauto].
Qed.

Lemma split_once_fst (sep : ascii) (s a b : string) :
  split_once sep s = Some (a, b) -> ~ In sep (list_ascii_of_string a).
Proof.
  revert a; induction s as [|c s IH]; simpl; intros a; [discriminate|].
  destruct (Ascii.eqb_spec c sep).
  - intros H; injection H as <- _; simpl; tauto.
  - destruct (split_once sep s) as [[a' b']|]; [|discriminate].
    intros H; injection H as <- ->; simpl.
    intros [E | E]; [congruence | exact (IH a' eq_refl E)].
Qed.

Lemma split_once_none (sep : ascii) (s : string) :
  split_once sep s = None <-> ~ In sep (list_ascii_of_string s).
Proof.
  induction s as [|c s IH]; simpl; [tauto|].
  destruct (Ascii.eqb_spec c sep).
  - split; [discriminate | intros H; exfalso; apply H; left; assumption].
  - destruct (split_once sep s) as [[a b]|].
    + split; [discriminate|]. intros H; exfalso.
      assert (E : Some (a, b) = None) by (apply IH; intros E'; apply H; right; exact E').
      discriminate E.
    + split; [|reflexivity]. intros _ [E' | E']; [congruence | exact (proj1 IH eq_refl E')].
Qed.

(** X2: On an upload row built from a generated variant, [get_filter_group]
    returns the keg connector when there is one; without a connector, any
    group it returns is ["<int(pack)> Packs"], and it returns that text when
    [int(pack)] is 6, 12 or 24. *)
Theorem upload_row_filter_group (tb : tables) (row : staged) (fsku fname : string)
    (vc : float * float) (rs : list synth_row) (r : synth_row) (base : dict) :
  synth_rows_for tb row fsku fname vc = Done rs -> In r rs ->
  (keg_connector r <> "" -> get_filter_group (upload_row base r) = Some (keg_connector r)) /\
  (keg_connector r = "" ->
     (forall s, get_filter_group (upload_row base r) = Some s ->
        s = Z_to_string (trunc (row_pack_size r)) ++ " Packs") /\
     (In (trunc (row_pack_size r)) [6; 12; 24] ->
        get_filter_group (upload_row base r) = Some (Z_to_string (trunc (row_pack_size r)) ++ " Packs"))).
Proof.
  intros H Hin; destruct (synth_row_shape tb row fsku fname vc rs r H Hin) as [Hc Hp].
  assert (Ek : dict_get (upload_row base r) "Keg_Connector" (VStr "") = VStr (keg_connector r))
    by (unfold dict_get; rewrite upload_row_lookup; reflexivity).
  assert (Ep : dict_get (upload_row base r) "pack_size" (VInt 0) = VFloat (row_pack_size r))
    by (unfold dict_get; rewrite upload_row_lookup; reflexivity).
  unfold get_filter_group; rewrite Ek, Ep; cbn [py_str py_float]; unfold py_int.
  destruct (exact (row_pack_size r)) as [e|]; [|contradiction].
  apply connectors_cases in Hc.
  destruct Hc as [E|[E|[E|E]]]; rewrite E; split; intros Hne; try congruence; try reflexivity.
  replace (existsb (String.eqb (strip "")) valid_options) with false by reflexivity.
  split.
  - intros s0; match goal with |- (if ?b then _ else _) = _ -> _ => destruct b end;
      intros Hs; congruence.
  - intros [Hn|[Hn|[Hn|[]]]]; rewrite <- Hn; reflexivity.
Qed.

Lemma upload_row_filter_group_witness :
  exists rs r,
    synth_rows_for (mkTables [] [] [] [] [])
      (mkStaged "Example Brew Co" "Test Pale" "Can" "33cl" "5.0" "Rotational Product" "24" "48" false)
      "XXXXTEPA-20261018-0-UN" "Example Brew Co / Test Pale / 5.0% / Can" (of_Z 24, of_Z 48) = Done rs
    /\ In r rs /\ keg_connector r = ""
    /\ get_filter_group (upload_row [] r) = Some "24 Packs".
Proof.
  do 2 eexists.
  match goal with |- ?E /\ ?I /\ ?K /\ _ =>
    assert (HE : E) by (vm_compute; reflexivity);
    assert (HI : I) by (apply in_eq);
    assert (HK : K) by (vm_compute; reflexivity)
  end.
  split; [exact HE|]; split; [exact HI|]; split; [exact HK|].
  rewrite (proj2 (proj2 (upload_row_filter_group _ _ _ _ _ _ _ [] HE HI) HK));
    [vm_compute; reflexivity | vm_compute; auto].
Defined.

(** X3: [get_abv_category] returns [""] exactly when [float()] of its argument
    raises; a NaN, or a text reading nan, falls in ["7%+"]. *)
Theorem abv_category_edges (v : pyval) (s : string) :
  (get_abv_category v = "" <-> py_float v = None) /\
  get_abv_category (VFloat S754_nan) = "7%+" /\
  (lower (strip s) = "nan" -> get_abv_category (VStr s) = "7%+").
Proof.
  split; [|split].
  - unfold get_abv_category; destruct (py_float v) as [f|]; [|tauto].
    split; [|discriminate].
    destruct (SFleb f (of_Z 3)); [discriminate|].
    destruct (SFleb f (of_Z 5)); [discriminate|].
    destruct (SFleb f (of_Z 7)); discriminate.
  - reflexivity.
  - intros H; unfold get_abv_category; cbn [py_float]; rewrite (float_of_string_nan s H).
    reflexivity.
Qed.

(** X4: [split_untappd_style] of a text without a dash is the stripped text
    and [""]; a text [a-b] with no dash in [a] gives the stripped [a] and [b];
    the primary style never contains a dash. *)
Theorem split_untappd_style_parts (a b s : string) :
  (~ In "-"%char (list_ascii_of_string s) -> split_untappd_style (VStr s) = (strip s, "")) /\
  (~ In "-"%char (list_ascii_of_string a) ->
     split_untappd_style (VStr (a ++ String "-" b)) = (strip a, strip b)) /\
  (forall v, ~ In "-"%char (list_ascii_of_string (fst (split_untappd_style v)))).
Proof.
  split; [|split].
  - intros H; unfold split_untappd_style; cbn [truthy py_str].
    rewrite (proj2 (split_once_none "-" s) H).
    destruct s; reflexivity.
  - intros H; unfold split_untappd_style; cbn [truthy py_str].
    rewrite (split_once_app "-" a b H).
    destruct a; reflexivity.
  - intros v; unfold split_untappd_style.
    destruct (negb (truthy v)); [simpl; tauto|].
    destruct (split_once "-" (py_str v)) as [[x y]|] eqn:E; simpl fst; intros Hin;
      apply NormalizeFacts.in_strip in Hin.
    + exact (split_once_fst "-" (py_str v) x y E Hin).
    + exact (proj1 (split_once_none "-" (py_str v)) E Hin).
Qed.

(** X5: [create_shopify_variant_payload] of an upload row succeeds; its SKU is
    the location prefix followed by the variant SKU, and its metafields are
    [split_case], then [filter_group] exactly when [get_filter_group] gives a
    value. *)
Theorem variant_payload_upload_row (base : dict) (r : synth_row) (loc : string) :
  exists p, create_shopify_variant_payload (upload_row base r) loc = Done p /\
    obj_field p "sku" = Some (PV (VStr ((if String.eqb loc "L" then "L-" else "G-") ++ variant_sku r))) /\
    List.map metafield_key (metafields_of (obj_field p "metafields")) =
      Some "split_case" :: match get_filter_group (upload_row base r) with
                           | Some _ => [Some "filter_group"]
                           | None => []
                           end.
Proof.
  unfold create_shopify_variant_payload.
  rewrite !upload_row_lookup; cbn -[get_filter_group upload_row].
  unfold dict_get; rewrite upload_row_lookup; cbn -[get_filter_group upload_row].
  destruct (get_filter_group (upload_row base r)) as [g|] eqn:Eg.
  - apply filter_group_valid in Eg.
    assert (Hg : String.eqb g "" = false)
      by (simpl in Eg; repeat (destruct Eg as [<- | Eg]; [reflexivity|]); destruct Eg).
    rewrite Hg; eexists; split; [reflexivity|]; split; reflexivity.
  - eexists; split; [reflexivity|]; split; reflexivity.
Qed.

End ShopifyFacts.

Module StagingFacts.

Import PyFloat PyStr PyNum PyObj Matcher Synth Shopify Staging ObjFacts ShopifyFacts.

Open Scope string_scope.

Lemma staged_row_keys (row : dict) (fv i : string) :
  List.map fst (staged_row row fv i) = List.map fst (staged_row [] "" "").
Proof. reflexivity. Qed.

Lemma stage_slots_in (row s : dict) :
  In s (stage_slots row) ->
  exists i, In i ["1"; "2"; "3"] /\ format_ok (format_value row i) = true
            /\ s = staged_row row (format_value row i) i.
Proof.
  unfold stage_slots; intros H; apply in_flat_map in H.
  destruct H as (i & Hi & Hs).
  destruct (format_ok (format_value row i)) eqn:E; [|destruct Hs].
  destruct Hs as [<- | []]; exists i; auto.
Qed.

Lemma stage_slots_length (row : dict) : (List.length (stage_slots row) <= 3)%nat.
Proof.
  unfold stage_slots; simpl.
  destruct (format_ok (format_value row "1")), (format_ok (format_value row "2")),
    (format_ok (format_value row "3")); simpl; lia.
Qed.

Lemma filter_nil_false {A : Type} (f : A -> bool) (l : list A) (x : A) :
  Nat.eqb (List.length (List.filter f l)) 0 = true -> In x l -> f x = false.
Proof.
  intros H Hx; apply Nat.eqb_eq, length_zero_iff_nil in H.
  destruct (f x) eqn:E; [|reflexivity].
  assert (In x (List.filter f l)) by (apply filter_In; auto).
  rewrite H in *; destruct H0.
Qed.

Lemma stage_row_inl (idx : Z) (row : dict) (st : list dict) :
  stage_row idx row = inl st ->
  st = stage_slots row /\
  (forall fld, In fld required -> dict_has row fld = true
                /\ strip (py_str (dict_get row fld (VStr ""))) <> "").
Proof.
  unfold stage_row; cbv zeta.
  match goal with |- (if negb (Nat.eqb ?x 0) then _ else _) = _ -> _ =>
    destruct (Nat.eqb x 0) eqn:E1 end; cbn [negb]; [|discriminate].
  match goal with |- (if negb (Nat.eqb ?x 0) then _ else _) = _ -> _ =>
    destruct (Nat.eqb x 0) eqn:E2 end; cbn [negb]; [|discriminate].
  intros H; injection H as <-; split; [reflexivity|].
  intros fld Hf; split.
  - apply negb_false_iff; exact (filter_nil_false _ _ _ E1 Hf).
  - apply String.eqb_neq; exact (filter_nil_false _ _ _ E2 Hf).
Qed.

Lemma stage_loop_in (rs : list (Z * dict)) (s : dict) :
  In s (fst (stage_loop rs)) ->
  exists idx row st, In (idx, row) rs /\ stage_row idx row = inl st /\ In s st.
Proof.
  induction rs as [|[idx row] rs IH]; simpl; [tauto|].
  destruct (stage_loop rs) as [nr errs]; simpl in IH.
  destruct (stage_row idx row) as [st|e] eqn:E; simpl.
  - intros H; apply in_app_or in H; destruct H as [H | H].
    + exists idx, row, st; auto.
    + destruct (IH H) as (i & r & st' & H1 & H2 & H3); exists i, r, st'; auto.
  - intros H; destruct (IH H) as (i & r & st' & H1 & H2 & H3); exists i, r, st'; auto.
Qed.

Lemma stage_in (f : frame) (s : dict) :
  In s (fst (stage_products_for_upload f)) ->
  exists idx row st, stage_row idx row = inl st /\ In s st.
Proof.
  unfold stage_products_for_upload; destruct (frame_empty f); [simpl; tauto|].
  intros H; destruct (stage_loop_in _ s H) as (i & r & st & _ & H2 & H3); eauto.
Qed.

Lemma stage_keys (f : frame) (s : dict) :
  In s (fst (stage_products_for_upload f)) -> List.map fst s = List.map fst (staged_row [] "" "").
Proof.
  intros H; destruct (stage_in f s H) as (idx & row & st & H1 & H2).
  apply stage_row_inl in H1; destruct H1 as [-> _].
  destruct (stage_slots_in row s H2) as (i & _ & _ & ->); apply staged_row_keys.
Qed.

Lemma stage_loop_count (rs : list (Z * dict)) :
  (List.length (snd (stage_loop rs)) <= List.length rs)%nat /\
  (List.length (fst (stage_loop rs)) + 3 * List.length (snd (stage_loop rs)) <= 3 * List.length rs)%nat.
Proof.
  induction rs as [|[idx row] rs IH]; simpl; [lia|].
  destruct (stage_loop rs) as [nr errs]; simpl in IH.
  destruct (stage_row idx row) as [st|e] eqn:E; simpl.
  - apply stage_row_inl in E; destruct E as [-> _].
    pose proof (stage_slots_length row); rewrite length_app; lia.
  - lia.
Qed.

Lemma dict_has_combine (cols : list string) (vals : list pyval) (c : string) :
  ~ In c cols -> dict_has (combine cols vals) c = false.
Proof.
  intros H; unfold dict_has; rewrite dict_lookup_none; [reflexivity|].
  intros Hc; apply in_map_iff in Hc; destruct Hc as ([k v] & <- & Hk).
  apply in_combine_l in Hk; contradiction.
Qed.

Lemma dict_get_has (d : dict) (k : string) (x y : pyval) :
  dict_has d k = true -> dict_get d k x = dict_get d k y.
Proof. unfold dict_has, dict_get; destruct (dict_lookup d k); [reflexivity | discriminate]. Qed.

(** X6: Every row staged by [stage_products_for_upload] has a format that is
    not empty, nan or none (in any case), and its five Untappd fields present
    and not blank. *)
Theorem staged_rows_usable (f : frame) :
  Forall (fun d =>
     (exists fv, dict_lookup d "format" = Some (VStr fv)
                 /\ fv <> "" /\ lower fv <> "nan" /\ lower fv <> "none") /\
     Forall (fun k => exists v, dict_lookup d k = Some v /\ strip (py_str v) <> "")
       ["untappd_brewery"; "untappd_product"; "untappd_abv"; "untappd_style"; "description"])
    (fst (stage_products_for_upload f)).
Proof.
  apply Forall_forall; intros s Hs.
  destruct (stage_in f s Hs) as (idx & row & st & H1 & H2).
  apply stage_row_inl in H1; destruct H1 as [-> Hreq].
  destruct (stage_slots_in row s H2) as (i & _ & Hok & ->).
  split.
  - exists (format_value row i); split; [reflexivity|].
    unfold format_ok in Hok; apply andb_true_iff in Hok; destruct Hok as [Ha Hb].
    apply negb_true_iff, String.eqb_neq in Ha.
    apply negb_true_iff in Hb; simpl in Hb.
    destruct (String.eqb_spec (lower (format_value row i)) "nan"); [discriminate|].
    destruct (String.eqb_spec (lower (format_value row i)) "none"); [discriminate|].
    auto.
  - assert (G : forall K, In K required ->
              exists v, Some (dict_get row K VNone) = Some v /\ strip (py_str v) <> "").
    { intros K HK; exists (dict_get row K VNone); split; [reflexivity|].
      destruct (Hreq K HK) as [Hh Hn]; rewrite (dict_get_has row K VNone (VStr "") Hh); exact Hn. }
    repeat constructor; apply G; simpl; tauto.
Qed.

(** X7: When a non-empty matrix lacks a required Untappd column, nothing is
    staged and each row gets the missing-columns error with its index plus
    one. *)
Theorem stage_missing_columns (f : frame) (c : string) :
  frame_empty f = false -> In c required -> ~ In c (columns f) ->
  stage_products_for_upload f =
    ([], List.map (fun r => "Row " ++ Z_to_string (fst r + 1)
                           ++ ": Missing columns. Please run Search in Tab 2 first.") (rows f)).
Proof.
  intros Hne Hc Hcol; unfold stage_products_for_upload; rewrite Hne.
  induction (rows f) as [|[idx vals] l IH]; [reflexivity|].
  simpl; rewrite IH.
  unfold stage_row; cbv zeta.
  match goal with |- context [Nat.eqb ?x 0] => destruct (Nat.eqb x 0) eqn:E end; [|reflexivity].
  exfalso; pose proof (filter_nil_false _ _ c E Hc) as H; simpl in H.
  unfold row_dict in H; rewrite (dict_has_combine _ vals c Hcol) in H; discriminate.
Qed.

Lemma stage_missing_columns_witness :
  stage_products_for_upload (mkFrame ["Format1"] [(0, [VStr "Can"])])
  = ([], ["Row 1: Missing columns. Please run Search in Tab 2 first."]).
Proof.
  rewrite (stage_missing_columns (mkFrame ["Format1"] [(0, [VStr "Can"])]) "Untappd_Brewery");
    [reflexivity | reflexivity | simpl; auto | simpl; intros [H|[]]; discriminate H].
Defined.

Lemma stage_loop_rows (rs : list (Z * dict)) :
  stage_loop rs =
    (List.concat (List.map (fun r => match stage_row (fst r) (snd r) with
                                     | inl st => st | inr _ => [] end) rs),
     List.concat (List.map (fun r => match stage_row (fst r) (snd r) with
                                     | inl _ => [] | inr e => [e] end) rs)).
Proof.
  induction rs as [|[idx row] rs IH]; simpl; [reflexivity|].
  rewrite IH; destruct (stage_row idx row); reflexivity.
Qed.

(** X8: Each row of a non-empty matrix contributes, in row order, either its
    staged rows (at most three) and no error, or exactly one error and no
    staged row; the staged rows and the errors are the concatenations of
    these contributions.  An empty matrix gives neither. *)
Theorem stage_accounting (f : frame) :
  let outs := List.map (fun r => stage_row (fst r) (row_dict f (snd r))) (rows f) in
  stage_products_for_upload f =
    (if frame_empty f then ([], [])
     else (List.concat (List.map (fun o => match o with inl st => st | inr _ => [] end) outs),
           List.concat (List.map (fun o => match o with inl _ => [] | inr e => [e] end) outs)))
  /\ Forall (fun o => match o with inl st => (List.length st <= 3)%nat | inr _ => True end) outs.
Proof.
  intros outs; split.
  - unfold stage_products_for_upload; destruct (frame_empty f); [reflexivity|].
    rewrite stage_loop_rows; unfold outs; rewrite !map_map; reflexivity.
  - apply Forall_forall; intros o Ho; unfold outs in Ho.
    apply in_map_iff in Ho; destruct Ho as (r & <- & _).
    destruct (stage_row (fst r) (row_dict f (snd r))) as [st|e] eqn:E; [|exact I].
    apply stage_row_inl in E; destruct E as [-> _]; apply stage_slots_length.
Qed.

(** X9: The product payload of an upload row built on a staged row succeeds,
    has no image, the twelve metafields in order and an empty [ut_id]. *)
Theorem product_payload_staged (f : frame) (s base : dict) (r : synth_row) (loc : string)
    (vs : list pyobj) :
  In s (fst (stage_products_for_upload f)) -> List.map fst base = List.map fst s ->
  exists p, create_shopify_product_payload (upload_row base r) loc vs = Done p /\
    product_field p "images" = Some (PList []) /\
    List.map metafield_key (metafields_of (product_field p "metafields")) =
      List.map Some ["abv"; "depot"; "format"; "primary_style"; "secondary_style"; "collaboration";
                     "keg_type"; "ut_ignore"; "ut_id"; "ut_description"; "brewery_location";
                     "abv_category"] /\
    In (metafield "ut_id" (VStr "") "number_integer") (metafields_of (product_field p "metafields")).
Proof.
  intros Hs Hk; rewrite (stage_keys f s Hs) in Hk.
  assert (Hn : forall k, ~ In k (List.map fst (staged_row [] "" "")) -> dict_lookup base k = None)
    by (intros k; rewrite <- Hk; apply dict_lookup_none).
  assert (H1 : dict_lookup (upload_row base r) "Untappd_ID" = None)
    by (rewrite upload_row_lookup; apply Hn; simpl; intuition discriminate).
  assert (H2 : dict_lookup (upload_row base r) "untappd_id" = None)
    by (rewrite upload_row_lookup; apply Hn; simpl; intuition discriminate).
  assert (H3 : dict_lookup (upload_row base r) "Label_Thumb" = None)
    by (rewrite upload_row_lookup; apply Hn; simpl; intuition discriminate).
  assert (H4 : exists v, dict_lookup (upload_row base r) "untappd_brewery" = Some v).
  { rewrite upload_row_lookup; cbn -[dict_lookup]; apply dict_lookup_some; rewrite Hk; simpl; tauto. }
  assert (H5 : dict_lookup (upload_row base r) "Family_Name" = Some (VStr (family_name r)))
    by (rewrite upload_row_lookup; reflexivity).
  destruct H4 as [vendor H4].
  remember (upload_row base r) as u eqn:Hu; clear Hu.
  unfold create_shopify_product_payload; rewrite H5, H4.
  assert (G : forall k d, dict_lookup u k = None -> dict_get u k d = d)
    by (intros k d E; unfold dict_get; rewrite E; reflexivity).
  rewrite (G _ _ H1), (G _ _ H2), (G _ _ H3).
  destruct (split_untappd_style _) as [sp ss].
  eexists; split; [reflexivity|].
  split; [reflexivity|]; split; [reflexivity|].
  simpl; tauto.
Qed.

Lemma product_payload_staged_witness :
  let f := mkFrame (required ++ ["Format1"])
             [(0, [VStr "Example Brew Co"; VStr "Test Pale"; VStr "5.0"; VStr "IPA - American";
                   VStr "Hoppy"; VStr "Can"])] in
  let s := staged_row (row_dict f [VStr "Example Brew Co"; VStr "Test Pale"; VStr "5.0";
                                   VStr "IPA - American"; VStr "Hoppy"; VStr "Can"]) "Can" "1" in
  In s (fst (stage_products_for_upload f)) /\ List.map fst s = List.map fst s /\
  exists p, create_shopify_product_payload
              (upload_row s (mkRow "F" "N" zero "" "Rotational Product" zero zero (of_Z 1) "33cl" "V")) "L" []
            = Done p /\ product_field p "images" = Some (PList []).
Proof.
  intros f s.
  assert (Hs : In s (fst (stage_products_for_upload f))) by (vm_compute; left; reflexivity).
  split; [exact Hs|]; split; [reflexivity|].
  destruct (product_payload_staged f s s (mkRow "F" "N" zero "" "Rotational Product" zero zero (of_Z 1) "33cl" "V") "L" [] Hs eq_refl)
    as (p & Hp & Hi & _).
  exists p; split; assumption.
Defined.

End StagingFacts.

Module OrderFacts.

Import PyFloat PyStr PyObj Matcher PurchaseOrder Cin7Order.

Open Scope string_scope.

Lemma prepare_total (rows : list po_input) :
  Forall (fun r => po_total r = mul (po_qty r) (po_cost r)) (prepare_final_po_lines rows).
Proof.
  induction rows as [|x rows IH]; simpl; [constructor|].
  destruct (in_status x); try exact IH.
  constructor; [|exact IH].
  unfold po_line; destruct (in_use_split x); reflexivity.
Qed.

Lemma order_lines_forall2 (loc : string) (l : list po_row) :
  Forall (fun r => po_total r = mul (po_qty r) (po_cost r)) l ->
  Forall2 (fun r o => id_col_of loc r = IdText (ol_product_id o) /\ ol_quantity o = po_qty r
                      /\ ol_price o = po_cost r /\ ol_total o = round2 (po_total r))
    (List.filter (fun r => match id_col_of loc r with
                           | IdText s => negb (String.eqb (strip s) "")
                           | IdNone => false
                           end) l)
    (order_lines loc l).
Proof.
  induction l as [|r l IH]; simpl; intros H; [constructor|].
  inversion H as [|? ? Hr Hl]; subst.
  unfold order_lines in *; simpl; unfold order_line_of at 1.
  destruct (id_col_of loc r) as [s|] eqn:E; [|exact (IH Hl)].
  destruct (negb (String.eqb (strip s) "")); [|exact (IH Hl)].
  simpl; constructor; [|exact (IH Hl)].
  rewrite Hr; auto.
Qed.

(** X10: The order lines of the export are the prepared PO lines whose catalog
    ID for the location is a non-blank text, in order, with that ID, the
    quantity, the cost and the rounded line total. *)
Theorem order_lines_of_po (loc : string) (rows : list po_input) :
  Forall2 (fun r o => id_col_of loc r = IdText (ol_product_id o) /\ ol_quantity o = po_qty r
                      /\ ol_price o = po_cost r /\ ol_total o = round2 (po_total r))
    (List.filter (fun r => match id_col_of loc r with
                           | IdText s => negb (String.eqb (strip s) "")
                           | IdNone => false
                           end) (prepare_final_po_lines rows))
    (order_lines loc (prepare_final_po_lines rows)).
Proof. apply order_lines_forall2, prepare_total. Qed.

(** X11: [create_cin7_purchase_order] returns no log; it sends requests only
    with the secrets, a non-empty order and a truthy supplier ID, the header
    first; a success has sent exactly the header and the lines under a truthy
    task ID, which the message names. *)
Theorem export_requests (headers_ok : bool) (get_sup : pyval -> outcome (option dict))
    (send : request -> response + string) (today : string) (header : dict) (lines : list po_row)
    (loc : string) (ok : bool) (msg : string) (logs : list string) (reqs : list request) :
  create_cin7_purchase_order headers_ok get_sup send today header lines loc = Done (ok, msg, logs, reqs) ->
  logs = [] /\
  (reqs <> [] -> headers_ok = true /\ order_lines loc lines <> [] /\
     exists sid, truthy sid = true /\
       hd_error reqs = Some (PostHeader sid loc today (py_str (dict_get header "Invoice_Number" (VStr ""))))) /\
  (ok = true -> exists sid tid,
     truthy sid = true /\ truthy tid = true /\
     reqs = [PostHeader sid loc today (py_str (dict_get header "Invoice_Number" (VStr "")));
             PostLines tid (order_lines loc lines)] /\
     msg = "✅ PO Created! ID: " ++ py_str tid).
Proof.
  unfold create_cin7_purchase_order; cbv zeta; intros H.
  repeat match type of H with
         | context [match ?x with _ => _ end] => destruct x eqn:?
         end;
  try discriminate H; injection H as <- <- <- <-;
  repeat match goal with
         | E : negb ?b = false |- _ => apply negb_false_iff in E
         end.
  all: (split; [reflexivity|]).
  all: (split; [intros Hr; try (exfalso; apply Hr; reflexivity) | intros Hok; try discriminate Hok]).
  all: first
    [ (split; [assumption|]); (split; [congruence|]);
      eexists; split; [|reflexivity]; eassumption
    | do 2 eexists; split; [|split; [|split; [reflexivity|reflexivity]]]; eassumption ].
Qed.

Lemma export_requests_witness :
  let header := [("Cin7_Supplier_ID", VStr "S-1"); ("Invoice_Number", VStr "INV-100")] in
  let lines := [mkPoRow "Test Pale" "30L" (of_Z 3) (of_Z 10) (of_Z 30) "" (IdText "P-1") (IdText "")] in
  let send := fun _ : request => inl (mkResponse 200 (inl (VInt 7)) "ok") : response + string in
  exists msg reqs,
    create_cin7_purchase_order true (fun _ => Done None) send "2026-10-18" header lines "London"
      = Done (true, msg, [], reqs)
    /\ exists sid tid, truthy sid = true /\ truthy tid = true /\
       reqs = [PostHeader sid "London" "2026-10-18" "INV-100"; PostLines tid (order_lines "London" lines)] /\
       msg = "✅ PO Created! ID: " ++ py_str tid.
Proof.
  intros header lines send; do 2 eexists.
  match goal with |- ?E /\ _ => assert (HE : E) by (vm_compute; reflexivity) end.
  split; [exact HE|].
  exact (proj2 (proj2 (export_requests _ _ _ _ _ _ _ _ _ _ _ HE)) eq_refl).
Defined.

End OrderFacts.

Module FamilyFacts.

Import PyStr PyObj Cin7Family ObjFacts.

Open Scope string_scope.

Lemma same_id_set (pid v : pyval) (p : dict) :
  same_id pid (dict_set "Option1" v p) = same_id pid p.
Proof. unfold same_id, dict_get; rewrite dict_lookup_set; reflexivity. Qed.

Lemma link_loop_spec (pid vn : pyval) (ps : list dict) :
  let '(ps', b) := link_loop pid vn ps in
  b = existsb (same_id pid) ps /\
  (b = false -> ps' = ps) /\
  (b = true -> (exists p, find (same_id pid) ps' = Some p /\ dict_lookup p "Option1" = Some vn) /\
               List.length ps' = List.length ps) /\
  List.filter (fun p => negb (same_id pid p)) ps' = List.filter (fun p => negb (same_id pid p)) ps.
Proof.
  induction ps as [|p ps IH]; simpl; [repeat split; congruence|].
  destruct (same_id pid p) eqn:E.
  - simpl; rewrite same_id_set, E; simpl.
    repeat split; try discriminate.
    exists (dict_set "Option1" vn p); split; [reflexivity|].
    rewrite dict_lookup_set; reflexivity.
  - destruct (link_loop pid vn ps) as [ps' b]; destruct IH as (Hb & Hf & Ht & Hfl).
    simpl; rewrite E; simpl; rewrite Hfl.
    split; [assumption|]; split; [intros Hb'; rewrite (Hf Hb'); reflexivity|].
    split; [|reflexivity].
    intros Hb'; destruct (Ht Hb') as [[q [Hq Hq']] Hl].
    split; [exists q; split; assumption | simpl; rewrite Hl; reflexivity].
Qed.

Lemma link_loop_fixed (pid vn : pyval) (ps : list dict) (p : dict) :
  find (same_id pid) ps = Some p -> dict_lookup p "Option1" = Some vn ->
  link_loop pid vn ps = (ps, true).
Proof.
  induction ps as [|q ps IH]; simpl; [discriminate|].
  destruct (same_id pid q) eqn:E.
  - intros H; injection H as ->; intros Hv; rewrite (dict_set_same _ _ _ Hv); reflexivity.
  - intros H Hv; rewrite (IH H Hv); reflexivity.
Qed.

(** X12: After the linking loop of [create_cin7_variant], the first product
    with the ID carries the variant name as [Option1], the products with
    another ID are unchanged, an entry is added only when no product had the
    ID, and linking again changes nothing. *)
Theorem link_variant_spec (cur : option (list dict)) (pid vn : pyval) :
  let ps := match cur with Some l => l | None => [] end in
  let ps' := link_variant cur pid vn in
  (exists p, find (same_id pid) ps' = Some p /\ dict_lookup p "Option1" = Some vn) /\
  List.filter (fun p => negb (same_id pid p)) ps' = List.filter (fun p => negb (same_id pid p)) ps /\
  List.length ps' = (List.length ps + if existsb (same_id pid) ps then 0 else 1)%nat /\
  link_variant (Some ps') pid vn = ps'.
Proof.
  cbv zeta; unfold link_variant.
  set (ps := match cur with Some l => l | None => [] end).
  pose proof (link_loop_spec pid vn ps) as Hs.
  destruct (link_loop pid vn ps) as [ps' b]; destruct Hs as (Hb & Hf & Ht & Hfl).
  destruct b.
  - destruct (Ht eq_refl) as [[p [Hp Hv]] Hl].
    rewrite <- Hb, Hl, (link_loop_fixed pid vn ps' p Hp Hv).
    repeat split; [exists p; auto | exact Hfl | lia].
  - rewrite (Hf eq_refl) in *; rewrite <- Hb.
    assert (Hn : find (same_id pid) ps = None).
    { destruct (find (same_id pid) ps) as [q|] eqn:Eq; [|reflexivity].
      apply find_some in Eq; destruct Eq as [Hq Hq'].
      assert (existsb (same_id pid) ps = true) by (apply existsb_exists; eauto).
      congruence. }
    assert (Hnew : same_id pid [("ID", pid); ("Option1", vn)] = true)
      by (unfold same_id, dict_get; simpl; apply String.eqb_refl).
    assert (Hfind : find (same_id pid) (List.app ps [[("ID", pid); ("Option1", vn)]])
                    = Some [("ID", pid); ("Option1", vn)]).
    { clear - Hn Hnew; induction ps as [|q l IHp]; simpl in *; [rewrite Hnew; reflexivity|].
      destruct (same_id pid q); [discriminate|]; apply IHp; assumption. }
    split; [|split; [|split]].
    + exists [("ID", pid); ("Option1", vn)]; split; [exact Hfind | reflexivity].
    + rewrite filter_app; simpl; rewrite Hnew; simpl; apply app_nil_r.
    + rewrite length_app; simpl; lia.
    + rewrite (link_loop_fixed pid vn _ _ Hfind eq_refl); reflexivity.
Qed.

End FamilyFacts.

Module LookupFacts.

Import PyStr PyObj Matcher UntappdLookup ObjFacts.

Open Scope string_scope.

Lemma lookup_row_spec (search : pyval -> pyval -> option dict) (r r' : dict) (log : list string) :
  lookup_row search r = Done (r', log) ->
  (status_text r' = found \/ status_text r' = not_found) /\
  (status_text r = found -> r' = r /\ log = []) /\
  (status_text r <> found -> List.length log = 1%nat).
Proof.
  unfold lookup_row; fold (status_text r); intros H.
  destruct (String.eqb_spec (status_text r) found) as [Hf|Hf].
  - injection H as <- <-; split; [left; exact Hf | split; [auto | intros C; contradiction]].
  - repeat match type of H with
           | context [match ?x with _ => _ end] => destruct x eqn:?
           end; try discriminate H; injection H as <- <-;
      (split; [|split; [intros; contradiction | reflexivity]]);
      unfold status_text, dict_get; rewrite !dict_lookup_set; simpl; auto.
Qed.

(** X13: The lookup loop treats each row on its own, in order: the output
    row and the log lines of each row are those of the loop body on that
    row; a row already found is left as it is and logs nothing, and a row
    not yet found logs exactly one line; the logs are the concatenation of
    the rows' log lines. *)
Theorem lookup_rows_found_unchanged (search : pyval -> pyval -> option dict)
    (rs rs' : list dict) (logs : list string) :
  lookup_rows search rs = Done (rs', logs) ->
  exists outs : list (dict * list string),
    rs' = List.map fst outs /\ logs = List.concat (List.map snd outs) /\
    Forall2 (fun r o => lookup_row search r = Done o
               /\ (status_text r = found -> o = (r, []))
               /\ (status_text r <> found -> List.length (snd o) = 1%nat)) rs outs.
Proof.
  revert rs' logs; induction rs as [|r rs IH]; simpl; intros rs' logs H.
  - injection H as <- <-; exists []; split; [reflexivity | split; [reflexivity | constructor]].
  - destruct (lookup_row search r) as [|[r1 log]] eqn:E1; [discriminate|].
    destruct (lookup_rows search rs) as [|[rs1 logs1]] eqn:E2; [discriminate|].
    injection H as <- <-.
    destruct (IH rs1 logs1 eq_refl) as (outs & -> & -> & Hf).
    destruct (lookup_row_spec search r r1 log E1) as (_ & Hfound & Hn).
    exists ((r1, log) :: outs); split; [reflexivity | split; [reflexivity|]].
    constructor; [|exact Hf].
    split; [exact E1 | split].
    + intros Hs; destruct (Hfound Hs) as [-> ->]; reflexivity.
    + exact Hn.
Qed.

Lemma lookup_rows_found_unchanged_witness :
  let rs := [[("Supplier_Name", VStr "Example Brew Co"); ("Product_Name", VStr "Test Pale");
              ("Untappd_Status", VStr found)];
             [("Supplier_Name", VStr "Example Brew Co"); ("Product_Name", VStr "Test Stout");
              ("Untappd_Status", VStr "")]] in
  exists rs' logs, lookup_rows (fun _ _ => None) rs = Done (rs', logs) /\
  exists outs : list (dict * list string),
    rs' = List.map fst outs /\ logs = List.concat (List.map snd outs) /\
    Forall2 (fun r o => lookup_row (fun _ _ => None) r = Done o
               /\ (status_text r = found -> o = (r, []))
               /\ (status_text r <> found -> List.length (snd o) = 1%nat)) rs outs.
Proof.
  intros rs; do 2 eexists.
  match goal with |- ?E /\ _ => assert (HE : E) by (vm_compute; reflexivity) end.
  split; [exact HE|].
  exact (lookup_rows_found_unchanged _ _ _ _ HE).
Defined.

Lemma lookup_rows_status (search : pyval -> pyval -> option dict) (rs rs' : list dict) (logs : list string) :
  lookup_rows search rs = Done (rs', logs) ->
  List.length rs' = List.length rs /\
  Forall (fun r => status_text r = found \/ status_text r = not_found) rs'.
Proof.
  revert rs' logs; induction rs as [|r rs IH]; simpl; intros rs' logs H.
  - injection H as <- <-; split; [reflexivity | constructor].
  - destruct (lookup_row search r) as [|[r1 log]] eqn:E1; [discriminate|].
    destruct (lookup_rows search rs) as [|[rs1 logs1]] eqn:E2; [discriminate|].
    injection H as <- <-.
    destruct (IH rs1 logs1 eq_refl) as [IH1 IH2].
    destruct (lookup_row_spec search r r1 log E1) as (Hs & _ & _).
    split; [simpl; rewrite IH1; reflexivity | constructor; assumption].
Qed.

(** X14: [batch_untappd_lookup] of a non-empty matrix keeps the number of rows
    and leaves each one found or not found. *)
Theorem batch_lookup_statuses (search : pyval -> pyval -> option dict) (f : frame)
    (rs : list dict) (logs : list string) :
  frame_empty f = false -> batch_untappd_lookup search f = Done (rs, logs) ->
  List.length rs = List.length (rows f) /\
  Forall (fun r => py_str (dict_get r "Untappd_Status" (VStr "")) = found
                   \/ py_str (dict_get r "Untappd_Status" (VStr "")) = not_found) rs.
Proof.
  intros Hne; unfold batch_untappd_lookup; rewrite Hne; intros H.
  destruct (lookup_rows_status search _ _ _ H) as [Hl Hs].
  rewrite length_map in Hl; split; [exact Hl | exact Hs].
Qed.

Lemma batch_lookup_statuses_witness :
  let f := mkFrame ["Supplier_Name"; "Product_Name"] [(0, [VStr "Example Brew Co"; VStr "Test Pale"])] in
  frame_empty f = false /\
  exists rs logs, batch_untappd_lookup (fun _ _ => None) f = Done (rs, logs) /\
  List.length rs = List.length (rows f) /\
  Forall (fun r => py_str (dict_get r "Untappd_Status" (VStr "")) = found
                   \/ py_str (dict_get r "Untappd_Status" (VStr "")) = not_found) rs.
Proof.
  intros f.
  assert (Hne : frame_empty f = false) by reflexivity.
  split; [exact Hne|]; do 2 eexists.
  match goal with |- ?E /\ _ => assert (HE : E) by (vm_compute; reflexivity) end.
  split; [exact HE|].
  exact (batch_lookup_statuses _ _ _ _ Hne HE).
Defined.

End LookupFacts.

Module MatrixFacts.

Import PyStr PyObj Matcher ProductMatrix ObjFacts.

Open Scope string_scope.

Lemma format_slots_keys (items : list dict) (n : nat) (s : dict) :
  (n <= 3)%nat -> format_slots n items = Done s ->
  List.map fst s = List.flat_map (fun j => slot_keys (Z_to_string (Z.of_nat j + 1)))
                     (seq n (Nat.min (List.length items) (3 - n))).
Proof.
  revert n s; induction items as [|it items IH]; cbn [format_slots length]; intros n s Hn H.
  - injection H as <-; reflexivity.
  - revert H; destruct (Nat.leb_spec 3 n) as [Hle|Hle]; intros H.
    + injection H as <-; replace (3 - n)%nat with 0%nat by lia; reflexivity.
    + destruct (format_slot _ it) as [|a] eqn:E1; [discriminate|].
      destruct (format_slots (S n) items) as [|b] eqn:E2; [discriminate|].
      injection H as <-.
      replace (3 - n)%nat with (S (3 - S n)) by lia; simpl.
      rewrite map_app, (IH (S n) b ltac:(lia) E2).
      unfold format_slot in E1.
      destruct (dict_lookup it "Format"), (dict_lookup it "Pack_Size"), (dict_lookup it "Volume"),
        (dict_lookup it "Item_Price"); try discriminate.
      injection E1 as <-; reflexivity.
Qed.

Lemma dict_has_keys (d : dict) (k : string) :
  dict_has d k = List.existsb (String.eqb k) (List.map fst d).
Proof.
  unfold dict_has; induction d as [|[k' v] d IH]; simpl; [reflexivity|].
  destruct (String.eqb k k'); [reflexivity | exact IH].
Qed.

Lemma all_done_forall2 {A B : Type} (f : A -> outcome B) (l : list A) (ms : list B) :
  all_done (List.map f l) = Done ms -> Forall2 (fun a m => f a = Done m) l ms.
Proof.
  revert ms; induction l as [|a l IH]; simpl; intros ms H.
  - injection H as <-; constructor.
  - destruct (f a) as [|m] eqn:Ea; [discriminate|].
    destruct (all_done (List.map f l)) as [|ms'] eqn:E; [discriminate|].
    injection H as <-; constructor; [exact Ea | exact (IH ms' eq_refl)].
Qed.

Lemma matrix_row_slots (g : list pyval * list dict) (m : dict) :
  matrix_row g = Done m -> slots_of m = firstn (List.length (snd g)) ["1"; "2"; "3"].
Proof.
  destruct g as [name items]; unfold matrix_row.
  destruct (format_slots 0 items) as [|s] eqn:E; [discriminate|].
  intros H; injection H as <-.
  pose proof (format_slots_keys items 0 s ltac:(lia) E) as K.
  unfold slots_of; simpl filter; rewrite !dict_has_keys; cbn [map fst snd].
  destruct (List.length items) as [|[|[|k]]] in K |- *;
    [| | | replace (Nat.min _ _) with 3%nat in K by lia]; rewrite K;
    try (cbn [firstn]; rewrite firstn_nil); vm_compute; reflexivity.
Qed.

Lemma add_to_groups_count (r : dict) (gs : list (list pyval * list dict)) :
  list_sum (List.map (fun g => List.length (snd g)) (add_to_groups r gs))
  = S (list_sum (List.map (fun g => List.length (snd g)) gs)).
Proof.
  unfold list_sum; induction gs as [|[k items] gs IH]; cbn [add_to_groups]; [reflexivity|].
  destruct (key_eq (key_of r) k); cbn [map fold_right snd].
  - rewrite length_app; simpl; lia.
  - rewrite IH; lia.
Qed.

Lemma group_rows_count (rs : list dict) :
  list_sum (List.map (fun g => List.length (snd g)) (group_rows rs)) = List.length rs.
Proof.
  unfold group_rows.
  assert (G : forall gs, list_sum (List.map (fun g => List.length (snd g))
                            (fold_left (fun gs r => add_to_groups r gs) rs gs))
                         = (list_sum (List.map (fun g => List.length (snd g)) gs) + List.length rs)%nat).
  { induction rs as [|r rs IH]; simpl; intros gs; [lia|].
    rewrite IH, add_to_groups_count; lia. }
  rewrite G; reflexivity.
Qed.

Lemma add_to_groups_perm (r : dict) (gs : list (list pyval * list dict)) :
  Permutation (List.concat (List.map snd (add_to_groups r gs)))
              (List.concat (List.map snd gs) ++ [r]).
Proof.
  induction gs as [|[k items] gs IH]; cbn [add_to_groups]; [reflexivity|].
  destruct (key_eq (key_of r) k); cbn [map snd List.concat].
  - rewrite <- !app_assoc; apply Permutation_app_head, Permutation_app_comm.
  - rewrite <- app_assoc; apply Permutation_app_head, IH.
Qed.

Lemma group_rows_perm (rs : list dict) :
  Permutation (List.concat (List.map snd (group_rows rs))) rs.
Proof.
  unfold group_rows.
  assert (G : forall gs, Permutation (List.concat (List.map snd
                            (fold_left (fun gs r => add_to_groups r gs) rs gs)))
                         (List.concat (List.map snd gs) ++ rs)).
  { induction rs as [|r rs IH]; simpl; intros gs; [rewrite app_nil_r; reflexivity|].
    eapply Permutation_trans; [apply IH|].
    replace (List.concat (List.map snd gs) ++ r :: rs)%list
      with ((List.concat (List.map snd gs) ++ [r]) ++ rs)%list by (rewrite <- app_assoc; reflexivity).
    apply Permutation_app_tail, add_to_groups_perm. }
  apply (G []).
Qed.

(** The shape of a group: its key is the key of its first line, and its
    other lines have a key equal to it. *)
Definition group_shape (g : list pyval * list dict) : Prop :=
  exists first rest, snd g = first :: rest /\ fst g = key_of first
    /\ Forall (fun r => key_eq (key_of r) (fst g) = true) rest.

Lemma add_to_groups_shape (r : dict) (gs : list (list pyval * list dict)) :
  Forall group_shape gs -> Forall group_shape (add_to_groups r gs).
Proof.
  induction gs as [|[k items] gs IH]; cbn [add_to_groups]; intros H.
  - repeat constructor; exists r, []; repeat split; constructor.
  - inversion H as [|? ? Hg Hgs]; subst.
    destruct (key_eq (key_of r) k) eqn:E; constructor; [|exact Hgs| exact Hg | exact (IH Hgs)].
    destruct Hg as (first & rest & Hs & Hk & Hr); cbn [snd fst] in *.
    exists first, (rest ++ [r])%list; subst items; split; [reflexivity|split; [exact Hk|]].
    apply Forall_app; split; [exact Hr | constructor; [exact E | constructor]].
Qed.

Lemma group_rows_shape (rs : list dict) : Forall group_shape (group_rows rs).
Proof.
  unfold group_rows.
  assert (G : forall gs, Forall group_shape gs ->
              Forall group_shape (fold_left (fun gs r => add_to_groups r gs) rs gs)).
  { induction rs as [|r rs IH]; simpl; intros gs H; [exact H|].
    apply IH, add_to_groups_shape, H. }
  apply G; constructor.
Qed.

(** The cells of format slot [sfx] of a matrix row [m] are those of the
    line [it]. *)
Definition slot_holds (m : dict) (it : dict) (sfx : string) : Prop :=
  dict_lookup m ("Format" ++ sfx) = dict_lookup it "Format"
  /\ dict_lookup m ("Pack_Size" ++ sfx) = dict_lookup it "Pack_Size"
  /\ dict_lookup m ("Volume" ++ sfx) = dict_lookup it "Volume"
  /\ dict_lookup m ("Item_Price" ++ sfx) = dict_lookup it "Item_Price"
  /\ dict_lookup m ("Split_Case" ++ sfx) = Some (dict_get it "Use_Split" (VBool false)).

Lemma matrix_row_cells (g : list pyval * list dict) (m : dict) :
  matrix_row g = Done m ->
  dict_lookup m "Supplier_Name" = Some (nth 0 (fst g) VNone)
  /\ dict_lookup m "Collaborator" = Some (nth 1 (fst g) VNone)
  /\ dict_lookup m "Product_Name" = Some (nth 2 (fst g) VNone)
  /\ dict_lookup m "ABV" = Some (nth 3 (fst g) VNone)
  /\ Forall2 (slot_holds m) (firstn 3 (snd g)) (firstn (List.length (snd g)) ["1"; "2"; "3"]).
Proof.
  destruct g as [name items]; unfold matrix_row; cbn [fst snd].
  destruct items as [|i1 [|i2 [|i3 [|i4 rest]]]]; cbn [format_slots Nat.leb firstn List.length];
    unfold format_slot;
    repeat match goal with |- context [Z_to_string ?z] =>
      let v := eval vm_compute in (Z_to_string z) in change (Z_to_string z) with v end;
    repeat match goal with
           | |- context [match dict_lookup ?d ?k with _ => _ end] =>
               destruct (dict_lookup d k) eqn:?
           end;
    try discriminate; intros H; injection H as <-;
    (split; [reflexivity|split; [reflexivity|split; [reflexivity|split; [reflexivity|]]]]);
    repeat constructor; cbn; congruence.
Qed.

(** X15: The groups of the product matrix hold the pending lines, each
    exactly as often as it is pending (the groups' lines are a permutation
    of the pending lines); each group's key is the key of its first line
    and its other lines have a key equal to it.  Each row of the matrix
    carries the key of its group in the four grouping columns, fills format
    slots 1, 2, 3 for the first lines of its group, at most three, and its
    slot [i] holds the format, pack size, volume, price and split flag of
    the [i]-th line of its group. *)
Theorem matrix_rows_slots (df : frame) (ms : list dict) :
  frame_empty df = false -> product_matrix_rows df = Done ms ->
  Permutation (List.concat (List.map snd (group_rows (pending_lines df)))) (pending_lines df)
  /\ Forall (fun g => exists first rest, snd g = first :: rest /\ fst g = key_of first
               /\ Forall (fun r => key_eq (key_of r) (fst g) = true) rest)
       (group_rows (pending_lines df))
  /\ Forall2 (fun g m =>
        dict_lookup m "Supplier_Name" = Some (nth 0 (fst g) VNone)
        /\ dict_lookup m "Collaborator" = Some (nth 1 (fst g) VNone)
        /\ dict_lookup m "Product_Name" = Some (nth 2 (fst g) VNone)
        /\ dict_lookup m "ABV" = Some (nth 3 (fst g) VNone)
        /\ slots_of m = firstn (List.length (snd g)) ["1"; "2"; "3"]
        /\ Forall2 (fun it sfx =>
              dict_lookup m ("Format" ++ sfx) = dict_lookup it "Format"
              /\ dict_lookup m ("Pack_Size" ++ sfx) = dict_lookup it "Pack_Size"
              /\ dict_lookup m ("Volume" ++ sfx) = dict_lookup it "Volume"
              /\ dict_lookup m ("Item_Price" ++ sfx) = dict_lookup it "Item_Price"
              /\ dict_lookup m ("Split_Case" ++ sfx) = Some (dict_get it "Use_Split" (VBool false)))
            (firstn 3 (snd g)) (firstn (List.length (snd g)) ["1"; "2"; "3"]))
      (group_rows (pending_lines df)) ms.
Proof.
  intros Hne H.
  split; [apply group_rows_perm|].
  split; [exact (group_rows_shape _)|].
  revert H; unfold product_matrix_rows; rewrite Hne.
  destruct (pending_lines df) as [|r rs] eqn:Ep.
  - intros H; injection H as <-; constructor.
  - destruct (negb _); [discriminate|].
    intros H; apply all_done_forall2 in H.
    eapply Forall2_impl; [|exact H]; intros g m Hg.
    destruct (matrix_row_cells g m Hg) as (H1 & H2 & H3 & H4 & H5).
    repeat split; try assumption; exact (matrix_row_slots g m Hg).
Qed.

Lemma matrix_rows_slots_witness :
  let df := mkFrame ["Supplier_Name"; "Collaborator"; "Product_Name"; "ABV"; "Format"; "Pack_Size";
                     "Volume"; "Item_Price"]
              [(0, [VStr "Example Brew Co"; VStr ""; VStr "Test Pale"; VStr "5.0"; VStr "Can";
                    VStr "24"; VStr "33cl"; VStr "48"]);
               (1, [VStr "Example Brew Co"; VStr ""; VStr "Test Pale"; VStr "5.0"; VStr "Keg";
                    VStr "1"; VStr "30L"; VStr "99"])] in
  frame_empty df = false /\
  exists ms, product_matrix_rows df = Done ms /\
  Permutation (List.concat (List.map snd (group_rows (pending_lines df)))) (pending_lines df)
  /\ Forall (fun g => exists first rest, snd g = first :: rest /\ fst g = key_of first
               /\ Forall (fun r => key_eq (key_of r) (fst g) = true) rest)
       (group_rows (pending_lines df))
  /\ Forall2 (fun g m =>
        dict_lookup m "Supplier_Name" = Some (nth 0 (fst g) VNone)
        /\ dict_lookup m "Collaborator" = Some (nth 1 (fst g) VNone)
        /\ dict_lookup m "Product_Name" = Some (nth 2 (fst g) VNone)
        /\ dict_lookup m "ABV" = Some (nth 3 (fst g) VNone)
        /\ slots_of m = firstn (List.length (snd g)) ["1"; "2"; "3"]
        /\ Forall2 (fun it sfx =>
              dict_lookup m ("Format" ++ sfx) = dict_lookup it "Format"
              /\ dict_lookup m ("Pack_Size" ++ sfx) = dict_lookup it "Pack_Size"
              /\ dict_lookup m ("Volume" ++ sfx) = dict_lookup it "Volume"
              /\ dict_lookup m ("Item_Price" ++ sfx) = dict_lookup it "Item_Price"
              /\ dict_lookup m ("Split_Case" ++ sfx) = Some (dict_get it "Use_Split" (VBool false)))
            (firstn 3 (snd g)) (firstn (List.length (snd g)) ["1"; "2"; "3"]))
      (group_rows (pending_lines df)) ms.
Proof.
  intros df.
  assert (Hne : frame_empty df = false) by reflexivity.
  split; [exact Hne|]; eexists.
  match goal with |- ?E /\ _ => assert (HE : E) by (vm_compute; reflexivity) end.
  split; [exact HE|].
  exact (matrix_rows_slots _ _ Hne HE).
Defined.

(** X16: [create_product_matrix] raises when lines are pending and a grouping
    column is missing. *)
Theorem matrix_missing_group_column (df : frame) (c : string) :
  frame_empty df = false -> pending_lines df <> [] -> In c group_cols -> ~ In c (columns df) ->
  product_matrix_rows df = Raised.
Proof.
  intros Hne Hp Hc Hcol; unfold product_matrix_rows; rewrite Hne.
  destruct (pending_lines df) as [|r rs]; [contradiction|].
  destruct (forallb _ group_cols) eqn:E; [|reflexivity].
  exfalso; rewrite forallb_forall in E; specialize (E c Hc).
  apply existsb_exists in E; destruct E as (x & Hx & Hxe).
  apply String.eqb_eq in Hxe; subst; contradiction.
Qed.

Lemma matrix_missing_group_column_witness :
  product_matrix_rows (mkFrame ["Supplier_Name"; "Product_Name"]
                         [(0, [VStr "Example Brew Co"; VStr "Test Pale"])]) = Raised.
Proof.
  apply (matrix_missing_group_column _ "Collaborator");
    [reflexivity | vm_compute; discriminate | simpl; auto | simpl; intuition discriminate].
Defined.

(** X17: [create_product_matrix] builds no row when every line is already
    matched. *)
Theorem matrix_all_matched (df : frame) :
  In "Shopify_Status" (columns df) ->
  Forall (fun r => dict_lookup (row_dict df (snd r)) "Shopify_Status" = Some (VStr match_status)) (rows df) ->
  product_matrix_rows df = Done [].
Proof.
  intros Hc Hr; unfold product_matrix_rows.
  destruct (frame_empty df); [reflexivity|].
  replace (pending_lines df) with (@nil dict); [reflexivity|].
  unfold pending_lines.
  replace (existsb (String.eqb "Shopify_Status") (columns df)) with true
    by (symmetry; apply existsb_exists; exists "Shopify_Status"; split; [exact Hc | apply String.eqb_refl]).
  induction (rows df) as [|[idx vals] l IH]; [reflexivity|].
  inversion Hr as [|? ? H1 H2]; subst; simpl.
  rewrite <- (IH H2).
  assert (Hm : forall d : dict, dict_lookup d "Shopify_Status" = Some (VStr match_status) ->
            dict_get (List.map (fun kv => (fst kv, fillna (snd kv))) d) "Shopify_Status" VNone
            = VStr match_status).
  { intros d; unfold dict_get; induction d as [|[k v] d IHd]; cbn [map dict_lookup fst snd];
      [discriminate|].
    destruct (String.eqb "Shopify_Status" k); [intros E; injection E as ->; reflexivity | exact IHd]. }
  simpl in H1; rewrite (Hm _ H1); reflexivity.
Qed.

Lemma matrix_all_matched_witness :
  product_matrix_rows (mkFrame ["Shopify_Status"; "Product_Name"]
                         [(0, [VStr match_status; VStr "Test Pale"])]) = Done [].
Proof.
  apply matrix_all_matched; [simpl; auto | vm_compute; repeat constructor].
Defined.

End MatrixFacts.

Module CleanerFacts.

Import PyStr PyObj Cleaner.

Open Scope string_scope.

Lemma split_ws_aux_app (cur w rest : string) :
  (forall c, In c (list_ascii_of_string w) -> is_space c = false) ->
  split_ws_aux cur (w ++ rest) = split_ws_aux (cur ++ w) rest.
Proof.
  revert cur; induction w as [|c w IH]; simpl; intros cur H.
  - rewrite RoundTripFacts.str_append_empty; reflexivity.
  - rewrite (H c (or_introl eq_refl)), IH by (intros d Hd; apply H; right; exact Hd).
    rewrite <- MatchFacts.str_append_assoc; reflexivity.
Qed.

Lemma split_ws_concat (ws : list string) :
  Forall word_ok ws -> split_ws (String.concat " " ws) = ws.
Proof.
  unfold split_ws; induction ws as [|w ws IH]; intros H; [reflexivity|].
  inversion H as [|? ? [Hw Hs] Hws]; subst.
  destruct ws as [|w' ws].
  - simpl; rewrite <- (RoundTripFacts.str_append_empty w) at 1.
    rewrite split_ws_aux_app by exact Hs; simpl.
    destruct (String.eqb_spec w ""); [contradiction | reflexivity].
  - change (String.concat " " (w :: w' :: ws)) with (w ++ String " " (String.concat " " (w' :: ws))).
    rewrite split_ws_aux_app by exact Hs.
    change ("" ++ w) with w.
    replace (split_ws_aux w (String " " (String.concat " " (w' :: ws))))
      with (List.app (if String.eqb w "" then [] else [w]) (split_ws_aux "" (String.concat " " (w' :: ws))))
      by reflexivity.
    destruct (String.eqb_spec w ""); [contradiction|].
    rewrite (IH Hws); reflexivity.
Qed.

Lemma split_ws_aux_words (cur s : string) :
  (forall c, In c (list_ascii_of_string cur) -> is_space c = false) ->
  Forall word_ok (split_ws_aux cur s).
Proof.
  revert cur; induction s as [|c s IH]; simpl; intros cur Hc.
  - destruct (String.eqb_spec cur ""); constructor; [split; assumption | constructor].
  - destruct (is_space c) eqn:E.
    + apply Forall_app; split; [|apply IH; simpl; tauto].
      destruct (String.eqb_spec cur ""); constructor; [split; assumption | constructor].
    + apply IH; intros d Hd.
      destruct (StrFacts.in_append d cur (String c "") Hd) as [Hd' | [<- | []]];
        [exact (Hc d Hd') | exact E].
Qed.

Lemma in_concat_sp (c : ascii) (ws : list string) :
  In c (list_ascii_of_string (String.concat " " ws)) ->
  c = " "%char \/ exists w, In w ws /\ In c (list_ascii_of_string w).
Proof.
  induction ws as [|w ws IH]; simpl; [tauto|].
  destruct ws as [|w' ws].
  - intros H; right; exists w; auto.
  - intros H; apply StrFacts.in_append in H; destruct H as [H | [H | H]].
    + right; exists w; auto.
    + left; symmetry; exact H.
    + destruct (IH H) as [E | (v & Hv & Hc)]; [left; exact E | right; exists v; auto].
Qed.

Lemma split_ws_aux_chars (c : ascii) (cur s w : string) :
  In w (split_ws_aux cur s) -> In c (list_ascii_of_string w) ->
  In c (list_ascii_of_string cur) \/ In c (list_ascii_of_string s).
Proof.
  revert cur; induction s as [|b s IH]; simpl; intros cur Hw Hc.
  - destruct (String.eqb cur ""); simpl in Hw; [tauto|].
    destruct Hw as [<- | []]; left; exact Hc.
  - destruct (is_space b).
    + apply in_app_or in Hw; destruct Hw as [Hw | Hw].
      * destruct (String.eqb cur ""); simpl in Hw; [tauto|].
        destruct Hw as [<- | []]; left; exact Hc.
      * destruct (IH "" Hw Hc) as [[] | H]; right; right; exact H.
    + destruct (IH _ Hw Hc) as [H | H]; [|right; right; exact H].
      destruct (StrFacts.in_append c cur (String b "") H) as [H' | [<- | []]];
        [left; exact H' | right; left; reflexivity].
Qed.

Lemma skip_digits_suffix (l : list ascii) : exists p, l = List.app p (skip_digits l).
Proof.
  induction l as [|c l IH]; cbn [skip_digits]; [exists []; reflexivity|].
  destruct (is_digit c); [destruct IH as [p Hp]; exists (c :: p); simpl; f_equal; exact Hp | exists []; reflexivity].
Qed.

Lemma bind_suffix (o : option (list ascii)) (f : list ascii -> option (list ascii)) (l r : list ascii) :
  (forall m, o = Some m -> exists p, l = List.app p m) -> suffix_body f ->
  bind o f = Some r -> exists p, l = List.app p r.
Proof.
  intros Ho Hf; destruct o as [m|]; simpl; [|discriminate].
  intros H; destruct (Ho m eq_refl) as [p Hp]; destruct (Hf m r H) as [q Hq].
  exists (List.app p q); rewrite Hp, Hq, app_assoc; reflexivity.
Qed.

Lemma digits_then_suffix : suffix_body digits_then.
Proof.
  intros l r; destruct l as [|c l]; cbn [digits_then]; [discriminate|].
  destruct (is_digit c) eqn:E; [|discriminate].
  intros H; injection H as <-.
  destruct (skip_digits_suffix l) as [p Hp]; exists (c :: p); cbn [skip_digits]; rewrite E; cbn [app]; f_equal; exact Hp.
Qed.

Lemma letter_suffix (x : ascii) : suffix_body (letter x).
Proof.
  intros l r; destruct l as [|c l]; cbn [letter]; [discriminate|].
  destruct (Ascii.eqb (lower_char c) x); [|discriminate].
  intros H; injection H as <-; exists [c]; reflexivity.
Qed.

Lemma end_boundary_suffix : suffix_body end_boundary.
Proof.
  intros l r; destruct l as [|c l]; cbn [end_boundary].
  - intros H; injection H as <-; exists []; reflexivity.
  - destruct (is_word c); [discriminate|]. intros H; injection H as <-; exists []; reflexivity.
Qed.

Lemma pack_match_suffix : suffix_body pack_match.
Proof.
  intros l r; unfold pack_match.
  apply bind_suffix; [intros m; apply digits_then_suffix|]; intros l1 r1.
  apply bind_suffix; [intros m; apply letter_suffix|]; intros l2 r2.
  apply bind_suffix; [intros m; apply digits_then_suffix|]; intros l3 r3.
  apply bind_suffix; [intros m; apply letter_suffix|]; intros l4 r4.
  apply bind_suffix; [intros m; apply letter_suffix | apply end_boundary_suffix].
Qed.

Lemma weight_match_suffix : suffix_body weight_match.
Proof.
  intros l r; unfold weight_match.
  apply bind_suffix; [intros m; apply digits_then_suffix|]; intros l1 r1.
  apply bind_suffix; [intros m; apply letter_suffix | apply end_boundary_suffix].
Qed.

Lemma sub_aux_chars (body : list ascii -> option (list ascii)) (c : ascii) :
  suffix_body body ->
  forall fuel pw l, In c (sub_aux body fuel pw l) -> In c l.
Proof.
  intros Hb fuel; induction fuel as [|f IH]; simpl; intros pw l H; [exact H|].
  destruct l as [|d l]; [exact H|].
  destruct (if pw then None else body (d :: l)) as [rest|] eqn:E.
  - apply IH in H; destruct pw; [discriminate|].
    destruct (Hb _ _ E) as [p Hp]; rewrite Hp; apply in_or_app; right; exact H.
  - destruct H as [H | H]; [left; exact H | right; exact (IH _ _ H)].
Qed.

Lemma re_sub_chars (body : list ascii -> option (list ascii)) (c : ascii) (s : string) :
  suffix_body body ->
  In c (list_ascii_of_string (re_sub body s)) -> In c (list_ascii_of_string s).
Proof.
  intros Hb; unfold re_sub; rewrite list_ascii_of_string_of_list_ascii.
  apply sub_aux_chars; exact Hb.
Qed.

Lemma sub_aux_no_digit (body : list ascii -> option (list ascii)) :
  (forall l, match l with c :: _ => is_digit c = false | [] => True end -> body l = None) ->
  forall fuel pw l, (forall c, In c l -> is_digit c = false) -> sub_aux body fuel pw l = l.
Proof.
  intros Hb fuel; induction fuel as [|f IH]; simpl; intros pw l H; [reflexivity|].
  destruct l as [|d l]; [reflexivity|].
  rewrite (Hb (d :: l) (H d (or_introl eq_refl))); destruct pw;
    rewrite IH by (intros c Hc; apply H; right; exact Hc); reflexivity.
Qed.

Lemma digits_then_none (l : list ascii) :
  match l with c :: _ => is_digit c = false | [] => True end -> digits_then l = None.
Proof. destruct l as [|c l]; cbn [digits_then]; [reflexivity|]; intros E; rewrite E; reflexivity. Qed.

(** X18: The cleaner of [clean_product_names] returns a text with no pipe,
    whose words are non-empty, free of whitespace and joined by single spaces.
    *)
Theorem cleaner_normal_form (name : string) :
  ~ In "|"%char (list_ascii_of_string (cleaner name)) /\
  String.concat " " (split_ws (cleaner name)) = cleaner name /\
  Forall (fun w => w <> "" /\ forall c, In c (list_ascii_of_string w) -> is_space c = false)
    (split_ws (cleaner name)).
Proof.
  assert (Hw : Forall word_ok (split_ws (re_sub weight_match (re_sub pack_match (remove_pipes name)))))
    by (apply split_ws_aux_words; simpl; tauto).
  unfold cleaner; rewrite (split_ws_concat _ Hw).
  split; [|split; [reflexivity | exact Hw]].
  intros H; apply in_concat_sp in H; destruct H as [E | (w & Hin & Hc)]; [discriminate E|].
  unfold split_ws in Hin; destruct (split_ws_aux_chars _ _ _ _ Hin Hc) as [[] | H].
  apply (re_sub_chars _ _ _ weight_match_suffix), (re_sub_chars _ _ _ pack_match_suffix) in H.
  unfold remove_pipes in H; rewrite list_ascii_of_string_of_list_ascii in H.
  apply filter_In in H; destruct H as [_ H]; rewrite Ascii.eqb_refl in H; discriminate H.
Qed.

(** X19: On a name with no digit the cleaner only drops the pipes and
    collapses the whitespace. *)
Theorem cleaner_no_digits (name : string) :
  (forall c, In c (list_ascii_of_string name) -> is_digit c = false) ->
  cleaner name = String.concat " " (split_ws (remove_pipes name)).
Proof.
  intros H.
  assert (Hr : forall c, In c (list_ascii_of_string (remove_pipes name)) -> is_digit c = false).
  { intros c Hc; unfold remove_pipes in Hc; rewrite list_ascii_of_string_of_list_ascii in Hc.
    apply filter_In in Hc; apply H; tauto. }
  assert (Hs : forall body, (forall l, match l with c :: _ => is_digit c = false | [] => True end
                                       -> body l = None) ->
               forall s, (forall c, In c (list_ascii_of_string s) -> is_digit c = false) ->
               re_sub body s = s).
  { intros body Hb s Hs; unfold re_sub.
    rewrite (sub_aux_no_digit body Hb _ _ _ Hs); apply string_of_list_ascii_of_string. }
  assert (Hp : forall l, match l with c :: _ => is_digit c = false | [] => True end -> pack_match l = None)
    by (intros l Hl; unfold pack_match; rewrite (digits_then_none l Hl); reflexivity).
  assert (Hg : forall l, match l with c :: _ => is_digit c = false | [] => True end -> weight_match l = None)
    by (intros l Hl; unfold weight_match; rewrite (digits_then_none l Hl); reflexivity).
  unfold cleaner; rewrite (Hs pack_match Hp _ Hr), (Hs weight_match Hg _ Hr); reflexivity.
Qed.

Lemma cleaner_no_digits_witness :
  cleaner "Test  Pale | Can " = String.concat " " (split_ws (remove_pipes "Test  Pale | Can ")).
Proof.
  apply cleaner_no_digits; intros c Hc.
  assert (F : forallb (fun c => negb (is_digit c)) (list_ascii_of_string "Test  Pale | Can ") = true)
    by reflexivity.
  rewrite forallb_forall in F; apply negb_true_iff, F, Hc.
Defined.

End CleanerFacts.

Module ReconFacts.

Import PyStr Matcher.

Open Scope string_scope.

Lemma run_rows_vendor (ratio : string -> string -> Z) (cin7 : string -> id_cell)
    (fetch : string -> list product) (sup : list string) (rows : list invoice_line)
    (ms : list match_result) :
  (forall s, In s sup -> strip s <> "") ->
  run_rows ratio cin7 fetch sup rows = Done ms ->
  Forall2 (fun r m => strip (supplier_name r) = "" \/ fetch (supplier_name r) = [] ->
                      shopify_status m = VendorNotFound) rows ms.
Proof.
  intros Hs; revert ms; induction rows as [|r rows IH]; simpl; intros ms H.
  - injection H as <-; constructor.
  - destruct (match_line ratio cin7 (cache_lookup fetch sup (supplier_name r)) r) as [|m] eqn:E;
      [discriminate|].
    destruct (run_rows ratio cin7 fetch sup rows) as [|ms'] eqn:E2; [discriminate|].
    injection H as <-; constructor; [|exact (IH ms' eq_refl)].
    intros Hv.
    assert (Hc : match cache_lookup fetch sup (supplier_name r) with
                 | Some (_ :: _) => False | _ => True end).
    { unfold cache_lookup.
      destruct (existsb (String.eqb (supplier_name r)) sup) eqn:Ex; [|exact I].
      destruct Hv as [Hb | Hf].
      - apply existsb_exists in Ex; destruct Ex as (x & Hx & Hxe).
        apply String.eqb_eq in Hxe; subst x; exfalso; exact (Hs _ Hx Hb).
      - rewrite Hf; exact I. }
    unfold match_line in E.
    destruct (cache_lookup fetch sup (supplier_name r)) as [[|p ps]|];
      try contradiction; injection E as <-; reflexivity.
Qed.

(** X20: [run_reconciliation_check] gives Vendor Not Found to every line whose
    supplier is blank or has no Shopify product. *)
Theorem reconciliation_vendor_not_found (ratio : string -> string -> Z) (cin7 : string -> id_cell)
    (fetch : string -> list product) (rows : list invoice_line) (ms : list match_result) :
  run_reconciliation_check ratio cin7 fetch rows = Done ms ->
  Forall2 (fun r m => strip (supplier_name r) = "" \/ fetch (supplier_name r) = [] ->
                      shopify_status m = VendorNotFound) rows ms.
Proof.
  unfold run_reconciliation_check; apply run_rows_vendor.
  intros s Hs; apply filter_In in Hs; destruct Hs as [_ Hs].
  apply negb_true_iff, String.eqb_neq in Hs; exact Hs.
Qed.

Lemma reconciliation_vendor_not_found_witness :
  let rows := [mkLine "Example Brew Co" "Test Pale" false "24" "33cl" "Can"] in
  let fetch := fun _ : string => ([] : list product) in
  exists ms, run_reconciliation_check (fun _ _ => 0) (fun _ => IdNone) fetch rows = Done ms /\
  Forall2 (fun r m => strip (supplier_name r) = "" \/ fetch (supplier_name r) = [] ->
                      shopify_status m = VendorNotFound) rows ms.
Proof.
  intros rows fetch; eexists.
  match goal with |- ?E /\ _ => assert (HE : E) by (vm_compute; reflexivity) end.
  split; [exact HE|].
  exact (reconciliation_vendor_not_found _ _ _ _ _ HE).
Defined.

End ReconFacts.
